(** * eufy_security: the data update coordinator

    A shallow embedding of
    [custom_components/eufy_security/coordinator.py]
    (class [EufySecurityDataUpdateCoordinator]) and the properties of its
    flag waits, message dispatcher and two-tier store.

    Python values are the values a JSON document can hold; dictionaries are
    association lists in insertion order; methods are functions from the
    coordinator's state to an outcome (a value or a raised exception) and
    the state they leave behind. *)

From Stdlib Require Import ZArith String Ascii Bool Lia.
From stdpp Require Import base list.

Set Warnings "-register-all".

Local Open Scope Z_scope.
Local Open Scope nat_scope.
Local Open Scope list_scope.

(** ** Python values *)

(** Dictionary keys: the hashable JSON scalars.  As in Python, [True] and
    [1] (and [False] and [0]) are one key. *)
Inductive key : Type :=
| KNone
| KBool (b : bool)
| KInt (n : Z)
| KStr (s : string).

(** The values [json.loads] produces; numbers are restricted to integers. *)
Inductive json : Type :=
| JNull
| JBool (b : bool)
| JNum (n : Z)
| JStr (s : string)
| JArr (l : list json)
| JObj (d : list (key * json)).

Definition dict (A : Type) : Type := list (key * A).

Definition key_num (k : key) : option Z :=
  match k with
  | KBool b => Some (Z.b2z b)
  | KInt n => Some n
  | _ => None
  end.

(** [k1 == k2] on keys. *)
Definition key_eqb (k1 k2 : key) : bool :=
  match k1, k2 with
  | KNone, KNone => true
  | KStr s, KStr t => String.eqb s t
  | _, _ =>
      match key_num k1, key_num k2 with
      | Some a, Some b => Z.eqb a b
      | _, _ => false
      end
  end.

(** [d.get(k)]: the value stored under the first (and only) equal key. *)
Fixpoint dict_get {A : Type} (k : key) (d : dict A) : option A :=
  match d with
  | [] => None
  | (k', v) :: r => if key_eqb k' k then Some v else dict_get k r
  end.

(** [d[k] = v]: an existing key keeps its place (and its key object), a new
    key is appended. *)
Fixpoint dict_set {A : Type} (k : key) (v : A) (d : dict A) : dict A :=
  match d with
  | [] => [(k, v)]
  | (k', v') :: r =>
      if key_eqb k' k then (k', v) :: r else (k', v') :: dict_set k v r
  end.

(** [hash(x)] succeeds on scalars only; lists and dicts are unhashable. *)
Definition to_key (x : json) : option key :=
  match x with
  | JNull => Some KNone
  | JBool b => Some (KBool b)
  | JNum n => Some (KInt n)
  | JStr s => Some (KStr s)
  | JArr _ | JObj _ => None
  end.

Definition json_num (x : json) : option Z :=
  match x with
  | JBool b => Some (Z.b2z b)
  | JNum n => Some n
  | _ => None
  end.

(** [a == b] on values: numbers and booleans compare by value, lists
    element by element, dicts by size and by the value found under each
    key, whatever the order. *)
Fixpoint py_eq (a b : json) {struct a} : bool :=
  match a, b with
  | JNull, JNull => true
  | JStr s, JStr t => String.eqb s t
  | JArr xs, JArr ys =>
      (fix all2 (xs ys : list json) {struct xs} : bool :=
         match xs, ys with
         | [], [] => true
         | x :: xs', y :: ys' => py_eq x y && all2 xs' ys'
         | _, _ => false
         end) xs ys
  | JObj d, JObj d' =>
      Nat.eqb (length d) (length d') &&
      (fix every (d : list (key * json)) {struct d} : bool :=
         match d with
         | [] => true
         | p :: r =>
             match p with
             | (k, v) =>
                 match dict_get k d' with
                 | Some v' => py_eq v v'
                 | None => false
                 end && every r
             end
         end) d
  | _, _ =>
      match json_num a, json_num b with
      | Some m, Some n => Z.eqb m n
      | _, _ => false
      end
  end.

(** ** Exceptions and outcomes *)

Inductive exn : Type :=
| KeyError
| TypeError
| AttributeError
| IndexError
| ValueError
| Exception_ (msg : string)
| UpdateFailed (cause : exn).

Inductive outcome (A : Type) : Type :=
| Ret (a : A)
| Raise (e : exn).

Arguments Ret {A} a.
Arguments Raise {A} e.

Definition obind {A B : Type} (o : outcome A) (f : A -> outcome B) : outcome B :=
  match o with
  | Ret a => f a
  | Raise e => Raise e
  end.

Notation "x <- e ;; k" := (obind e (fun x => k))
  (at level 100, e at next level, right associativity).

(** [x[k]] for a string [k]: only a dict can be subscripted by a string. *)
Definition getitem (x : json) (k : string) : outcome json :=
  match x with
  | JObj d =>
      match dict_get (KStr k) d with
      | Some v => Ret v
      | None => Raise KeyError
      end
  | _ => Raise TypeError
  end.

(** [x.get(k, default)]. *)
Definition get_default (x : json) (k : string) (default : json) : outcome json :=
  match x with
  | JObj d =>
      match dict_get (KStr k) d with
      | Some v => Ret v
      | None => Ret default
      end
  | _ => Raise AttributeError
  end.

(** [x[k] = v] on a value known to be a dict. *)
Definition setitem (x : json) (k : json) (v : json) : outcome json :=
  match x with
  | JObj d =>
      match to_key k with
      | Some k' => Ret (JObj (dict_set k' v d))
      | None => Raise TypeError
      end
  | _ => Raise TypeError
  end.

(** [x + "s"]. *)
Definition add_s (x : json) : outcome string :=
  match x with
  | JStr s => Ret (String.append s "s")
  | _ => Raise TypeError
  end.

(** [value.replace(c, "")] for a one-character [c]. *)
Fixpoint str_remove (c : ascii) (s : string) : string :=
  match s with
  | EmptyString => EmptyString
  | String a r => if Ascii.eqb a c then str_remove c r else String a (str_remove c r)
  end.

Definition NUL : ascii := Ascii.zero.

(** How the replacement fields met so far were numbered. *)
Inductive numbering : Type :=
| Unnumbered
| Automatic (next : nat)
| Manual.

(** [template.format(arg)] with one positional argument, for the templates
    made of text, the fields [{}] and [{0}] and the escapes [{{] and [}}]
    ([supported_template] below): on these the string, or the error, is
    Python's, and a string is returned on these only
    ([str_format_returns_supported]).  A field with another index or a
    name, a conversion and a format spec are outside the model: the
    [ValueError] given for them is not what [str.format] does, so a
    statement about a call that raises is made for supported templates
    only. *)
Fixpoint str_format (template : string) (arg : string) (mode : numbering)
  : outcome string :=
  match template with
  | EmptyString => Ret EmptyString
  | String "{" (String "{" r) =>
      t <- str_format r arg mode ;; Ret (String "{" t)
  | String "}" (String "}" r) =>
      t <- str_format r arg mode ;; Ret (String "}" t)
  | String "{" (String "}" r) =>
      match mode with
      | Manual => Raise ValueError
      | Automatic (S _) => Raise IndexError
      | _ => t <- str_format r arg (Automatic 1) ;; Ret (String.append arg t)
      end
  | String "{" (String "0" (String "}" r)) =>
      match mode with
      | Automatic _ => Raise ValueError
      | _ => t <- str_format r arg Manual ;; Ret (String.append arg t)
      end
  | String "{" _ => Raise ValueError
  | String "}" _ => Raise ValueError
  | String c r => t <- str_format r arg mode ;; Ret (String c t)
  end.

(** ** The coordinator and its surroundings *)

(** What [send_message] was given: the text of [json.dumps(x)], or the
    dict itself where the source passes it undumped. *)
Inductive outbound : Type :=
| Dumps (x : json)
| Undumped (x : json).

(** Modelled from the spec: the transport [EufySecurityWebSocket]
    (websocket.py is not part of the sources).  It owns the connection,
    accepts outbound sends and delivers the lifecycle callbacks; connecting
    and sending are points where the calling task is suspended. *)
Record EufySecurityWebSocket : Type := mkWebSocket {
  connected : bool;
  sent : list outbound
}.

(** The merged state handed to the consumer: [self.data]. *)
Record merged : Type := mkMerged {
  cache : dict (dict json);   (* self.data["cache"]: serial -> property -> value *)
  data : json                 (* self.data["data"]: the live snapshot *)
}.

Record State : Type := mkState {
  ws : option EufySecurityWebSocket;       (* self.ws, None until initialize_ws *)
  self_data : merged;                      (* self.data *)
  start_listening_state : bool;            (* self.start_listening_state *)
  poll_refresing_state : bool;             (* self.poll_refresing_state *)
  GET_PROPERTIES_MESSAGE : json;           (* module-level dict, shared by all calls *)
  GET_PROPERTIES_METADATA_MESSAGE : json;  (* module-level dict, shared by all calls *)
  published : list merged;                 (* what async_set_updated_data was given, oldest first *)
  clock : nat                              (* suspensions of the running task so far *)
}.

Definition with_ws (w : option EufySecurityWebSocket) (s : State) : State :=
  mkState w (self_data s) (start_listening_state s) (poll_refresing_state s)
    (GET_PROPERTIES_MESSAGE s) (GET_PROPERTIES_METADATA_MESSAGE s) (published s) (clock s).

Definition with_data (d : merged) (s : State) : State :=
  mkState (ws s) d (start_listening_state s) (poll_refresing_state s)
    (GET_PROPERTIES_MESSAGE s) (GET_PROPERTIES_METADATA_MESSAGE s) (published s) (clock s).

Definition with_start_listening_state (b : bool) (s : State) : State :=
  mkState (ws s) (self_data s) b (poll_refresing_state s)
    (GET_PROPERTIES_MESSAGE s) (GET_PROPERTIES_METADATA_MESSAGE s) (published s) (clock s).

Definition with_poll_refresing_state (b : bool) (s : State) : State :=
  mkState (ws s) (self_data s) (start_listening_state s) b
    (GET_PROPERTIES_MESSAGE s) (GET_PROPERTIES_METADATA_MESSAGE s) (published s) (clock s).

Definition with_GET_PROPERTIES_MESSAGE (m : json) (s : State) : State :=
  mkState (ws s) (self_data s) (start_listening_state s) (poll_refresing_state s)
    m (GET_PROPERTIES_METADATA_MESSAGE s) (published s) (clock s).

Definition with_GET_PROPERTIES_METADATA_MESSAGE (m : json) (s : State) : State :=
  mkState (ws s) (self_data s) (start_listening_state s) (poll_refresing_state s)
    (GET_PROPERTIES_MESSAGE s) m (published s) (clock s).

Definition with_published (p : list merged) (s : State) : State :=
  mkState (ws s) (self_data s) (start_listening_state s) (poll_refresing_state s)
    (GET_PROPERTIES_MESSAGE s) (GET_PROPERTIES_METADATA_MESSAGE s) p (clock s).

Definition with_clock (n : nat) (s : State) : State :=
  mkState (ws s) (self_data s) (start_listening_state s) (poll_refresing_state s)
    (GET_PROPERTIES_MESSAGE s) (GET_PROPERTIES_METADATA_MESSAGE s) (published s) n.

(** A method: it runs on a state and leaves an outcome and a state.  A
    raised exception keeps the mutations made before it. *)
Definition M (A : Type) : Type := State -> outcome A * State.

Definition ret {A : Type} (a : A) : M A := fun s => (Ret a, s).
Definition raise {A : Type} (e : exn) : M A := fun s => (Raise e, s).
Definition lift {A : Type} (o : outcome A) : M A := fun s => (o, s).
Definition modify (f : State -> State) : M unit := fun s => (Ret tt, f s).

Definition bind {A B : Type} (m : M A) (f : A -> M B) : M B :=
  fun s =>
    match m s with
    | (Ret a, s') => f a s'
    | (Raise e, s') => (Raise e, s')
    end.

Notation "'do' x <- e ; k" := (bind e (fun x => k))
  (at level 10, x name, e at level 100, k at level 200).
Notation "'run' e ; k" := (bind e (fun _ => k))
  (at level 10, e at level 100, k at level 200).

(** One row of [EVENT_TYPE_CONFIGURATION]. *)
Record event_conf : Type := mkEventConf {
  conf_name : string;        (* ["name"]: the default property name *)
  conf_value : string;       (* ["value"]: the field holding the value *)
  conf_is_cached : bool      (* ["is_cached"] *)
}.

Fixpoint conf_get (event_type : string) (table : list (string * event_conf))
  : option event_conf :=
  match table with
  | [] => None
  | (k, c) :: r => if String.eqb k event_type then Some c else conf_get event_type r
  end.

(** Modelled from the spec: [MESSAGE_TYPES_TO_PROCESS] of const.py, which is
    not part of the sources: "only two discriminator values are processed". *)
Definition MESSAGE_TYPES_TO_PROCESS : list string := ["result"; "event"]%string.

(** Modelled from the spec: [MESSAGE_IDS_TO_PROCESS] of const.py, which is
    not part of the sources: "only two IDs are recognized". *)
Definition MESSAGE_IDS_TO_PROCESS : list string :=
  ["start_listening"; "poll_refresh"]%string.

(** [x in l] for a list of strings. *)
Definition str_in (x : string) (l : list string) : bool := existsb (String.eqb x) l.

(** Modelled from the spec: the members of [DeviceType] (generated.py is not
    part of the sources): a station, or another device type. *)
Inductive DeviceType : Type :=
| STATION
| OTHER (code : nat).

Definition DeviceType_eqb (a b : DeviceType) : bool :=
  match a, b with
  | STATION, STATION => true
  | OTHER m, OTHER n => Nat.eqb m n
  | _, _ => false
  end.

(** What the transport delivers to the coordinator. *)
Inductive callback : Type :=
| Opened
| Message (payload : json)
| Closed
| Errored (message : json).

Section Coordinator.

(** [EVENT_TYPE_CONFIGURATION], [START_LISTENING_MESSAGE] and
    [POLL_REFRESH_MESSAGE] are constants of const.py, which is not part of
    the sources: the development holds for any table and any two
    messages. *)
Variable EVENT_TYPE_CONFIGURATION : list (string * event_conf).
Variable START_LISTENING_MESSAGE : json.
Variable POLL_REFRESH_MESSAGE : json.

(** What the transport delivers while the running task is suspended for
    the [n]-th time. *)
Variable deliveries : nat -> list callback.

(** *** The flags *)

(** Each setter takes a lock it has just created, so it never waits for
    it: the assignment is all that happens. *)
Definition set_start_listening_state (value : bool) : M unit :=
  modify (with_start_listening_state value).

Definition set_poll_refreshing_state (value : bool) : M unit :=
  modify (with_poll_refresing_state value).

(** *** The store *)

(** The loop of [set_data_value_for_property] over the entity records:
    the first record whose serial number matches is given the property,
    and the scan stops there. *)
Fixpoint scan_entities (entities : list json) (serial_number property_name value : json)
  : outcome (list json) :=
  match entities with
  | [] => Ret []
  | entity :: rest =>
      sn <- getitem entity "serialNumber" ;;
      if py_eq sn serial_number then
        entity' <- setitem entity property_name value ;;
        Ret (entity' :: rest)
      else
        rest' <- scan_entities rest serial_number property_name value ;;
        Ret (entity :: rest')
  end.

(** [for entity in collection: ...]: a list gives its records; a dict
    gives its keys and a string its characters, none of which can be
    subscripted by ["serialNumber"]; anything else is not iterable. *)
Definition scan_collection (collection serial_number property_name value : json)
  : outcome json :=
  match collection with
  | JArr entities =>
      entities' <- scan_entities entities serial_number property_name value ;;
      Ret (JArr entities')
  | JObj [] => Ret collection
  | JStr EmptyString => Ret collection
  | _ => Raise TypeError
  end.

(** The matching record is changed in place; here the changed list is put
    back under its key, which keeps its position in the snapshot. *)
Definition set_data_value_for_property
    (sources : string) (serial_number property_name value : json) : M unit :=
  fun s =>
    match
      (collection <- getitem (data (self_data s)) sources ;;
       collection' <- scan_collection collection serial_number property_name value ;;
       setitem (data (self_data s)) (JStr sources) collection')
    with
    | Ret data' => (Ret tt, with_data (mkMerged (cache (self_data s)) data') s)
    | Raise e => (Raise e, s)
    end.

Definition strip_nul (value : json) : json :=
  match value with
  | JStr t => JStr (str_remove NUL t)
  | _ => value
  end.

Definition with_cache (c : dict (dict json)) (s : State) : State :=
  with_data (mkMerged c (data (self_data s))) s.

Definition set_cache_value_for_property
    (sources : string) (serial_number property_name value : json) : M unit :=
  fun s =>
    let value := strip_nul value in
    match to_key serial_number with
    | None => (Raise TypeError, s)
    | Some sn =>
        let s :=
          match dict_get sn (cache (self_data s)) with
          | None => with_cache (dict_set sn [] (cache (self_data s))) s
          | Some _ => s
          end in
        match dict_get sn (cache (self_data s)), to_key property_name with
        | Some properties, Some pn =>
            (Ret tt,
             with_cache (dict_set sn (dict_set pn value properties) (cache (self_data s))) s)
        | Some _, None => (Raise TypeError, s)
        | None, _ => (Raise KeyError, s)
        end
    end.

(** *** The dispatcher *)

(** Modelled from the spec: [async_set_updated_data] of the hosting
    framework's base class, "publish the merged state to subscribers". *)
Definition async_set_updated_data (d : merged) : M unit :=
  modify (fun s => with_published (published s ++ [d]) (with_data d s)).

Definition on_message_result (payload message : json) : M unit :=
  do message_id <- lift (getitem payload "messageId");
  match message_id with
  | JStr message_id =>
      if negb (str_in message_id MESSAGE_IDS_TO_PROCESS) then ret tt
      else
        run (if String.eqb message_id "start_listening" then
               do state <- lift (getitem message "state");
               run modify (fun s => with_data (mkMerged (cache (self_data s)) state) s);
               set_start_listening_state true
             else ret tt);
        if String.eqb message_id "poll_refresh" then
          set_poll_refreshing_state true
        else
          fun s => async_set_updated_data (self_data s) s
  | _ => ret tt
  end.

Definition on_message_event (message : json) : M unit :=
  do event_type <- lift (getitem message "event");
  do event_sources <- lift (x <- getitem message "source" ;; add_s x);
  do event_serial_number <- lift (getitem message "serialNumber");
  match event_type with
  | JArr _ | JObj _ => raise TypeError
  | JStr event_type =>
      match conf_get event_type EVENT_TYPE_CONFIGURATION with
      | None => ret tt
      | Some conf =>
          do event_property_name <-
            lift (get_default message "name" (JStr (conf_name conf)));
          do event_property_value <- lift (getitem message (conf_value conf));
          run (if conf_is_cached conf then
                 set_cache_value_for_property
                   event_sources event_serial_number
                   event_property_name event_property_value
               else
                 set_data_value_for_property
                   event_sources event_serial_number
                   event_property_name event_property_value);
          fun s => async_set_updated_data (self_data s) s
      end
  | _ => ret tt
  end.

(** [on_message], on the payload [message.json()] gave. *)
Definition on_message (payload : json) : M unit :=
  do message_type <- lift (getitem payload "type");
  match message_type with
  | JStr message_type =>
      if negb (str_in message_type MESSAGE_TYPES_TO_PROCESS) then ret tt
      else
        do message <- lift (getitem payload message_type);
        if String.eqb message_type "result" then on_message_result payload message
        else if String.eqb message_type "event" then on_message_event message
        else fun s => async_set_updated_data (self_data s) s
  | _ => ret tt
  end.

Definition on_open : M unit := ret tt.
Definition on_close : M unit := set_start_listening_state false.
Definition on_error (message : json) : M unit := set_start_listening_state false.

(** *** Suspension *)

(** The transport runs a callback to its end; what it raises stays with
    the transport, what it changed stays changed. *)
Definition deliver (s : State) (c : callback) : State :=
  snd (match c with
       | Opened => on_open s
       | Message payload => on_message payload s
       | Closed => on_close s
       | Errored message => on_error message s
       end).

(** The running task is suspended once: the callbacks due are run in
    order, then the task resumes. *)
Definition suspend (s : State) : State :=
  let s' := fold_left deliver (deliveries (clock s)) s in
  with_clock (S (clock s')) s'.

(** [await asyncio.sleep(1)]. *)
Definition sleep : State -> State := suspend.

(** *** The transport, as the coordinator uses it *)

Definition new_websocket : EufySecurityWebSocket := mkWebSocket false [].

(** [await self.ws.<method>(...)]: an attribute of [None] cannot be
    fetched; otherwise the transport does its work and the caller is
    suspended once. *)
Definition ws_call (f : EufySecurityWebSocket -> EufySecurityWebSocket) : M unit :=
  fun s =>
    match ws s with
    | None => (Raise AttributeError, s)
    | Some w => (Ret tt, suspend (with_ws (Some (f w)) s))
    end.

Definition set_ws : M unit :=
  ws_call (fun w => mkWebSocket true (sent w)).

Definition send_message (message : outbound) : M unit :=
  ws_call (fun w => mkWebSocket (connected w) (sent w ++ [message])).

Definition async_send_message (message : outbound) : M unit :=
  send_message message.

(** *** Waiting on a flag *)

(** The [while] loop shared, letter for letter, by
    [check_if_started_listening] and [check_if_poll_refreshed]; [flag]
    reads the attribute the loop tests.  The lock around the loop is
    created by the call itself and is never waited for.  [None]: the fuel
    ran out. *)
Fixpoint check_loop (flag : State -> bool) (fuel : nat) (to_be_value : bool)
    (counter : nat) (s : State) : option (bool * State) :=
  match fuel with
  | O => None
  | S fuel =>
      if negb (Bool.eqb (flag s) to_be_value) then
        let s := sleep s in
        let counter := counter + 1 in
        if 5 <? counter then Some (false, s)
        else check_loop flag fuel to_be_value counter s
      else Some (true, s)
  end.

Definition check_if_started_listening (fuel : nat) (to_be_value : bool) (s : State)
  : option (bool * State) :=
  let counter := 0 in
  check_loop start_listening_state fuel to_be_value counter s.

Definition check_if_poll_refreshed (fuel : nat) (to_be_value : bool) (s : State)
  : option (bool * State) :=
  let counter := 0 in
  check_loop poll_refresing_state fuel to_be_value counter s.

(** *** Commands *)

Definition async_start_listening : M unit :=
  run set_start_listening_state false;
  async_send_message (Dumps START_LISTENING_MESSAGE).

Definition async_poll_refresh : M unit :=
  run set_poll_refreshing_state false;
  async_send_message (Dumps POLL_REFRESH_MESSAGE).

Definition get_device_type_name (device_type : DeviceType) : string :=
  if DeviceType_eqb device_type STATION then "station"%string else "device"%string.

(** [message["command"].format(name)]; only a string has [format]. *)
Definition format_command (message : json) (name : string) : outcome json :=
  command <- getitem message "command" ;;
  match command with
  | JStr template => t <- str_format template name Unnumbered ;; Ret (JStr t)
  | _ => Raise AttributeError
  end.

(** The body shared by the two [get_properties] methods, on the
    module-level dict [message] names; the dict is updated in place. *)
Definition fill_message (message : json) (device_type : DeviceType) (serial_no : json)
  : outcome json :=
  command <- format_command message (get_device_type_name device_type) ;;
  message <- setitem message (JStr "command") command ;;
  setitem message (JStr "serialNumber") serial_no.

Definition async_get_properties_metadata_for_device
    (device_type : DeviceType) (serial_no : json) : M unit :=
  fun s =>
    match fill_message (GET_PROPERTIES_METADATA_MESSAGE s) device_type serial_no with
    | Raise e => (Raise e, s)
    | Ret message =>
        async_send_message (Undumped message)
          (with_GET_PROPERTIES_METADATA_MESSAGE message s)
    end.

Definition async_get_properties_for_device
    (device_type : DeviceType) (serial_no : json) : M unit :=
  fun s =>
    match fill_message (GET_PROPERTIES_MESSAGE s) device_type serial_no with
    | Raise e => (Raise e, s)
    | Ret message =>
        async_send_message (Undumped message)
          (with_GET_PROPERTIES_MESSAGE message s)
    end.

(** *** The two entry points *)

Definition initialize_ws (fuel : nat) (s : State) : option (outcome unit * State) :=
  let s := with_ws (Some new_websocket) s in
  match (run set_ws; async_start_listening) s with
  | (Raise e, s) => Some (Raise e, s)
  | (Ret _, s) =>
      match check_if_started_listening fuel true s with
      | None => None
      | Some (false, s) =>
          Some (Raise (Exception_ "Start Listening was not completed in timely manner"), s)
      | Some (true, s) => Some (Ret tt, s)
      end
  end.

Definition _async_update_data (fuel : nat) (s : State)
  : option (outcome merged * State) :=
  match async_poll_refresh s with
  | (Raise exception, s) => Some (Raise (UpdateFailed exception), s)
  | (Ret _, s) =>
      match check_if_poll_refreshed fuel true s with
      | None => None
      | Some (false, s) =>
          Some (Raise (UpdateFailed
                         (Exception_ "Refresh Poll was not completed in timely manner")), s)
      | Some (true, s) => Some (Ret (self_data s), s)
      end
  end.

End Coordinator.

(** ** States and messages used in the examples *)

(** A JSON object, as [json.loads] builds it: string keys, in order. *)
Definition obj (l : list (string * json)) : json :=
  JObj (map (fun p => (KStr (fst p), snd p)) l).

(** Modelled from the spec: [GET_PROPERTIES_MESSAGE] of const.py, which is
    not part of the sources: a command template whose device/station
    segment is substituted, and the serial number. *)
Definition GET_PROPERTIES_TEMPLATE : json :=
  obj [("command", JStr "{0}.get_properties"); ("serialNumber", JNull)]%string.

(** Modelled from the spec: [GET_PROPERTIES_METADATA_MESSAGE] of const.py,
    which is not part of the sources. *)
Definition GET_PROPERTIES_METADATA_TEMPLATE : json :=
  obj [("command", JStr "{0}.get_properties_metadata"); ("serialNumber", JNull)]%string.

(** The coordinator [__init__] leaves, in a freshly imported module. *)
Definition __init__ : State :=
  mkState None (mkMerged [] (JObj [])) false false
    GET_PROPERTIES_TEMPLATE GET_PROPERTIES_METADATA_TEMPLATE [] 0.

(** Two fixed command objects, standing for [START_LISTENING_MESSAGE] and
    [POLL_REFRESH_MESSAGE] in the examples. *)
Definition a_start_listening_message : json :=
  obj [("messageId", JStr "start_listening"); ("command", JStr "start_listening")]%string.

Definition a_poll_refresh_message : json :=
  obj [("messageId", JStr "poll_refresh"); ("command", JStr "driver.poll_refresh")]%string.

(** The results that acknowledge the two commands. *)
Definition start_listening_result : json :=
  obj [("type", JStr "result"); ("messageId", JStr "start_listening");
       ("result",
        obj [("state",
              obj [("devices",
                    JArr [obj [("serialNumber", JStr "D1"); ("name", JStr "Cam1")]])])])]%string.

Definition poll_refresh_result : json :=
  obj [("type", JStr "result"); ("messageId", JStr "poll_refresh");
       ("result", obj [])]%string.

(** A coordinator whose transport exists. *)
Definition connected_coordinator : State :=
  with_ws (Some (mkWebSocket true [])) __init__.

(** A transport that delivers [payload] during the [n]-th suspension. *)
Definition deliver_at (n : nat) (payload : json) : nat -> list callback :=
  fun m => if Nat.eqb m n then [Message payload] else [].

(** A result whose message id the coordinator does not know. *)
Definition unknown_id_result : json :=
  obj [("type", JStr "result"); ("messageId", JStr "unknown_id");
       ("result", obj [])]%string.

(** A message of a type the coordinator does not process. *)
Definition version_message : json :=
  obj [("type", JStr "version"); ("serverVersion", JStr "1.0.0")]%string.

(** An event of an unknown type, and the same event without its serial
    number. *)
Definition unknown_event : json :=
  obj [("type", JStr "event");
       ("event", obj [("source", JStr "device"); ("event", JStr "unheard of");
                      ("serialNumber", JStr "D1")])]%string.

Definition unknown_event_without_serial : json :=
  obj [("type", JStr "event");
       ("event", obj [("source", JStr "driver"); ("event", JStr "unheard of")])]%string.

(** A poll-refresh result that carries no ["result"] field. *)
Definition poll_refresh_result_without_result : json :=
  obj [("type", JStr "result"); ("messageId", JStr "poll_refresh")]%string.

(** A table with one live and one cached event type. *)
Definition a_configuration : list (string * event_conf) :=
  [("motion detected", mkEventConf "motionDetected" "state" false);
   ("got rtsp url", mkEventConf "rtspUrl" "rtspUrl" true)]%string.

(** A coordinator that has received the snapshot of
    [start_listening_result]: one collection, "devices", with camera D1. *)
Definition listening_coordinator : State :=
  snd (on_message a_configuration start_listening_result connected_coordinator).

(** The event message whose source is [source] and whose other fields are
    [fields]. *)
Definition event_from (source : string) (fields : list (key * json)) : json :=
  obj [("type", JStr "event");
       ("event", JObj ((KStr "source", JStr source) :: fields))]%string.

(** The fields of a cached event for serial number S1. *)
Definition rtsp_url_fields : list (key * json) :=
  [(KStr "event", JStr "got rtsp url"); (KStr "serialNumber", JStr "S1");
   (KStr "rtspUrl", JStr "rtsp://camera/live0")]%string.

(** A transport that delivers nothing. *)
Definition quiet : nat -> list callback := fun _ => [].

(** ** Notions used in the statements *)

(** The state reached after [k] sleeps. *)
Fixpoint after_sleeps (conf : list (string * event_conf)) (deliveries : nat -> list callback)
    (k : nat) (s : State) : State :=
  match k with
  | O => s
  | S k => after_sleeps conf deliveries k (sleep conf deliveries s)
  end.

(** What no callback touches: the transport, the clock and the module's
    two message dicts. *)
Definition surroundings (s : State)
  : option EufySecurityWebSocket * nat * json * json :=
  (ws s, clock s, GET_PROPERTIES_MESSAGE s, GET_PROPERTIES_METADATA_MESSAGE s).

Definition keeps_surroundings {A : Type} (m : M A) : Prop :=
  forall s, surroundings (snd (m s)) = surroundings s.

(** The contract of a flag wait, in the words of the specification, for a
    wait that gives up after [max_polls] failed checks: the call returns
    true, without sleeping, when the flag already has the expected value;
    true at the first check that sees the expected value; false after
    exactly [max_polls] failed checks, one sleep after each. *)
Definition flag_wait_contract (max_polls : nat) (flag : State -> bool)
    (check : nat -> bool -> State -> option (bool * State))
    (conf : list (string * event_conf)) (deliveries : nat -> list callback) : Prop :=
  forall (fuel : nat) (to_be_value : bool) (s : State),
    max_polls <= fuel ->
    (flag s = to_be_value -> check fuel to_be_value s = Some (true, s))
    /\ (forall k, k < max_polls ->
          (forall j, j < k -> flag (after_sleeps conf deliveries j s) <> to_be_value) ->
          flag (after_sleeps conf deliveries k s) = to_be_value ->
          check fuel to_be_value s = Some (true, after_sleeps conf deliveries k s))
    /\ ((forall j, j < max_polls ->
           flag (after_sleeps conf deliveries j s) <> to_be_value) ->
        check fuel to_be_value s = Some (false, after_sleeps conf deliveries max_polls s)
        /\ clock (after_sleeps conf deliveries max_polls s) = clock s + max_polls).

(** A refresh tick in the words of the specification: the poll-refreshed
    flag is reset, the poll-refresh command is sent, the flag is waited on,
    and the tick raises exactly when the wait returned false; otherwise it
    returns the merged state. *)
Definition tick_as_specified (conf : list (string * event_conf))
    (POLL_REFRESH_MESSAGE : json) (deliveries : nat -> list callback)
    (fuel : nat) (s : State) : Prop :=
  exists w s1 b s2 r,
    ws s = Some w
    /\ s1 = suspend conf deliveries
              (with_ws (Some (mkWebSocket (connected w)
                                (sent w ++ [Dumps POLL_REFRESH_MESSAGE])))
                 (with_poll_refresing_state false s))
    /\ check_if_poll_refreshed conf deliveries fuel true s1 = Some (b, s2)
    /\ _async_update_data conf POLL_REFRESH_MESSAGE deliveries fuel s = Some (r, s2)
    /\ ((exists e, r = Raise e) <-> b = false)
    /\ (b = false ->
        r = Raise (UpdateFailed
                     (Exception_ "Refresh Poll was not completed in timely manner")))
    /\ (b = true -> r = Ret (self_data s2)).

(** An event type the table does not know: a hashable value that is not
    one of its keys. *)
Definition unknown_event_type (conf : list (string * event_conf)) (event_type : json) : Prop :=
  to_key event_type <> None
  /\ forall t, event_type = JStr t -> conf_get t conf = None.

(** A record that carries a serial number other than [serial_number]. *)
Definition other_serial (serial_number entity : json) : Prop :=
  exists x, getitem entity "serialNumber" = Ret x /\ py_eq x serial_number = false.

(** ** The rest of the coordinator *)

(** [async_set_rtsp].  [SET_RTSP_STREAM_MESSAGE] is a dict of const.py that
    every call shares and updates in place: it is threaded beside the
    state, read before the call and given back after it. *)
Definition async_set_rtsp (conf : list (string * event_conf))
    (deliveries : nat -> list callback) (serial_no value : json)
    (SET_RTSP_STREAM_MESSAGE : json) (s : State) : outcome unit * (json * State) :=
  let message := SET_RTSP_STREAM_MESSAGE in
  match setitem message (JStr "serialNumber") serial_no with
  | Raise e => (Raise e, (message, s))
  | Ret message =>
      match setitem message (JStr "value") value with
      | Raise e => (Raise e, (message, s))
      | Ret message =>
          let (outcome, s) := async_send_message conf deliveries (Dumps message) s in
          (outcome, (message, s))
      end
  end.

(** ** Notions used in the further statements *)

Definition is_ret {A : Type} (o : outcome A) : bool :=
  match o with
  | Ret _ => true
  | Raise _ => false
  end.

(** [x[k]] is the string [v]. *)
Definition has_str (x : json) (k v : string) : bool :=
  match getitem x k with
  | Ret (JStr t) => String.eqb t v
  | _ => false
  end.

(** A message of type "result" that carries a result and the message id
    [id]. *)
Definition result_for (id : string) (payload : json) : bool :=
  has_str payload "type" "result"
  && is_ret (getitem payload "result")
  && has_str payload "messageId" id.

(** The acknowledgements the two flags wait for: a poll-refresh result,
    and a start-listening result whose result holds a state. *)
Definition poll_ack (payload : json) : bool := result_for "poll_refresh" payload.

Definition listening_ack (payload : json) : bool :=
  result_for "start_listening" payload
  && match getitem payload "result" with
     | Ret message => is_ret (getitem message "state")
     | Raise _ => false
     end.

(** The flags after a callback, read off the callback alone. *)
Definition listening_after (b : bool) (c : callback) : bool :=
  match c with
  | Opened => b
  | Message payload => b || listening_ack payload
  | Closed => false
  | Errored _ => false
  end.

Definition poll_after (b : bool) (c : callback) : bool :=
  match c with
  | Message payload => b || poll_ack payload
  | _ => b
  end.

Definition delivers_poll_ack (c : callback) : bool := poll_after false c.

(** What the transport delivers during the [k] suspensions that start
    with suspension [t]. *)
Fixpoint window (deliveries : nat -> list callback) (t k : nat) : list callback :=
  match k with
  | O => []
  | S k => deliveries t ++ window deliveries (S t) k
  end.

(** Whether one of the six checks of a wait that starts after suspension
    [t] sees the listening flag set: the check made after [k] sleeps sees
    what suspensions [t], ..., [t + k] delivered to a flag that was false. *)
Definition listening_seen (deliveries : nat -> list callback) (t : nat) : bool :=
  existsb (fun k => fold_left listening_after (window deliveries t (S k)) false)
    (seq 0 6).

(** [self.data["cache"][serial_number][property_name]], if it is there. *)
Definition cache_get (c : dict (dict json)) (serial_number property_name : key)
  : option json :=
  match dict_get serial_number c with
  | Some properties => dict_get property_name properties
  | None => None
  end.

(** No string cached as a property's value holds a NUL character. *)
Definition cache_clean (c : dict (dict json)) : Prop :=
  forall serial_number property_name t,
    cache_get c serial_number property_name = Some (JStr t) ->
    ~ In NUL (list_ascii_of_string t).

(** The state after [self.async_set_updated_data(self.data)]. *)
Definition published_state (s : State) : State :=
  snd (async_set_updated_data (self_data s) s).

(** The row of the table that [on_message] finds for an event message, if
    the message is an event of a type the table knows. *)
Definition event_row (conf : list (string * event_conf)) (payload : json)
  : option event_conf :=
  if has_str payload "type" "event" then
    match getitem payload "event" with
    | Ret message =>
        match getitem message "event" with
        | Ret (JStr event_type) => conf_get event_type conf
        | _ => None
        end
    | Raise _ => None
    end
  else None.

(** All that [on_message] can do to a state, case by case: nothing; set the
    poll-refreshed flag; replace the snapshot, set the listening flag and
    publish; for an event of a live type, one call of
    [set_data_value_for_property] that returned, then publish; for an event
    of a cached type, one call of [set_cache_value_for_property], then
    publish if it returned. *)
Inductive message_effect (conf : list (string * event_conf)) (payload : json) (s : State)
  : outcome unit -> State -> Prop :=
| effect_none (o : outcome unit) :
    poll_ack payload = false -> listening_ack payload = false ->
    event_row conf payload = None \/ (exists e, o = Raise e) ->
    message_effect conf payload s o s
| effect_poll_ack :
    poll_ack payload = true -> listening_ack payload = false ->
    message_effect conf payload s (Ret tt) (with_poll_refresing_state true s)
| effect_listening_ack (message state : json) :
    getitem payload "result" = Ret message ->
    getitem message "state" = Ret state ->
    listening_ack payload = true -> poll_ack payload = false ->
    message_effect conf payload s (Ret tt)
      (published_state
         (with_start_listening_state true
            (with_data (mkMerged (cache (self_data s)) state) s)))
| effect_live (row : event_conf) (sources : string)
    (serial_number property_name value : json) (s1 : State) :
    event_row conf payload = Some row -> conf_is_cached row = false ->
    poll_ack payload = false -> listening_ack payload = false ->
    set_data_value_for_property sources serial_number property_name value s
    = (Ret tt, s1) ->
    message_effect conf payload s (Ret tt) (published_state s1)
| effect_cached (row : event_conf) (sources : string)
    (serial_number property_name value : json) (s1 : State) :
    event_row conf payload = Some row -> conf_is_cached row = true ->
    poll_ack payload = false -> listening_ack payload = false ->
    set_cache_value_for_property sources serial_number property_name value s
    = (Ret tt, s1) ->
    message_effect conf payload s (Ret tt) (published_state s1)
| effect_cached_error (row : event_conf) (sources : string)
    (serial_number property_name value : json) (e : exn) (s1 : State) :
    event_row conf payload = Some row -> conf_is_cached row = true ->
    poll_ack payload = false -> listening_ack payload = false ->
    set_cache_value_for_property sources serial_number property_name value s
    = (Raise e, s1) ->
    message_effect conf payload s (Raise e) s1.

(** A transport that delivers the start-listening acknowledgement and then
    closes, both during suspension [n]. *)
Definition ack_then_close_at (n : nat) : nat -> list callback :=
  fun m => if Nat.eqb m n then [Message start_listening_result; Closed] else [].

(** A coordinator whose snapshot has a record without a serial number
    ahead of camera D1. *)
Definition coordinator_with_nameless_record : State :=
  with_data
    (mkMerged []
       (obj [("devices",
              JArr [obj [("name", JStr "Nameless")];
                    obj [("serialNumber", JStr "D1"); ("name", JStr "Cam1")]])]%string))
    connected_coordinator.

(** The properties cached under a serial number, none if it has no entry. *)
Definition properties_of (c : dict (dict json)) (serial_number : key) : dict json :=
  match dict_get serial_number c with
  | Some properties => properties
  | None => []
  end.

(** A coordinator that has cached the rtsp url of serial number S1. *)
Definition caching_coordinator : State :=
  snd (on_message a_configuration (event_from "station" rtsp_url_fields)
         listening_coordinator).

(** The fields of a cached event whose value holds NUL characters. *)
Definition padded_rtsp_url_fields : list (key * json) :=
  [(KStr "event", JStr "got rtsp url"); (KStr "serialNumber", JStr "S1");
   (KStr "rtspUrl", JStr (String NUL (String "a" (String "b" (String NUL "c")))))]%string.


(** A dict standing for [SET_RTSP_STREAM_MESSAGE] in the examples. *)
Definition a_set_rtsp_stream_message : json :=
  obj [("messageId", JStr "set_rtsp_stream"); ("command", JStr "device.set_rtsp_stream");
       ("serialNumber", JNull); ("value", JNull)]%string.

(** [x] is a dict without the field [k]: what makes [x[k]] raise
    [KeyError]. *)
Definition lacks (x : json) (k : string) : Prop :=
  exists d, x = JObj d /\ dict_get (KStr k) d = None.

(** The replies of the server to a command that failed: the type is
    "result" and there is no "result" field. *)
Definition poll_refresh_error_reply : json :=
  obj [("type", JStr "result"); ("success", JBool false);
       ("messageId", JStr "poll_refresh");
       ("errorCode", JStr "schema_incompatible")]%string.

Definition start_listening_error_reply : json :=
  obj [("type", JStr "result"); ("success", JBool false);
       ("messageId", JStr "start_listening");
       ("errorCode", JStr "schema_incompatible")]%string.

(** A coordinator whose snapshot holds two records with the serial number
    D1. *)
Definition twin_records_coordinator : State :=
  with_data
    (mkMerged []
       (obj [("devices",
              JArr [obj [("serialNumber", JStr "D1"); ("name", JStr "a")];
                    obj [("serialNumber", JStr "D1"); ("name", JStr "b")]])]%string))
    connected_coordinator.

(** The templates on which [str_format] is [str.format]: text, the fields
    [{}] and [{0}] and the doubled braces, and nothing else in braces. *)
Fixpoint supported_template (template : string) : bool :=
  match template with
  | EmptyString => true
  | String "{" (String "{" r) => supported_template r
  | String "}" (String "}" r) => supported_template r
  | String "{" (String "}" r) => supported_template r
  | String "{" (String "0" (String "}" r)) => supported_template r
  | String "{" _ => false
  | String "}" _ => false
  | String _ r => supported_template r
  end.

(** A module dict whose command, if it is a string, is such a template. *)
Definition command_supported (message : json) : bool :=
  match getitem message "command" with
  | Ret (JStr template) => supported_template template
  | _ => true
  end.

(** ** Properties *)

(** *** Keys and dictionaries *)

Lemma key_eqb_refl (k : key) : key_eqb k k = true.
Proof.
  destruct k; simpl; auto using String.eqb_refl, Z.eqb_refl.
Qed.

Lemma key_eqb_sym (k1 k2 : key) : key_eqb k1 k2 = key_eqb k2 k1.
Proof.
  destruct k1, k2; simpl; auto using String.eqb_sym, Z.eqb_sym.
Qed.

Lemma key_eqb_trans (a b c : key) :
  key_eqb a b = true -> key_eqb b c = true -> key_eqb a c = true.
Proof.
  destruct a, b, c; simpl; try discriminate; auto;
    rewrite ?Z.eqb_eq, ?String.eqb_eq; congruence.
Qed.

Lemma key_eqb_apart (a b c : key) :
  key_eqb a b = true -> key_eqb b c = false -> key_eqb a c = false.
Proof.
  intros Hab Hbc. destruct (key_eqb a c) eqn:Hac; [|reflexivity].
  rewrite key_eqb_sym in Hab. rewrite <- Hbc. symmetry.
  eapply key_eqb_trans; eassumption.
Qed.

Section Dict.

Context {A : Type}.
Implicit Types (d : dict A) (k : key) (v : A).

Lemma dict_get_set_eq d k v : dict_get k (dict_set k v d) = Some v.
Proof.
  induction d as [|[k' v'] r IH]; simpl.
  - now rewrite key_eqb_refl.
  - destruct (key_eqb k' k) eqn:E; simpl; rewrite E; auto.
Qed.

Lemma dict_get_set_ne d k k2 v :
  key_eqb k k2 = false -> dict_get k2 (dict_set k v d) = dict_get k2 d.
Proof.
  intros Hne. induction d as [|[k' v'] r IH]; simpl.
  - now rewrite Hne.
  - destruct (key_eqb k' k) eqn:E; simpl.
    + now rewrite (key_eqb_apart k' k k2 E Hne).
    + now rewrite IH.
Qed.

Lemma dict_set_same d k v : dict_get k d = Some v -> dict_set k v d = d.
Proof.
  induction d as [|[k' v'] r IH]; simpl; [discriminate|].
  destruct (key_eqb k' k); intros H.
  - congruence.
  - now rewrite IH.
Qed.

Lemma dict_set_set d k v w : dict_set k v (dict_set k w d) = dict_set k v d.
Proof.
  induction d as [|[k' v'] r IH]; simpl.
  - now rewrite key_eqb_refl.
  - destruct (key_eqb k' k) eqn:E; simpl; rewrite E; [reflexivity|].
    now rewrite IH.
Qed.

End Dict.

(** *** States *)

Lemma merged_eta (m : merged) : mkMerged (cache m) (data m) = m.
Proof. now destruct m. Qed.

Lemma with_data_same (s : State) : with_data (self_data s) s = s.
Proof. now destruct s. Qed.

(** *** What the callbacks leave alone *)

Lemma keeps_ret {A : Type} (a : A) : keeps_surroundings (ret a).
Proof. now intros s. Qed.

Lemma keeps_raise {A : Type} (e : exn) : keeps_surroundings (@raise A e).
Proof. now intros s. Qed.

Lemma keeps_lift {A : Type} (o : outcome A) : keeps_surroundings (lift o).
Proof. now intros s. Qed.

Lemma keeps_bind {A B : Type} (m : M A) (f : A -> M B) :
  keeps_surroundings m -> (forall a, keeps_surroundings (f a)) ->
  keeps_surroundings (bind m f).
Proof.
  intros Hm Hf s. unfold bind. specialize (Hm s).
  destruct (m s) as [[a|e] s']; simpl in *; [|assumption].
  now rewrite Hf.
Qed.

Lemma keeps_set_start_listening_state (b : bool) :
  keeps_surroundings (set_start_listening_state b).
Proof. now intros s. Qed.

Lemma keeps_set_poll_refreshing_state (b : bool) :
  keeps_surroundings (set_poll_refreshing_state b).
Proof. now intros s. Qed.

Lemma keeps_publish : keeps_surroundings (fun s => async_set_updated_data (self_data s) s).
Proof. now intros s. Qed.

Lemma keeps_set_data sources sn pn v :
  keeps_surroundings (set_data_value_for_property sources sn pn v).
Proof.
  intros s. unfold set_data_value_for_property.
  now destruct (obind _ _).
Qed.

Lemma keeps_set_cache sources sn pn v :
  keeps_surroundings (set_cache_value_for_property sources sn pn v).
Proof.
  intros s. unfold set_cache_value_for_property.
  destruct (to_key sn); [|reflexivity].
  destruct (dict_get k (cache (self_data s))); simpl.
  - now destruct (dict_get _ _), (to_key pn).
  - now destruct (dict_get _ _), (to_key pn).
Qed.

Ltac keeps :=
  repeat first
    [ apply keeps_ret | apply keeps_raise | apply keeps_lift
    | apply keeps_set_start_listening_state | apply keeps_set_poll_refreshing_state
    | apply keeps_publish | apply keeps_set_data | apply keeps_set_cache
    | apply keeps_bind; [|intros]
    | match goal with
      | |- keeps_surroundings (match ?x with _ => _ end) => destruct x
      | |- keeps_surroundings (modify _) => now intros ?
      end ].

Lemma keeps_on_message conf payload : keeps_surroundings (on_message conf payload).
Proof.
  unfold on_message, on_message_result, on_message_event. keeps.
Qed.

Lemma deliver_surroundings conf s c :
  surroundings (deliver conf s c) = surroundings s.
Proof.
  unfold deliver. destruct c.
  - reflexivity.
  - apply keeps_on_message.
  - reflexivity.
  - reflexivity.
Qed.

Lemma deliveries_surroundings conf cs s :
  surroundings (fold_left (deliver conf) cs s) = surroundings s.
Proof.
  revert s. induction cs as [|c cs IH]; intros s; simpl; [reflexivity|].
  now rewrite IH, deliver_surroundings.
Qed.

Lemma suspend_surroundings conf deliveries s :
  ws (suspend conf deliveries s) = ws s
  /\ clock (suspend conf deliveries s) = S (clock s)
  /\ GET_PROPERTIES_MESSAGE (suspend conf deliveries s) = GET_PROPERTIES_MESSAGE s
  /\ GET_PROPERTIES_METADATA_MESSAGE (suspend conf deliveries s)
     = GET_PROPERTIES_METADATA_MESSAGE s.
Proof.
  unfold suspend.
  pose proof (deliveries_surroundings conf (deliveries (clock s)) s) as H.
  unfold surroundings in H. injection H as Hws Hclock Hgp Hgpm.
  simpl. now rewrite Hws, Hclock, Hgp, Hgpm.
Qed.

Lemma after_sleeps_clock conf deliveries k s :
  clock (after_sleeps conf deliveries k s) = clock s + k.
Proof.
  revert s. induction k as [|k IH]; intros s; simpl; [lia|].
  rewrite IH. unfold sleep.
  destruct (suspend_surroundings conf deliveries s) as (_ & -> & _). lia.
Qed.

(** *** C1: waiting on a flag *)

Section Waits.

Variable conf : list (string * event_conf).
Variable deliveries : nat -> list callback.
Variable flag : State -> bool.

Let after := after_sleeps conf deliveries.
Let loop := check_loop conf deliveries flag.

(** The loop answers true at the first check that sees the expected
    value, provided the counter has not passed 5 by then. *)
Lemma check_loop_true (to_be_value : bool) :
  forall k fuel counter s,
    counter + k <= 5 -> k < fuel ->
    (forall j, j < k -> flag (after j s) <> to_be_value) ->
    flag (after k s) = to_be_value ->
    loop fuel to_be_value counter s = Some (true, after k s).
Proof.
  induction k as [|k IH]; intros fuel counter s Hc Hf Hbefore Hat;
    destruct fuel as [|fuel]; try lia; unfold loop, after in *; simpl in *.
  - rewrite Hat, Bool.eqb_reflx. reflexivity.
  - assert (Hnow : Bool.eqb (flag s) to_be_value = false).
    { apply Bool.eqb_false_iff. apply (Hbefore 0). lia. }
    rewrite Hnow. simpl.
    destruct (Nat.ltb_spec 5 (counter + 1)) as [?|_]; [lia|].
    apply IH; [lia | lia | | assumption].
    intros j Hj. apply (Hbefore (S j)). lia.
Qed.

(** The loop gives up when the counter passes 5: with [n] checks left to
    fail, it answers false after [n] sleeps. *)
Lemma check_loop_false (to_be_value : bool) :
  forall n fuel counter s,
    1 <= n -> counter + n = 6 -> n <= fuel ->
    (forall j, j < n -> flag (after j s) <> to_be_value) ->
    loop fuel to_be_value counter s = Some (false, after n s).
Proof.
  induction n as [|n IH]; intros fuel counter s Hn Hc Hf Hnever; [lia|].
  destruct fuel as [|fuel]; [lia|]. unfold loop, after in *; simpl.
  assert (Hnow : Bool.eqb (flag s) to_be_value = false).
  { apply Bool.eqb_false_iff. apply (Hnever 0). lia. }
  rewrite Hnow. simpl.
  destruct (Nat.ltb_spec 5 (counter + 1)) as [Hgt|Hle].
  - assert (n = 0) as -> by lia. reflexivity.
  - apply IH; [lia | lia | lia |].
    intros j Hj. apply (Hnever (S j)). lia.
Qed.

Lemma check_loop_contract :
  flag_wait_contract 6 flag (fun fuel to_be_value => loop fuel to_be_value 0)
    conf deliveries.
Proof.
  intros fuel to_be_value s Hfuel. repeat split.
  - intros Hnow. apply (check_loop_true to_be_value 0); [lia | lia | | exact Hnow].
    intros j Hj. lia.
  - intros k Hk Hbefore Hat. apply check_loop_true; [lia | lia | exact Hbefore | exact Hat].
  - apply check_loop_false; [lia | lia | lia | assumption].
  - apply after_sleeps_clock.
Qed.

End Waits.

(** C1 (amended).  Both flag waits, [check_if_started_listening] and
    [check_if_poll_refreshed], meet the contract of a flag wait with six
    failed checks, not five: the call returns true without sleeping when
    the flag already has the expected value; it returns true at the first
    check that sees the expected value, the checks being those made after
    0, 1, ..., 5 sleeps; and when none of these six checks sees it, the
    call returns false after exactly six failed checks and six one-second
    sleeps, the flag not being read again after the sixth sleep. *)
Theorem flag_waits_give_up_after_six_checks
    (conf : list (string * event_conf)) (deliveries : nat -> list callback) :
  flag_wait_contract 6 start_listening_state
    (check_if_started_listening conf deliveries) conf deliveries
  /\ flag_wait_contract 6 poll_refresing_state
    (check_if_poll_refreshed conf deliveries) conf deliveries.
Proof.
  split.
  - apply (check_loop_contract conf deliveries start_listening_state).
  - apply (check_loop_contract conf deliveries poll_refresing_state).
Qed.

(** The contract at work: nothing is delivered, so the wait on the
    poll-refreshed flag of a new coordinator fails after six sleeps. *)
Lemma flag_waits_give_up_after_six_checks_witness :
  check_if_poll_refreshed [] quiet 6 true __init__
  = Some (false, after_sleeps [] quiet 6 __init__)
  /\ clock (after_sleeps [] quiet 6 __init__) = clock __init__ + 6.
Proof.
  destruct (flag_waits_give_up_after_six_checks [] quiet) as [_ Hpoll].
  destruct (Hpoll 6 true __init__ (Nat.le_refl 6)) as (_ & _ & Hnever).
  apply Hnever. intros j Hj.
  do 6 (destruct j as [|j]; [vm_compute; discriminate|]). lia.
Defined.

(** C1 as the specification has it, with [max_polls] = 5, fails: a new
    coordinator to which nothing is delivered is still waiting after five
    failed checks, and gives up only after the sixth. *)
Lemma flag_wait_five_checks_counterexample :
  ~ flag_wait_contract 5 poll_refresing_state
      (check_if_poll_refreshed [] quiet) [] quiet.
Proof.
  intros H.
  destruct (H 6 true __init__ ltac:(lia)) as (_ & _ & Hnever).
  destruct Hnever as [Hfalse _].
  - intros j Hj. do 5 (destruct j as [|j]; [vm_compute; discriminate|]). lia.
  - vm_compute in Hfalse. discriminate.
Qed.

(** *** C2 and C8: the two entry points *)

Lemma after_sleeps_ws conf deliveries k s :
  ws (after_sleeps conf deliveries k s) = ws s.
Proof.
  revert s. induction k as [|k IH]; intros s; simpl; [reflexivity|].
  rewrite IH. apply suspend_surroundings.
Qed.

(** With fuel for six checks a wait always returns, in a state reached by
    sleeping. *)
Lemma check_loop_returns conf deliveries flag to_be_value :
  forall fuel counter s,
    1 <= fuel -> 6 <= fuel + counter ->
    exists b k,
      check_loop conf deliveries flag fuel to_be_value counter s
      = Some (b, after_sleeps conf deliveries k s).
Proof.
  induction fuel as [|fuel IH]; intros counter s Hpos Hfuel; [lia|]. simpl.
  destruct (negb (Bool.eqb (flag s) to_be_value)).
  - destruct (Nat.ltb_spec 5 (counter + 1)) as [Hgt|Hle].
    + exists false, 1. reflexivity.
    + destruct (IH (counter + 1) (sleep conf deliveries s)) as (b & k & Hk); [lia | lia |].
      exists b, (S k). exact Hk.
  - exists true, 0. reflexivity.
Qed.

Lemma check_returns_keeping_ws conf deliveries flag fuel to_be_value s :
  6 <= fuel ->
  exists b s',
    check_loop conf deliveries flag fuel to_be_value 0 s = Some (b, s')
    /\ ws s' = ws s.
Proof.
  intros Hfuel.
  destruct (check_loop_returns conf deliveries flag to_be_value fuel 0 s)
    as (b & k & Hk); [lia | lia |].
  exists b, (after_sleeps conf deliveries k s). split; [exact Hk|].
  apply after_sleeps_ws.
Qed.

(** C2 (amended).  A refresh tick first resets the poll-refreshed flag to
    false and then tries to send the poll-refresh command.  On a
    coordinator that has a transport the tick is as specified: the command
    is sent, the flag is waited on, [UpdateFailed] is raised if and only if
    the wait returned false, and on success the merged state (snapshot and
    cache) is returned.  On a coordinator whose transport was never created
    ([self.ws] is [None]) the send fails and the tick raises [UpdateFailed]
    at once, without waiting on the flag. *)
Theorem refresh_tick_outcome
    (conf : list (string * event_conf)) (POLL_REFRESH_MESSAGE : json)
    (deliveries : nat -> list callback) (fuel : nat) (s : State) :
  6 <= fuel ->
  (ws s <> None -> tick_as_specified conf POLL_REFRESH_MESSAGE deliveries fuel s)
  /\ (ws s = None ->
      _async_update_data conf POLL_REFRESH_MESSAGE deliveries fuel s
      = Some (Raise (UpdateFailed AttributeError), with_poll_refresing_state false s)).
Proof.
  intros Hfuel. split.
  - intros Hws. destruct (ws s) as [w|] eqn:Ew; [clear Hws | congruence].
    set (s1 := suspend conf deliveries
                 (with_ws (Some (mkWebSocket (connected w)
                                   (sent w ++ [Dumps POLL_REFRESH_MESSAGE])))
                    (with_poll_refresing_state false s))).
    destruct (check_returns_keeping_ws conf deliveries poll_refresing_state fuel true s1 Hfuel)
      as (b & s2 & Hcheck & _).
    assert (Hsend : async_poll_refresh conf POLL_REFRESH_MESSAGE deliveries s = (Ret tt, s1)).
    { unfold async_poll_refresh, bind, set_poll_refreshing_state, modify,
        async_send_message, send_message, ws_call. simpl. rewrite Ew. reflexivity. }
    unfold tick_as_specified.
    exists w, s1, b, s2,
      (if b then Ret (self_data s2)
       else Raise (UpdateFailed
                     (Exception_ "Refresh Poll was not completed in timely manner"))).
    split; [exact Ew|]. split; [reflexivity|]. split; [exact Hcheck|].
    split.
    { unfold _async_update_data. rewrite Hsend.
      unfold check_if_poll_refreshed in *. rewrite Hcheck. now destruct b. }
    destruct b; repeat split; try congruence; try discriminate.
    + intros [e He]. discriminate.
    + intros _. eexists. reflexivity.
  - intros Ew. unfold _async_update_data, async_poll_refresh, bind,
      set_poll_refreshing_state, modify, async_send_message, send_message, ws_call.
    simpl. rewrite Ew. reflexivity.
Qed.

(** The theorem at work: the acknowledgement arrives during the third
    suspension of a tick on a coordinator with a transport; a tick on a new
    coordinator, which has none, fails at once. *)
Lemma refresh_tick_outcome_witness :
  tick_as_specified [] a_poll_refresh_message (deliver_at 2 poll_refresh_result) 6
    connected_coordinator
  /\ _async_update_data [] a_poll_refresh_message quiet 6 __init__
     = Some (Raise (UpdateFailed AttributeError), with_poll_refresing_state false __init__).
Proof.
  split.
  - apply (refresh_tick_outcome [] a_poll_refresh_message
             (deliver_at 2 poll_refresh_result) 6 connected_coordinator).
    + lia.
    + vm_compute. discriminate.
  - apply (refresh_tick_outcome [] a_poll_refresh_message quiet 6 __init__).
    + lia.
    + reflexivity.
Defined.

(** C2 as stated fails on a coordinator that has no transport yet: the
    tick raises although no command was sent and no wait took place. *)
Lemma refresh_without_transport_counterexample :
  ~ tick_as_specified [] a_poll_refresh_message quiet 6 __init__
  /\ _async_update_data [] a_poll_refresh_message quiet 6 __init__
     = Some (Raise (UpdateFailed AttributeError), __init__).
Proof.
  split.
  - intros (w & s1 & b & s2 & r & Hws & _). vm_compute in Hws. discriminate.
  - reflexivity.
Qed.

(** C8.  [initialize_ws] creates the transport and establishes the
    connection, resets the listening flag to false, sends the
    start-listening command and then waits on the flag.  It raises the
    timeout exception if and only if the wait returned false, and returns
    normally otherwise; either way exactly one start-listening command has
    been sent when it ends: there is no retry. *)
Theorem initialize_ws_outcome
    (conf : list (string * event_conf)) (START_LISTENING_MESSAGE : json)
    (deliveries : nat -> list callback) (fuel : nat) (s : State) :
  6 <= fuel ->
  let s1 := suspend conf deliveries (with_ws (Some (mkWebSocket true [])) s) in
  let s2 := with_start_listening_state false s1 in
  let s3 := suspend conf deliveries
              (with_ws (Some (mkWebSocket true [Dumps START_LISTENING_MESSAGE])) s2) in
  exists b s4 r,
    start_listening_state s2 = false
    /\ check_if_started_listening conf deliveries fuel true s3 = Some (b, s4)
    /\ initialize_ws conf START_LISTENING_MESSAGE deliveries fuel s = Some (r, s4)
    /\ (r = Raise (Exception_ "Start Listening was not completed in timely manner")
        <-> b = false)
    /\ (r = Ret tt <-> b = true)
    /\ ws s4 = Some (mkWebSocket true [Dumps START_LISTENING_MESSAGE]).
Proof.
  intros Hfuel s1 s2 s3.
  destruct (check_returns_keeping_ws conf deliveries start_listening_state fuel true s3 Hfuel)
    as (b & s4 & Hcheck & Hws4).
  assert (Hws1 : ws s1 = Some (mkWebSocket true [])).
  { unfold s1. now rewrite (proj1 (suspend_surroundings conf deliveries _)). }
  assert (Hws3 : ws s3 = Some (mkWebSocket true [Dumps START_LISTENING_MESSAGE])).
  { unfold s3. now rewrite (proj1 (suspend_surroundings conf deliveries _)). }
  assert (Hsend :
    (run set_ws conf deliveries;
     async_start_listening conf START_LISTENING_MESSAGE deliveries)
      (with_ws (Some new_websocket) s) = (Ret tt, s3)).
  { change ((run set_ws conf deliveries;
             async_start_listening conf START_LISTENING_MESSAGE deliveries)
              (with_ws (Some new_websocket) s))
      with (async_start_listening conf START_LISTENING_MESSAGE deliveries s1).
    unfold async_start_listening, bind, set_start_listening_state, modify,
      async_send_message, send_message, ws_call.
    change (ws (with_start_listening_state false s1)) with (ws s1).
    rewrite Hws1. reflexivity. }
  exists b, s4,
    (if b then Ret tt
     else Raise (Exception_ "Start Listening was not completed in timely manner")).
  split; [reflexivity|]. split; [exact Hcheck|]. split.
  { unfold initialize_ws. rewrite Hsend.
    unfold check_if_started_listening in *. rewrite Hcheck. now destruct b. }
  split; [|split].
  - destruct b; split; congruence.
  - destruct b; split; congruence.
  - now rewrite Hws4.
Qed.

(** The theorem at work, when the acknowledgement arrives during the
    fourth suspension and when it never arrives. *)
Lemma initialize_ws_outcome_witness :
  initialize_ws [] a_start_listening_message (deliver_at 3 start_listening_result) 6 __init__
  = Some (Ret tt,
          after_sleeps [] (deliver_at 3 start_listening_result) 2
            (suspend [] (deliver_at 3 start_listening_result)
               (with_ws (Some (mkWebSocket true [Dumps a_start_listening_message]))
                  (suspend [] (deliver_at 3 start_listening_result)
                     (with_ws (Some (mkWebSocket true [])) __init__)))))
  /\ exists s4,
       initialize_ws [] a_start_listening_message quiet 6 __init__
       = Some (Raise (Exception_ "Start Listening was not completed in timely manner"), s4)
       /\ ws s4 = Some (mkWebSocket true [Dumps a_start_listening_message]).
Proof.
  split.
  - destruct (initialize_ws_outcome [] a_start_listening_message
                (deliver_at 3 start_listening_result) 6 __init__ (Nat.le_refl 6))
      as (b & s4 & r & _ & Hcheck & Hinit & _ & Hret & _).
    vm_compute in Hcheck. injection Hcheck as <- <-.
    rewrite Hinit. now rewrite (proj2 Hret eq_refl).
  - destruct (initialize_ws_outcome [] a_start_listening_message quiet 6 __init__
                (Nat.le_refl 6))
      as (b & s4 & r & _ & Hcheck & Hinit & Hraise & _ & Hws).
    exists s4. split; [|exact Hws].
    vm_compute in Hcheck. injection Hcheck as <- _.
    rewrite Hinit. now rewrite (proj2 Hraise eq_refl).
Defined.

(** *** C3 and C4: the dispatcher *)

Local Open Scope string_scope.

(** A result whose message id is not one of the two known ones is dropped. *)
Lemma on_message_unknown_message_id conf payload message message_id s :
  getitem payload "type" = Ret (JStr "result") ->
  getitem payload "result" = Ret message ->
  getitem payload "messageId" = Ret message_id ->
  message_id <> JStr "start_listening" ->
  message_id <> JStr "poll_refresh" ->
  on_message conf payload s = (Ret tt, s).
Proof.
  intros Htype Hresult Hid Hstart Hpoll.
  unfold on_message, bind, lift. rewrite Htype. simpl. rewrite Hresult. simpl.
  unfold on_message_result, bind, lift. rewrite Hid.
  destruct message_id as [| | |mid| |]; try reflexivity.
  unfold str_in, MESSAGE_IDS_TO_PROCESS. simpl.
  destruct (String.eqb_spec mid "start_listening") as [->|_]; [congruence|].
  destruct (String.eqb_spec mid "poll_refresh") as [->|_]; [congruence|].
  reflexivity.
Qed.

(** A subscript on a dict without the field raises [KeyError]. *)
Lemma getitem_lacks x k : lacks x k -> getitem x k = Raise KeyError.
Proof. intros (d & -> & Hd). unfold getitem. now rewrite Hd. Qed.

(** [get] on a dict returns, with or without the field. *)
Lemma get_default_returns x k k' default :
  lacks x k' -> exists v, get_default x k default = Ret v.
Proof.
  intros (d & -> & _). unfold get_default.
  destruct (dict_get (KStr k) d); eauto.
Qed.

Ltac open_result Htype Hresult :=
  unfold on_message, bind, lift; rewrite Htype; simpl; rewrite Hresult; simpl;
  unfold on_message_result, bind, lift.

Ltac open_event Htype Hmessage :=
  unfold on_message, bind, lift; rewrite Htype; simpl; rewrite Hmessage; simpl;
  unfold on_message_event, bind, lift.

(** C3 (amended).  For a message of type "result" that carries a "result"
    field: when the message id is "start_listening" and the result holds
    "state", the live snapshot becomes that "state" object, whatever it was
    before, the listening flag becomes true and the merged state is
    published; when the message id is "poll_refresh", the poll-refreshed
    flag becomes true and nothing else changes, nothing being published;
    with any other message id the state is left as it was, flags included.
    A message of type "result" that lacks the "result" field, or the
    message id, and a "start_listening" result whose result is an object
    without "state", raise [KeyError] and leave the state as it was, flags
    included. *)
Theorem on_message_result_cases
    (conf : list (string * event_conf)) (payload : json) (s : State) :
  getitem payload "type" = Ret (JStr "result") ->
  (forall message,
      getitem payload "result" = Ret message ->
      (forall state,
          getitem payload "messageId" = Ret (JStr "start_listening") ->
          getitem message "state" = Ret state ->
          let d := mkMerged (cache (self_data s)) state in
          let s' := with_published (published s ++ [d])
                      (with_start_listening_state true (with_data d s)) in
          on_message conf payload s = (Ret tt, s')
          /\ data (self_data s') = state
          /\ cache (self_data s') = cache (self_data s)
          /\ start_listening_state s' = true
          /\ poll_refresing_state s' = poll_refresing_state s
          /\ published s' = (published s ++ [self_data s'])%list
          /\ surroundings s' = surroundings s)
      /\ (getitem payload "messageId" = Ret (JStr "poll_refresh") ->
          let s' := with_poll_refresing_state true s in
          on_message conf payload s = (Ret tt, s')
          /\ poll_refresing_state s' = true
          /\ start_listening_state s' = start_listening_state s
          /\ self_data s' = self_data s
          /\ published s' = published s
          /\ surroundings s' = surroundings s)
      /\ (forall message_id,
            getitem payload "messageId" = Ret message_id ->
            message_id <> JStr "start_listening" ->
            message_id <> JStr "poll_refresh" ->
            on_message conf payload s = (Ret tt, s))
      /\ (lacks payload "messageId" ->
          on_message conf payload s = (Raise KeyError, s))
      /\ (getitem payload "messageId" = Ret (JStr "start_listening") ->
          lacks message "state" ->
          on_message conf payload s = (Raise KeyError, s)))
  /\ (lacks payload "result" ->
      on_message conf payload s = (Raise KeyError, s)).
Proof.
  intros Htype. split.
  - intros message Hresult. split; [|split; [|split; [|split]]].
    + intros state Hid Hstate d s'. split; [|now repeat split].
      open_result Htype Hresult. rewrite Hid. simpl. rewrite Hstate.
      reflexivity.
    + intros Hid s'. split; [|now repeat split].
      open_result Htype Hresult. rewrite Hid. reflexivity.
    + intros message_id Hid Hstart Hpoll.
      eapply on_message_unknown_message_id; eassumption.
    + intros Hid. open_result Htype Hresult.
      now rewrite (getitem_lacks _ _ Hid).
    + intros Hid Hstate. open_result Htype Hresult. rewrite Hid. simpl.
      now rewrite (getitem_lacks _ _ Hstate).
  - intros Hresult. unfold on_message, bind, lift. rewrite Htype. simpl.
    now rewrite (getitem_lacks _ _ Hresult).
Qed.

(** The cases on the examples: the two acknowledgements, a result with an
    unknown message id, and three messages that lack a field. *)
Lemma on_message_result_cases_witness :
  (data (self_data (snd (on_message [] start_listening_result __init__)))
   = obj [("devices", JArr [obj [("serialNumber", JStr "D1"); ("name", JStr "Cam1")]])]
   /\ start_listening_state (snd (on_message [] start_listening_result __init__)) = true)
  /\ on_message [] poll_refresh_result __init__
     = (Ret tt, with_poll_refresing_state true __init__)
  /\ on_message [] unknown_id_result __init__ = (Ret tt, __init__)
  /\ on_message [] (obj [("type", JStr "result"); ("result", obj [])]) __init__
     = (Raise KeyError, __init__)
  /\ on_message []
       (obj [("type", JStr "result"); ("messageId", JStr "start_listening");
             ("result", obj [])]) __init__
     = (Raise KeyError, __init__)
  /\ on_message [] poll_refresh_result_without_result __init__
     = (Raise KeyError, __init__).
Proof.
  split; [|split; [|split; [|split; [|split]]]].
  - destruct (on_message_result_cases [] start_listening_result __init__ eq_refl)
      as (Hcarried & _).
    destruct (Hcarried
                (obj [("state",
                       obj [("devices",
                             JArr [obj [("serialNumber", JStr "D1");
                                        ("name", JStr "Cam1")]])])])
                eq_refl) as (Hstart & _).
    destruct (Hstart _ eq_refl eq_refl) as (Hcall & _).
    rewrite Hcall. split; reflexivity.
  - destruct (on_message_result_cases [] poll_refresh_result __init__ eq_refl)
      as (Hcarried & _).
    destruct (Hcarried (obj []) eq_refl) as (_ & Hpoll & _).
    exact (proj1 (Hpoll eq_refl)).
  - destruct (on_message_result_cases [] unknown_id_result __init__ eq_refl)
      as (Hcarried & _).
    destruct (Hcarried (obj []) eq_refl) as (_ & _ & Hother & _).
    apply (Hother (JStr "unknown_id")); [reflexivity | discriminate | discriminate].
  - destruct (on_message_result_cases []
                (obj [("type", JStr "result"); ("result", obj [])]) __init__ eq_refl)
      as (Hcarried & _).
    destruct (Hcarried (obj []) eq_refl) as (_ & _ & _ & Hid & _).
    apply Hid. eexists. split; reflexivity.
  - destruct (on_message_result_cases []
                (obj [("type", JStr "result"); ("messageId", JStr "start_listening");
                      ("result", obj [])]) __init__ eq_refl)
      as (Hcarried & _).
    destruct (Hcarried (obj []) eq_refl) as (_ & _ & _ & _ & Hstate).
    apply Hstate; [reflexivity|]. eexists. split; reflexivity.
  - destruct (on_message_result_cases [] poll_refresh_result_without_result __init__
                eq_refl) as (_ & Hresult).
    apply Hresult. eexists. split; reflexivity.
Defined.

(** C3 as stated fails on the server's reply to a command that failed,
    which has the type "result" and no "result" field: [on_message] raises
    [KeyError]; for "poll_refresh" the poll-refreshed flag is not set, and
    for "start_listening" neither the snapshot nor the listening flag is
    touched and nothing is published. *)
Lemma result_without_result_field_counterexample :
  (on_message a_configuration poll_refresh_error_reply connected_coordinator
   = (Raise KeyError, connected_coordinator)
   /\ poll_refresing_state
        (snd (on_message a_configuration poll_refresh_error_reply connected_coordinator))
      = false)
  /\ (on_message a_configuration start_listening_error_reply connected_coordinator
      = (Raise KeyError, connected_coordinator)
      /\ start_listening_state
           (snd (on_message a_configuration start_listening_error_reply
                   connected_coordinator))
         = false
      /\ published
           (snd (on_message a_configuration start_listening_error_reply
                   connected_coordinator))
         = []).
Proof. repeat split. Qed.

(** C4 (amended).  [on_message] drops, without an error and without any
    change of state: a message whose type is neither "result" nor "event";
    a result that carries its result and a message id other than the two
    known ones; and an event that carries an event type, a string source
    and a serial number, when the event type is hashable and is not a key
    of the table.  A message that is an object without a field read on the
    way (in it or, for an event, in the object under "event") is not dropped:
    [on_message] raises [KeyError] and leaves the state as it was.
    The fields are the type; the field named after the type, "result" or
    "event"; the message id of a result that carries its result; the event
    type of an event; the source of an event that carries an event type;
    the serial number of an event that carries an event type and a string
    source; and the value field the table names, for an event of a type of
    the table that carries a string source and a serial number.  An event
    that carries a string source and a serial number and whose event type
    is unhashable raises [TypeError] and leaves the state as it was. *)
Theorem on_message_drops_or_raises
    (conf : list (string * event_conf)) (payload : json) (s : State) :
  ((forall message_type,
       getitem payload "type" = Ret message_type ->
       message_type <> JStr "result" -> message_type <> JStr "event" ->
       on_message conf payload s = (Ret tt, s))
   /\ (forall message message_id,
         getitem payload "type" = Ret (JStr "result") ->
         getitem payload "result" = Ret message ->
         getitem payload "messageId" = Ret message_id ->
         message_id <> JStr "start_listening" -> message_id <> JStr "poll_refresh" ->
         on_message conf payload s = (Ret tt, s))
   /\ (forall message event_type source serial_number,
         getitem payload "type" = Ret (JStr "event") ->
         getitem payload "event" = Ret message ->
         getitem message "event" = Ret event_type ->
         getitem message "source" = Ret (JStr source) ->
         getitem message "serialNumber" = Ret serial_number ->
         unknown_event_type conf event_type ->
         on_message conf payload s = (Ret tt, s)))
  /\ ((lacks payload "type" ->
       on_message conf payload s = (Raise KeyError, s))
      /\ (forall message_type,
            getitem payload "type" = Ret (JStr message_type) ->
            message_type = "result" \/ message_type = "event" ->
            lacks payload message_type ->
            on_message conf payload s = (Raise KeyError, s))
      /\ (forall message,
            getitem payload "type" = Ret (JStr "result") ->
            getitem payload "result" = Ret message ->
            lacks payload "messageId" ->
            on_message conf payload s = (Raise KeyError, s))
      /\ (forall message,
            getitem payload "type" = Ret (JStr "event") ->
            getitem payload "event" = Ret message ->
            lacks message "event" ->
            on_message conf payload s = (Raise KeyError, s))
      /\ (forall message event_type,
            getitem payload "type" = Ret (JStr "event") ->
            getitem payload "event" = Ret message ->
            getitem message "event" = Ret event_type ->
            lacks message "source" ->
            on_message conf payload s = (Raise KeyError, s))
      /\ (forall message event_type source,
            getitem payload "type" = Ret (JStr "event") ->
            getitem payload "event" = Ret message ->
            getitem message "event" = Ret event_type ->
            getitem message "source" = Ret (JStr source) ->
            lacks message "serialNumber" ->
            on_message conf payload s = (Raise KeyError, s))
      /\ (forall message event_type row source serial_number,
            getitem payload "type" = Ret (JStr "event") ->
            getitem payload "event" = Ret message ->
            getitem message "event" = Ret (JStr event_type) ->
            getitem message "source" = Ret (JStr source) ->
            getitem message "serialNumber" = Ret serial_number ->
            conf_get event_type conf = Some row ->
            lacks message (conf_value row) ->
            on_message conf payload s = (Raise KeyError, s))
      /\ (forall message event_type source serial_number,
            getitem payload "type" = Ret (JStr "event") ->
            getitem payload "event" = Ret message ->
            getitem message "event" = Ret event_type ->
            getitem message "source" = Ret (JStr source) ->
            getitem message "serialNumber" = Ret serial_number ->
            to_key event_type = None ->
            on_message conf payload s = (Raise TypeError, s))).
Proof.
  split; [split; [|split] | split; [|split; [|split; [|split; [|split; [|split; [|split]]]]]]].
  - intros message_type Htype Hresult Hevent.
    unfold on_message, bind, lift. rewrite Htype.
    destruct message_type as [| | |mt| |]; try reflexivity.
    unfold str_in, MESSAGE_TYPES_TO_PROCESS. simpl.
    destruct (String.eqb_spec mt "result") as [->|_]; [congruence|].
    destruct (String.eqb_spec mt "event") as [->|_]; [congruence|].
    reflexivity.
  - intros message message_id Htype Hresult Hid Hstart Hpoll.
    eapply on_message_unknown_message_id; eassumption.
  - intros message event_type source serial_number
      Htype Hmessage Hevent Hsource Hserial [Hhashable Hunknown].
    open_event Htype Hmessage. rewrite Hevent, Hsource. simpl.
    rewrite Hserial.
    destruct event_type as [| | |t| |]; try reflexivity;
      try (now exfalso; apply Hhashable).
    now rewrite (Hunknown t eq_refl).
  - intros Htype. unfold on_message, bind, lift.
    now rewrite (getitem_lacks _ _ Htype).
  - intros message_type Htype [-> | ->] Hfield;
      unfold on_message, bind, lift; rewrite Htype; simpl;
      now rewrite (getitem_lacks _ _ Hfield).
  - intros message Htype Hresult Hid. open_result Htype Hresult.
    now rewrite (getitem_lacks _ _ Hid).
  - intros message Htype Hmessage Hevent. open_event Htype Hmessage.
    now rewrite (getitem_lacks _ _ Hevent).
  - intros message event_type Htype Hmessage Hevent Hsource.
    open_event Htype Hmessage. rewrite Hevent.
    now rewrite (getitem_lacks _ _ Hsource).
  - intros message event_type source Htype Hmessage Hevent Hsource Hserial.
    open_event Htype Hmessage. rewrite Hevent, Hsource. simpl.
    now rewrite (getitem_lacks _ _ Hserial).
  - intros message event_type row source serial_number
      Htype Hmessage Hevent Hsource Hserial Hrow Hvalue.
    open_event Htype Hmessage. rewrite Hevent, Hsource. simpl.
    rewrite Hserial, Hrow.
    destruct (get_default_returns message "name" _ (JStr (conf_name row)) Hvalue)
      as (name & ->).
    now rewrite (getitem_lacks _ _ Hvalue).
  - intros message event_type source serial_number
      Htype Hmessage Hevent Hsource Hserial Hunhashable.
    open_event Htype Hmessage. rewrite Hevent, Hsource. simpl.
    rewrite Hserial.
    destruct event_type; try discriminate; reflexivity.
Qed.

(** The three kinds of dropped messages and the eight kinds of raising
    ones, on examples. *)
Lemma on_message_drops_or_raises_witness :
  (on_message a_configuration version_message __init__ = (Ret tt, __init__)
   /\ on_message a_configuration unknown_id_result __init__ = (Ret tt, __init__)
   /\ on_message a_configuration unknown_event __init__ = (Ret tt, __init__))
  /\ (on_message a_configuration (obj [("messageId", JStr "poll_refresh")]) __init__
      = (Raise KeyError, __init__)
      /\ on_message a_configuration (obj [("type", JStr "event")]) __init__
         = (Raise KeyError, __init__)
      /\ on_message a_configuration (obj [("type", JStr "result"); ("result", obj [])])
           __init__
         = (Raise KeyError, __init__)
      /\ on_message a_configuration
           (event_from "device" [(KStr "serialNumber", JStr "D1")])
           listening_coordinator
         = (Raise KeyError, listening_coordinator)
      /\ on_message a_configuration
           (obj [("type", JStr "event");
                 ("event", obj [("event", JStr "motion detected");
                                ("serialNumber", JStr "D1")])])
           listening_coordinator
         = (Raise KeyError, listening_coordinator)
      /\ on_message a_configuration
           (event_from "device" [(KStr "event", JStr "motion detected")])
           listening_coordinator
         = (Raise KeyError, listening_coordinator)
      /\ on_message a_configuration
           (event_from "device"
              [(KStr "event", JStr "motion detected"); (KStr "serialNumber", JStr "D1")])
           listening_coordinator
         = (Raise KeyError, listening_coordinator)
      /\ on_message a_configuration
           (event_from "device"
              [(KStr "event", JArr [JStr "motion detected"]);
               (KStr "serialNumber", JStr "D1")])
           listening_coordinator
         = (Raise TypeError, listening_coordinator)).
Proof.
  split; [split; [|split] | split; [|split; [|split; [|split; [|split; [|split; [|split]]]]]]].
  - destruct (on_message_drops_or_raises a_configuration version_message __init__)
      as ((Htype & _) & _).
    apply (Htype (JStr "version")); [reflexivity | discriminate | discriminate].
  - destruct (on_message_drops_or_raises a_configuration unknown_id_result __init__)
      as ((_ & Hid & _) & _).
    apply (Hid (obj []) (JStr "unknown_id"));
      [reflexivity | reflexivity | reflexivity | discriminate | discriminate].
  - destruct (on_message_drops_or_raises a_configuration unknown_event __init__)
      as ((_ & _ & Hevent) & _).
    apply (Hevent
             (obj [("source", JStr "device"); ("event", JStr "unheard of");
                   ("serialNumber", JStr "D1")])
             (JStr "unheard of") "device" (JStr "D1"));
      try reflexivity.
    split; [discriminate|].
    intros t Ht. injection Ht as <-. reflexivity.
  - destruct (on_message_drops_or_raises a_configuration
                (obj [("messageId", JStr "poll_refresh")]) __init__)
      as (_ & Htype & _).
    apply Htype. eexists. split; reflexivity.
  - destruct (on_message_drops_or_raises a_configuration
                (obj [("type", JStr "event")]) __init__)
      as (_ & _ & Hfield & _).
    apply (Hfield "event"); [reflexivity | now right |].
    eexists. split; reflexivity.
  - destruct (on_message_drops_or_raises a_configuration
                (obj [("type", JStr "result"); ("result", obj [])]) __init__)
      as (_ & _ & _ & Hid & _).
    apply (Hid (obj [])); [reflexivity | reflexivity |].
    eexists. split; reflexivity.
  - destruct (on_message_drops_or_raises a_configuration
                (event_from "device" [(KStr "serialNumber", JStr "D1")])
                listening_coordinator)
      as (_ & _ & _ & _ & Hevent & _).
    apply (Hevent (obj [("source", JStr "device"); ("serialNumber", JStr "D1")]));
      [reflexivity | reflexivity |].
    eexists. split; reflexivity.
  - destruct (on_message_drops_or_raises a_configuration
                (obj [("type", JStr "event");
                      ("event", obj [("event", JStr "motion detected");
                                     ("serialNumber", JStr "D1")])])
                listening_coordinator)
      as (_ & _ & _ & _ & _ & Hsource & _).
    apply (Hsource (obj [("event", JStr "motion detected"); ("serialNumber", JStr "D1")])
             (JStr "motion detected"));
      [reflexivity | reflexivity | reflexivity |].
    eexists. split; reflexivity.
  - destruct (on_message_drops_or_raises a_configuration
                (event_from "device" [(KStr "event", JStr "motion detected")])
                listening_coordinator)
      as (_ & _ & _ & _ & _ & _ & Hserial & _).
    apply (Hserial (obj [("source", JStr "device"); ("event", JStr "motion detected")])
             (JStr "motion detected") "device");
      [reflexivity | reflexivity | reflexivity | reflexivity |].
    eexists. split; reflexivity.
  - destruct (on_message_drops_or_raises a_configuration
                (event_from "device"
                   [(KStr "event", JStr "motion detected");
                    (KStr "serialNumber", JStr "D1")])
                listening_coordinator)
      as (_ & _ & _ & _ & _ & _ & _ & Hvalue & _).
    apply (Hvalue
             (obj [("source", JStr "device"); ("event", JStr "motion detected");
                   ("serialNumber", JStr "D1")])
             "motion detected" (mkEventConf "motionDetected" "state" false)
             "device" (JStr "D1"));
      [reflexivity | reflexivity | reflexivity | reflexivity | reflexivity | reflexivity |].
    eexists. split; reflexivity.
  - destruct (on_message_drops_or_raises a_configuration
                (event_from "device"
                   [(KStr "event", JArr [JStr "motion detected"]);
                    (KStr "serialNumber", JStr "D1")])
                listening_coordinator)
      as (_ & _ & _ & _ & _ & _ & _ & _ & Hunhashable).
    apply (Hunhashable
             (obj [("source", JStr "device"); ("event", JArr [JStr "motion detected"]);
                   ("serialNumber", JStr "D1")])
             (JArr [JStr "motion detected"]) "device" (JStr "D1"));
      reflexivity.
Defined.

(** C4 as stated fails: [on_message] raises [KeyError] on a message
    without a type, on an event of an unknown type that has no serial
    number, and on a poll-refresh result without a result field, in which
    case the poll-refreshed flag is not set either. *)
Lemma on_message_raises_counterexample :
  on_message a_configuration (obj []) __init__ = (Raise KeyError, __init__)
  /\ on_message a_configuration unknown_event_without_serial __init__
     = (Raise KeyError, __init__)
  /\ on_message a_configuration poll_refresh_result_without_result __init__
     = (Raise KeyError, __init__).
Proof. repeat split. Qed.

(** *** C5 and C6: the live snapshot *)

(** A scan that meets no record with the serial number changes nothing. *)
Lemma scan_entities_miss serial_number property_name value entities :
  Forall (other_serial serial_number) entities ->
  scan_entities entities serial_number property_name value = Ret entities.
Proof.
  induction 1 as [|entity rest (x & Hx & Hne) _ IH]; simpl; [reflexivity|].
  rewrite Hx. simpl. rewrite Hne, IH. reflexivity.
Qed.

Lemma getitem_dict x k v :
  getitem x k = Ret v -> exists d, x = JObj d /\ dict_get (KStr k) d = Some v.
Proof.
  destruct x as [| | | | |d]; simpl; try discriminate.
  destruct (dict_get (KStr k) d) eqn:E; [|discriminate].
  intros [= ->]. eauto.
Qed.

Lemma set_data_error_keeps_state sources serial_number property_name value s e s' :
  set_data_value_for_property sources serial_number property_name value s
  = (Raise e, s') ->
  s' = s.
Proof.
  unfold set_data_value_for_property. destruct (obind _ _); congruence.
Qed.

(** A call that meets no record with the serial number changes nothing. *)
Lemma set_data_miss sources serial_number property_name value s entities :
  getitem (data (self_data s)) sources = Ret (JArr entities) ->
  Forall (other_serial serial_number) entities ->
  set_data_value_for_property sources serial_number property_name value s = (Ret tt, s).
Proof.
  intros Hcollection Hnone.
  unfold set_data_value_for_property. rewrite Hcollection. simpl.
  rewrite (scan_entities_miss _ _ _ _ Hnone). simpl.
  destruct (getitem_dict _ _ _ Hcollection) as (top & Htop & Hget).
  rewrite Htop. simpl. rewrite (dict_set_same _ _ _ Hget), <- Htop.
  now rewrite merged_eta, with_data_same.
Qed.

(** C5 (amended).  When the named collection is in the snapshot as a list
    of records and every record carries a serial number other than the
    target, [set_data_value_for_property] returns without an error and
    leaves the whole state as it was.  When the snapshot has no such
    collection the lookup raises (a [KeyError] for a snapshot that is a
    dict), and whenever the call raises the state is left as it was. *)
Theorem set_data_absent_serial
    (sources : string) (serial_number property_name value : json) (s : State) :
  (forall entities,
      getitem (data (self_data s)) sources = Ret (JArr entities) ->
      Forall (other_serial serial_number) entities ->
      set_data_value_for_property sources serial_number property_name value s
      = (Ret tt, s))
  /\ (forall e,
        getitem (data (self_data s)) sources = Raise e ->
        set_data_value_for_property sources serial_number property_name value s
        = (Raise e, s))
  /\ (forall e s',
        set_data_value_for_property sources serial_number property_name value s
        = (Raise e, s') ->
        s' = s).
Proof.
  repeat split.
  - intros entities. apply set_data_miss.
  - intros e Hcollection.
    unfold set_data_value_for_property. now rewrite Hcollection.
  - intros e s'. apply set_data_error_keeps_state.
Qed.

(** The theorem at work: an event for camera D9, which the snapshot does
    not have; and a collection, "stations", which it does not have. *)
Lemma set_data_absent_serial_witness :
  set_data_value_for_property "devices" (JStr "D9") (JStr "motionDetected") (JBool true)
    listening_coordinator
  = (Ret tt, listening_coordinator)
  /\ set_data_value_for_property "stations" (JStr "D9") (JStr "motionDetected") (JBool true)
       listening_coordinator
     = (Raise KeyError, listening_coordinator)
  /\ snd (set_data_value_for_property "stations" (JStr "D9") (JStr "motionDetected")
            (JBool true) listening_coordinator)
     = listening_coordinator.
Proof.
  pose proof (set_data_absent_serial "devices" (JStr "D9") (JStr "motionDetected")
                (JBool true) listening_coordinator) as (Hmiss & _ & _).
  pose proof (set_data_absent_serial "stations" (JStr "D9") (JStr "motionDetected")
                (JBool true) listening_coordinator) as (_ & Hnone & Hkeep).
  split; [|split].
  - apply (Hmiss [obj [("serialNumber", JStr "D1"); ("name", JStr "Cam1")]]).
    + reflexivity.
    + repeat constructor. exists (JStr "D1"). split; reflexivity.
  - apply (Hnone KeyError). reflexivity.
  - apply (Hkeep KeyError). reflexivity.
Defined.

(** C5 as stated fails for a collection name the snapshot does not have:
    on a new coordinator, whose snapshot is empty, the call raises
    [KeyError]. *)
Lemma set_data_missing_collection_counterexample :
  set_data_value_for_property "devices" (JStr "D1") (JStr "motionDetected") (JBool true)
    __init__
  = (Raise KeyError, __init__).
Proof. reflexivity. Qed.

(** A scan whose first match is record [i] rewrites that record alone. *)
Lemma scan_entities_hit serial_number property_name value :
  forall entities i d x,
    entities !! i = Some (JObj d) ->
    dict_get (KStr "serialNumber") d = Some x ->
    py_eq x serial_number = true ->
    (forall j e, j < i -> entities !! j = Some e -> other_serial serial_number e) ->
    scan_entities entities serial_number (JStr property_name) value
    = Ret (<[i := JObj (dict_set (KStr property_name) value d)]> entities).
Proof.
  induction entities as [|entity rest IH]; intros i d x Hi Hserial Heq Hbefore.
  - discriminate.
  - destruct i as [|i]; simpl in *.
    + injection Hi as ->. simpl. rewrite Hserial. simpl. now rewrite Heq.
    + destruct (Hbefore 0 entity) as (y & Hy & Hne); [lia | reflexivity |].
      rewrite Hy. simpl. rewrite Hne.
      rewrite (IH i d x Hi Hserial Heq); [reflexivity|].
      intros j e Hj He. apply (Hbefore (S j) e); [lia | exact He].
Qed.

Lemma set_data_hit sources serial_number property_name value s top entities i d x :
  data (self_data s) = JObj top ->
  dict_get (KStr sources) top = Some (JArr entities) ->
  entities !! i = Some (JObj d) ->
  dict_get (KStr "serialNumber") d = Some x ->
  py_eq x serial_number = true ->
  (forall j e, j < i -> entities !! j = Some e -> other_serial serial_number e) ->
  set_data_value_for_property sources serial_number (JStr property_name) value s
  = (Ret tt,
     with_data
       (mkMerged (cache (self_data s))
          (JObj (dict_set (KStr sources)
                   (JArr (<[i := JObj (dict_set (KStr property_name) value d)]> entities))
                   top)))
       s).
Proof.
  intros Htop Hcollection Hi Hserial Heq Hbefore.
  unfold set_data_value_for_property. rewrite Htop. simpl. rewrite Hcollection. simpl.
  now rewrite (scan_entities_hit _ _ _ _ i d x Hi Hserial Heq Hbefore).
Qed.

(** C6 (amended).  When record [i] of the named collection is the first one
    whose serial number is the target, the records ahead of it carrying
    other serial numbers, [set_data_value_for_property] returns without an
    error having set the named property of that record to the given value;
    the record's other properties, the other records of the collection,
    the other collections and the cache are as before.  Writing the same
    value again leaves the state as the first write left it, provided the
    property written is not the serial number, or the value written equals
    the target, or every later record carries a serial number other than
    the target. *)
Theorem set_data_present_serial
    (sources : string) (serial_number : json) (property_name : string) (value : json)
    (s : State) (top : list (key * json)) (entities : list json) (i : nat)
    (d : list (key * json)) (x : json) :
  data (self_data s) = JObj top ->
  dict_get (KStr sources) top = Some (JArr entities) ->
  entities !! i = Some (JObj d) ->
  dict_get (KStr "serialNumber") d = Some x ->
  py_eq x serial_number = true ->
  (forall j e, j < i -> entities !! j = Some e -> other_serial serial_number e) ->
  let d' := dict_set (KStr property_name) value d in
  let entities' := <[i := JObj d']> entities in
  let top' := dict_set (KStr sources) (JArr entities') top in
  let s' := with_data (mkMerged (cache (self_data s)) (JObj top')) s in
  set_data_value_for_property sources serial_number (JStr property_name) value s
  = (Ret tt, s')
  /\ entities' !! i = Some (JObj d')
  /\ dict_get (KStr property_name) d' = Some value
  /\ (forall q, key_eqb (KStr property_name) q = false -> dict_get q d' = dict_get q d)
  /\ (forall j, j <> i -> entities' !! j = entities !! j)
  /\ length entities' = length entities
  /\ dict_get (KStr sources) top' = Some (JArr entities')
  /\ (forall c, key_eqb (KStr sources) c = false -> dict_get c top' = dict_get c top)
  /\ cache (self_data s') = cache (self_data s)
  /\ (property_name <> "serialNumber"
      \/ py_eq value serial_number = true
      \/ (forall j e, i < j -> entities !! j = Some e -> other_serial serial_number e) ->
      set_data_value_for_property sources serial_number (JStr property_name) value s'
      = (Ret tt, s')).
Proof.
  intros Htop Hcollection Hi Hserial Heq Hbefore d' entities' top' s'.
  assert (Hlen : i < length entities) by (eapply lookup_lt_Some; eassumption).
  assert (Hi' : entities' !! i = Some (JObj d')) by (now apply list_lookup_insert_eq).
  assert (Hcollection' : dict_get (KStr sources) top' = Some (JArr entities'))
    by apply dict_get_set_eq.
  assert (Hbefore' :
    forall j e, j < i -> entities' !! j = Some e -> other_serial serial_number e).
  { intros j e Hj He. apply (Hbefore j e Hj).
    unfold entities' in He. rewrite list_lookup_insert_ne in He; [exact He | lia]. }
  split; [now apply (set_data_hit _ _ _ _ _ top entities i d x)|].
  split; [exact Hi'|].
  split; [apply dict_get_set_eq|].
  split; [intros q Hq; now apply dict_get_set_ne|].
  split; [intros j Hj; apply list_lookup_insert_ne; congruence|].
  split; [apply length_insert|].
  split; [exact Hcollection'|].
  split; [intros c Hc; now apply dict_get_set_ne|].
  split; [reflexivity|].
  intros Hagain.
  assert (Hstill :
    (exists x', dict_get (KStr "serialNumber") d' = Some x'
                /\ py_eq x' serial_number = true)
    \/ Forall (other_serial serial_number) entities').
  { destruct (String.eqb_spec property_name "serialNumber") as [Hname|Hname].
    - destruct (py_eq value serial_number) eqn:Hvalue.
      + left. exists value. split; [|exact Hvalue].
        unfold d'. rewrite Hname. apply dict_get_set_eq.
      + destruct Hagain as [Hne|[Hyes|Hlater]]; [congruence | congruence |].
        right. apply Forall_lookup. intros j e He.
        destruct (Nat.lt_total j i) as [Hj|[->|Hj]].
        * now apply (Hbefore' j e).
        * rewrite Hi' in He. injection He as <-.
          exists value. split; [|exact Hvalue].
          unfold getitem, d'. rewrite Hname. now rewrite dict_get_set_eq.
        * apply (Hlater j e Hj).
          unfold entities' in He. rewrite list_lookup_insert_ne in He; [exact He | lia].
    - left. exists x. split; [|exact Heq].
      unfold d'. rewrite dict_get_set_ne; [exact Hserial|].
      simpl. now apply String.eqb_neq. }
  destruct Hstill as [(x' & Hserial' & Heq')|Hnone].
  - rewrite (set_data_hit sources serial_number property_name value s' top' entities' i d' x');
      try assumption; try reflexivity.
    f_equal. unfold s', top', entities', d'. simpl.
    now rewrite dict_set_set, list_insert_insert_eq, dict_set_set.
  - apply (set_data_miss _ _ _ _ _ entities'); [|exact Hnone].
    simpl. now rewrite Hcollection'.
Qed.

(** The theorem at work: a motion event for camera D1 of the snapshot,
    written once and then once more. *)
Lemma set_data_present_serial_witness :
  exists s',
    set_data_value_for_property "devices" (JStr "D1") (JStr "motionDetected") (JBool true)
      listening_coordinator
    = (Ret tt, s')
    /\ data (self_data s')
       = obj [("devices",
               JArr [obj [("serialNumber", JStr "D1"); ("name", JStr "Cam1");
                          ("motionDetected", JBool true)]])]
    /\ set_data_value_for_property "devices" (JStr "D1") (JStr "motionDetected")
         (JBool true) s'
       = (Ret tt, s').
Proof.
  assert (Hbefore :
    forall j e, j < 0 ->
      [obj [("serialNumber", JStr "D1"); ("name", JStr "Cam1")]] !! j = Some e ->
      other_serial (JStr "D1") e) by (intros j e Hj; lia).
  pose proof (set_data_present_serial "devices" (JStr "D1") "motionDetected" (JBool true)
                listening_coordinator
                [(KStr "devices",
                  JArr [obj [("serialNumber", JStr "D1"); ("name", JStr "Cam1")]])]
                [obj [("serialNumber", JStr "D1"); ("name", JStr "Cam1")]]
                0
                [(KStr "serialNumber", JStr "D1"); (KStr "name", JStr "Cam1")]
                (JStr "D1")
                eq_refl eq_refl eq_refl eq_refl eq_refl Hbefore)
    as (Hfirst & _ & _ & _ & _ & _ & _ & _ & _ & Hagain).
  eexists. split; [exact Hfirst|]. split; [reflexivity|].
  apply Hagain. left. discriminate.
Defined.

(** C6 as stated fails where two records carry the target's serial number
    and the write renames it: the first write of serialNumber := D2 for D1
    changes the first record, and writing the same value again changes the
    second one, so the second write does not leave the state as the first
    left it. *)
Lemma set_data_rename_twice_counterexample :
  let write :=
    set_data_value_for_property "devices" (JStr "D1") (JStr "serialNumber") (JStr "D2") in
  let s1 := snd (write twin_records_coordinator) in
  let s2 := snd (write s1) in
  write twin_records_coordinator = (Ret tt, s1)
  /\ data (self_data s1)
     = obj [("devices",
             JArr [obj [("serialNumber", JStr "D2"); ("name", JStr "a")];
                   obj [("serialNumber", JStr "D1"); ("name", JStr "b")]])]
  /\ write s1 = (Ret tt, s2)
  /\ data (self_data s2)
     = obj [("devices",
             JArr [obj [("serialNumber", JStr "D2"); ("name", JStr "a")];
                   obj [("serialNumber", JStr "D2"); ("name", JStr "b")]])]
  /\ s2 <> s1.
Proof.
  intros write s1 s2. repeat split.
  intros H. apply (f_equal (fun s => data (self_data s))) in H.
  vm_compute in H. discriminate H.
Qed.

(** *** C7 and C10: the property cache *)

Lemma str_remove_spec (c : ascii) (t : string) :
  list_ascii_of_string (str_remove c t)
  = List.filter (fun a => negb (Ascii.eqb a c)) (list_ascii_of_string t).
Proof.
  induction t as [|a t IH]; simpl; [reflexivity|].
  destruct (Ascii.eqb a c); simpl; now rewrite IH.
Qed.

Lemma str_remove_gone (c : ascii) (t : string) :
  ~ In c (list_ascii_of_string (str_remove c t)).
Proof.
  rewrite str_remove_spec, filter_In. intros [_ H].
  now rewrite Ascii.eqb_refl in H.
Qed.

(** C7.  [set_cache_value_for_property], given a serial number and a
    property name that are strings, always returns without an error and
    changes the cache only: under the serial number, created on the first
    write as a map holding just this property, the property now has the
    value, a string value having lost its NUL characters and no others
    ("\x00ab\x00c" is stored as "abc"), any other value being stored as
    given; what is cached under other serial numbers and under the serial
    number's other properties is as before. *)
Theorem set_cache_stores_stripped_value
    (sources serial_number property_name : string) (value : json) (s : State) :
  let c := cache (self_data s) in
  let properties := match dict_get (KStr serial_number) c with
                    | Some m => m
                    | None => []
                    end in
  let c' := dict_set (KStr serial_number)
              (dict_set (KStr property_name) (strip_nul value) properties) c in
  set_cache_value_for_property sources (JStr serial_number) (JStr property_name) value s
  = (Ret tt, with_cache c' s)
  /\ dict_get (KStr serial_number) c'
     = Some (dict_set (KStr property_name) (strip_nul value) properties)
  /\ dict_get (KStr property_name)
       (dict_set (KStr property_name) (strip_nul value) properties)
     = Some (strip_nul value)
  /\ (dict_get (KStr serial_number) c = None ->
      dict_get (KStr serial_number) c' = Some [(KStr property_name, strip_nul value)])
  /\ (forall q, key_eqb (KStr property_name) q = false ->
        dict_get q (dict_set (KStr property_name) (strip_nul value) properties)
        = dict_get q properties)
  /\ (forall k, key_eqb (KStr serial_number) k = false -> dict_get k c' = dict_get k c)
  /\ (forall t, value = JStr t ->
        strip_nul value = JStr (str_remove NUL t)
        /\ ~ In NUL (list_ascii_of_string (str_remove NUL t))
        /\ list_ascii_of_string (str_remove NUL t)
           = List.filter (fun a => negb (Ascii.eqb a NUL)) (list_ascii_of_string t))
  /\ ((forall t, value <> JStr t) -> strip_nul value = value)
  /\ strip_nul (JStr (String NUL (String "a" (String "b" (String NUL "c"))))) = JStr "abc".
Proof.
  intros c properties c'. repeat split.
  - subst c' properties c. unfold set_cache_value_for_property. simpl.
    destruct (dict_get (KStr serial_number) (cache (self_data s))) as [m|] eqn:Hm.
    + rewrite Hm. reflexivity.
    + unfold with_cache, with_data. simpl.
      rewrite dict_get_set_eq. now rewrite dict_set_set.
  - apply dict_get_set_eq.
  - apply dict_get_set_eq.
  - intros Hnone. unfold c', properties. rewrite Hnone. apply dict_get_set_eq.
  - intros q Hq. now apply dict_get_set_ne.
  - intros k Hk. now apply dict_get_set_ne.
  - subst value. reflexivity.
  - apply str_remove_gone.
  - apply str_remove_spec.
  - intros Hother. destruct value; try reflexivity. now destruct (Hother s0).
Qed.

(** The theorem at work: the first cached value for serial number D1. *)
Lemma set_cache_stores_stripped_value_witness :
  set_cache_value_for_property "devices" (JStr "D1") (JStr "rtspUrl")
    (JStr (String NUL (String "a" (String "b" (String NUL "c"))))) __init__
  = (Ret tt, with_cache [(KStr "D1", [(KStr "rtspUrl", JStr "abc")])] __init__)
  /\ dict_get (KStr "D1")
       (dict_set (KStr "D1") [(KStr "rtspUrl", JStr "abc")] (cache (self_data __init__)))
     = Some [(KStr "rtspUrl", JStr "abc")]
  /\ set_cache_value_for_property "devices" (JStr "D1") (JStr "rtspUrl") (JNum 7) __init__
     = (Ret tt, with_cache [(KStr "D1", [(KStr "rtspUrl", JNum 7)])] __init__).
Proof.
  pose proof (set_cache_stores_stripped_value "devices" "D1" "rtspUrl"
                (JStr (String NUL (String "a" (String "b" (String NUL "c"))))) __init__)
    as (Hcall & _ & _ & Hlazy & _).
  pose proof (set_cache_stores_stripped_value "devices" "D1" "rtspUrl" (JNum 7) __init__)
    as (Hnum & _ & _ & _ & _ & _ & _ & Hother & _).
  split; [exact Hcall|]. split; [exact (Hlazy eq_refl)|].
  rewrite Hnum. rewrite Hother; [reflexivity|]. discriminate.
Defined.

Lemma getitem_here k v fields : getitem (JObj ((KStr k, v) :: fields)) k = Ret v.
Proof. unfold getitem. cbn [dict_get key_eqb]. now rewrite String.eqb_refl. Qed.

Lemma getitem_skip k0 v0 fields k :
  String.eqb k0 k = false ->
  getitem (JObj ((KStr k0, v0) :: fields)) k = getitem (JObj fields) k.
Proof. intros H. unfold getitem. cbn [dict_get key_eqb]. now rewrite H. Qed.

Lemma get_default_skip k0 v0 fields k default :
  String.eqb k0 k = false ->
  get_default (JObj ((KStr k0, v0) :: fields)) k default
  = get_default (JObj fields) k default.
Proof. intros H. unfold get_default. cbn [dict_get key_eqb]. now rewrite H. Qed.

Lemma on_message_event_from conf source fields s :
  on_message conf (event_from source fields) s
  = on_message_event conf (JObj ((KStr "source", JStr source) :: fields)) s.
Proof. reflexivity. Qed.

(** What a cached event does, read off the message's fields other than
    its source. *)
Lemma on_message_cached_event conf source fields event_type row s :
  dict_get (KStr "event") fields = Some (JStr event_type) ->
  conf_get event_type conf = Some row ->
  conf_is_cached row = true ->
  conf_value row <> "source" ->
  on_message conf (event_from source fields) s
  = (do event_serial_number <- lift (getitem (JObj fields) "serialNumber");
     do event_property_name <-
       lift (get_default (JObj fields) "name" (JStr (conf_name row)));
     do event_property_value <- lift (getitem (JObj fields) (conf_value row));
     run set_cache_value_for_property "" event_serial_number
           event_property_name event_property_value;
     fun s => async_set_updated_data (self_data s) s) s.
Proof.
  intros Hevent Hrow Hcached Hvalue.
  assert (Hskip : String.eqb "source" (conf_value row) = false).
  { apply String.eqb_neq. congruence. }
  rewrite on_message_event_from. unfold on_message_event, bind, lift.
  rewrite (getitem_skip "source" _ _ "event" eq_refl), getitem_here,
    (getitem_skip "source" _ _ "serialNumber" eq_refl).
  unfold getitem at 1. rewrite Hevent. cbn [obind add_s].
  destruct (getitem (JObj fields) "serialNumber") as [sn|e]; [|reflexivity].
  rewrite Hrow, Hcached.
  rewrite (get_default_skip "source" _ _ "name" _ eq_refl),
    (getitem_skip "source" _ _ (conf_value row) Hskip).
  reflexivity.
Qed.

(** C10.  [set_cache_value_for_property] does not look at its [sources]
    argument: with the other arguments and the state the same, two calls
    that differ in it have the same outcome and leave the same state.  So
    a cached event from a device and the same cached event from a station
    (the field holding the value not being the source itself) leave the
    same state: they write to the cache entry of the serial number they
    share. *)
Theorem set_cache_ignores_sources
    (sources1 sources2 : string) (serial_number property_name value : json) (s : State) :
  set_cache_value_for_property sources1 serial_number property_name value s
  = set_cache_value_for_property sources2 serial_number property_name value s
  /\ (forall conf fields event_type row,
        dict_get (KStr "event") fields = Some (JStr event_type) ->
        conf_get event_type conf = Some row ->
        conf_is_cached row = true ->
        conf_value row <> "source" ->
        on_message conf (event_from sources1 fields) s
        = on_message conf (event_from sources2 fields) s).
Proof.
  split; [reflexivity|].
  intros conf fields event_type row Hevent Hrow Hcached Hvalue.
  rewrite (on_message_cached_event conf sources1 fields event_type row s);
    try assumption.
  now rewrite (on_message_cached_event conf sources2 fields event_type row s).
Qed.

(** The theorem at work: the rtsp url of serial number S1, reported once
    as a device's and once as a station's. *)
Lemma set_cache_ignores_sources_witness :
  on_message a_configuration (event_from "device" rtsp_url_fields) listening_coordinator
  = on_message a_configuration (event_from "station" rtsp_url_fields) listening_coordinator
  /\ cache (self_data
              (snd (on_message a_configuration (event_from "station" rtsp_url_fields)
                      listening_coordinator)))
     = [(KStr "S1", [(KStr "rtspUrl", JStr "rtsp://camera/live0")])].
Proof.
  split; [|reflexivity].
  pose proof (set_cache_ignores_sources "device" "station" JNull JNull JNull
                listening_coordinator) as [_ Hevents].
  apply (Hevents a_configuration rtsp_url_fields "got rtsp url"
           (mkEventConf "rtspUrl" "rtspUrl" true)).
  - reflexivity.
  - reflexivity.
  - reflexivity.
  - discriminate.
Defined.

(** *** C9: the get-properties commands *)

Lemma fill_message_first template suffix device_type serial_no :
  template = obj [("command", JStr (String.append "{0}" suffix)); ("serialNumber", JNull)] ->
  (forall name, str_format suffix name Manual = Ret suffix) ->
  fill_message template device_type serial_no
  = Ret (obj [("command",
               JStr (String.append (get_device_type_name device_type) suffix));
              ("serialNumber", serial_no)]).
Proof.
  intros -> Hsuffix. unfold fill_message, format_command. cbn - [str_format].
  change (str_format (String "{" (String "0" (String "}" suffix)))
            (get_device_type_name device_type) Unnumbered)
    with (t <- str_format suffix (get_device_type_name device_type) Manual ;;
          Ret (String.append (get_device_type_name device_type) t)).
  rewrite Hsuffix. reflexivity.
Qed.

(** Once a command has been filled in, no replacement field is left in
    it: formatting it again gives it back, whatever the device type. *)
Lemma fill_message_again command device_type serial_no serial_no' :
  (forall name, str_format command name Unnumbered = Ret command) ->
  fill_message (obj [("command", JStr command); ("serialNumber", serial_no)])
    device_type serial_no'
  = Ret (obj [("command", JStr command); ("serialNumber", serial_no')]).
Proof.
  intros Hcommand. unfold fill_message, format_command. cbn - [str_format].
  rewrite Hcommand. reflexivity.
Qed.

Lemma send_after conf deliveries message s w :
  ws s = Some w ->
  exists s',
    async_send_message conf deliveries message s = (Ret tt, s')
    /\ ws s' = Some (mkWebSocket (connected w) (sent w ++ [message]))
    /\ GET_PROPERTIES_MESSAGE s' = GET_PROPERTIES_MESSAGE s
    /\ GET_PROPERTIES_METADATA_MESSAGE s' = GET_PROPERTIES_METADATA_MESSAGE s.
Proof.
  intros Hws. unfold async_send_message, send_message, ws_call. rewrite Hws.
  eexists. split; [reflexivity|].
  destruct (suspend_surroundings conf deliveries
              (with_ws (Some (mkWebSocket (connected w) (sent w ++ [message]))) s))
    as (-> & _ & -> & ->).
  repeat split.
Qed.

Lemma device_type_names device_type :
  get_device_type_name device_type = "station"
  \/ get_device_type_name device_type = "device".
Proof. destruct device_type; [left | right]; reflexivity. Qed.

Lemma get_properties_twice conf deliveries
    (method : DeviceType -> json -> M unit)
    (field : State -> json) (with_field : json -> State -> State)
    (suffix : string) (first later : DeviceType) (serial_no serial_no' : json)
    (s : State) (w : EufySecurityWebSocket) :
  (forall device_type serial s,
      method device_type serial s
      = match fill_message (field s) device_type serial with
        | Raise e => (Raise e, s)
        | Ret message =>
            async_send_message conf deliveries (Undumped message) (with_field message s)
        end) ->
  (forall m s, field (with_field m s) = m /\ ws (with_field m s) = ws s) ->
  (forall message s s',
      async_send_message conf deliveries message s = (Ret tt, s') ->
      ws s <> None -> field s' = field s) ->
  (forall name, str_format suffix name Manual = Ret suffix) ->
  (forall name name',
      str_format (String.append (get_device_type_name name) suffix) name' Unnumbered
      = Ret (String.append (get_device_type_name name) suffix)) ->
  ws s = Some w ->
  field s = obj [("command", JStr (String.append "{0}" suffix)); ("serialNumber", JNull)] ->
  let command := JStr (String.append (get_device_type_name first) suffix) in
  exists s1 s2,
    method first serial_no s = (Ret tt, s1)
    /\ method later serial_no' s1 = (Ret tt, s2)
    /\ ws s2
       = Some (mkWebSocket (connected w)
                 (sent w
                  ++ [Undumped (obj [("command", command); ("serialNumber", serial_no)]);
                      Undumped (obj [("command", command); ("serialNumber", serial_no')])])).
Proof.
  intros Hmethod Hfield Hkept Hsuffix Hfilled Hws Htemplate command.
  destruct (send_after conf deliveries
              (Undumped (obj [("command", command); ("serialNumber", serial_no)]))
              (with_field (obj [("command", command); ("serialNumber", serial_no)]) s) w)
    as (s1 & Hsend1 & Hws1 & _).
  { now rewrite (proj2 (Hfield _ _)). }
  assert (Hfield1 : field s1 = obj [("command", command); ("serialNumber", serial_no)]).
  { rewrite (Hkept _ _ _ Hsend1); [apply Hfield|].
    rewrite (proj2 (Hfield _ _)). congruence. }
  destruct (send_after conf deliveries
              (Undumped (obj [("command", command); ("serialNumber", serial_no')]))
              (with_field (obj [("command", command); ("serialNumber", serial_no')]) s1)
              (mkWebSocket (connected w)
                 (sent w ++ [Undumped (obj [("command", command);
                                            ("serialNumber", serial_no)])])))
    as (s2 & Hsend2 & Hws2 & _).
  { now rewrite (proj2 (Hfield _ _)). }
  exists s1, s2. split; [|split].
  - rewrite Hmethod, (fill_message_first _ suffix _ _ Htemplate Hsuffix). exact Hsend1.
  - rewrite Hmethod, Hfield1.
    unfold command. rewrite fill_message_again; [exact Hsend2|].
    intros name. apply Hfilled.
  - rewrite Hws2. simpl. now rewrite <- app_assoc.
Qed.

(** C9, as the code has it.  On a coordinator with a transport and the
    module's two message dicts as they are when the module is loaded, the
    first call of [async_get_properties_for_device] (and of
    [async_get_properties_metadata_for_device]) sends the command of its
    device type, "station" for [STATION] and "device" otherwise, with the
    given serial number.  The call writes that command over the template
    in the module's dict, so every later call sends the command of the
    first call's device type, whatever its own device type; its serial
    number is the given one. *)
Theorem get_properties_command_is_the_first_calls
    (conf : list (string * event_conf)) (deliveries : nat -> list callback)
    (first later : DeviceType) (serial_no serial_no' : json)
    (s : State) (w : EufySecurityWebSocket) :
  ws s = Some w ->
  GET_PROPERTIES_MESSAGE s = GET_PROPERTIES_TEMPLATE ->
  GET_PROPERTIES_METADATA_MESSAGE s = GET_PROPERTIES_METADATA_TEMPLATE ->
  (let command :=
     JStr (String.append (get_device_type_name first) ".get_properties") in
   exists s1 s2,
     async_get_properties_for_device conf deliveries first serial_no s = (Ret tt, s1)
     /\ async_get_properties_for_device conf deliveries later serial_no' s1 = (Ret tt, s2)
     /\ ws s2
        = Some (mkWebSocket (connected w)
                  (sent w
                   ++ [Undumped (obj [("command", command); ("serialNumber", serial_no)]);
                       Undumped (obj [("command", command); ("serialNumber", serial_no')])])))
  /\ (let command :=
        JStr (String.append (get_device_type_name first) ".get_properties_metadata") in
      exists s1 s2,
        async_get_properties_metadata_for_device conf deliveries first serial_no s
        = (Ret tt, s1)
        /\ async_get_properties_metadata_for_device conf deliveries later serial_no' s1
           = (Ret tt, s2)
        /\ ws s2
           = Some (mkWebSocket (connected w)
                     (sent w
                      ++ [Undumped (obj [("command", command); ("serialNumber", serial_no)]);
                          Undumped (obj [("command", command);
                                         ("serialNumber", serial_no')])]))).
Proof.
  intros Hws Hgp Hgpm. split.
  - apply (get_properties_twice conf deliveries
             (async_get_properties_for_device conf deliveries)
             GET_PROPERTIES_MESSAGE with_GET_PROPERTIES_MESSAGE);
      try assumption; try reflexivity.
    + intros m s0. split; reflexivity.
    + intros message s0 s' Hsend Hsome.
      destruct (ws s0) as [w0|] eqn:Hw0; [|congruence].
      destruct (send_after conf deliveries message s0 w0 Hw0) as (s'' & Hs'' & _ & Hkept & _).
      congruence.
    + intros name name'. destruct (device_type_names name) as [-> | ->]; reflexivity.
  - apply (get_properties_twice conf deliveries
             (async_get_properties_metadata_for_device conf deliveries)
             GET_PROPERTIES_METADATA_MESSAGE with_GET_PROPERTIES_METADATA_MESSAGE);
      try assumption; try reflexivity.
    + intros m s0. split; reflexivity.
    + intros message s0 s' Hsend Hsome.
      destruct (ws s0) as [w0|] eqn:Hw0; [|congruence].
      destruct (send_after conf deliveries message s0 w0 Hw0) as (s'' & Hs'' & _ & _ & Hkept).
      congruence.
    + intros name name'. destruct (device_type_names name) as [-> | ->]; reflexivity.
Qed.

(** The defect at work: properties of camera D1 are asked for, then
    properties of station S1; the second command is "device.get_properties"
    where "station.get_properties" is due. *)
Lemma get_properties_command_is_the_first_calls_witness :
  exists s1 s2,
    async_get_properties_for_device [] quiet (OTHER 1) (JStr "D1") connected_coordinator
    = (Ret tt, s1)
    /\ async_get_properties_for_device [] quiet STATION (JStr "S1") s1 = (Ret tt, s2)
    /\ ws s2
       = Some (mkWebSocket true
                 [Undumped (obj [("command", JStr "device.get_properties");
                                 ("serialNumber", JStr "D1")]);
                  Undumped (obj [("command", JStr "device.get_properties");
                                 ("serialNumber", JStr "S1")])]).
Proof.
  exact (proj1 (get_properties_command_is_the_first_calls [] quiet (OTHER 1) STATION
                  (JStr "D1") (JStr "S1") connected_coordinator (mkWebSocket true [])
                  eq_refl eq_refl eq_refl)).
Defined.

(** ** Further properties *)

(** *** The waits, whatever is delivered *)

Section WaitsInGeneral.

Variable conf : list (string * event_conf).
Variable deliveries : nat -> list callback.
Variable flag : State -> bool.

(** A wait that returns has slept at most six times; it says true only in
    a state whose flag has the expected value, and says false only after
    the sixth sleep. *)
Lemma check_loop_sound (to_be_value : bool) :
  forall fuel counter s b s',
    counter <= 5 ->
    check_loop conf deliveries flag fuel to_be_value counter s = Some (b, s') ->
    exists k,
      s' = after_sleeps conf deliveries k s
      /\ (b = true -> flag s' = to_be_value /\ counter + k <= 5)
      /\ (b = false -> counter + k = 6).
Proof.
  induction fuel as [|fuel IH]; intros counter s b s' Hcounter Hloop; [discriminate|].
  simpl in Hloop.
  destruct (Bool.eqb (flag s) to_be_value) eqn:Hnow; simpl in Hloop.
  - injection Hloop as <- <-. exists 0. split; [reflexivity|]. split.
    + intros _. split; [now apply Bool.eqb_prop | lia].
    + discriminate.
  - destruct (Nat.ltb_spec 5 (counter + 1)) as [Hgt|Hle].
    + injection Hloop as <- <-. exists 1. split; [reflexivity|]. split.
      * discriminate.
      * intros _. lia.
    + destruct (IH (counter + 1) _ b s' ltac:(lia) Hloop) as (k & -> & Htrue & Hfalse).
      exists (S k). split; [reflexivity|]. split.
      * intros Hb. destruct (Htrue Hb). split; [assumption | lia].
      * intros Hb. specialize (Hfalse Hb). lia.
Qed.

Lemma existsb_seq_shift (f : nat -> bool) (start len : nat) :
  existsb f (seq (S start) len) = existsb (fun k => f (S k)) (seq start len).
Proof.
  revert start. induction len as [|len IH]; intros start; simpl; [reflexivity|].
  now rewrite IH.
Qed.

(** Whether a wait says true is decided by the checks it can make. *)
Lemma check_loop_decides (to_be_value : bool) :
  forall n fuel counter s,
    1 <= n -> counter + n = 6 -> n <= fuel ->
    exists s',
      check_loop conf deliveries flag fuel to_be_value counter s
      = Some (existsb
                (fun k => Bool.eqb (flag (after_sleeps conf deliveries k s)) to_be_value)
                (seq 0 n),
              s').
Proof.
  induction n as [|n IH]; intros fuel counter s Hn Hcounter Hfuel; [lia|].
  destruct fuel as [|fuel]; [lia|].
  cbn [check_loop seq existsb after_sleeps].
  destruct (Bool.eqb (flag s) to_be_value) eqn:Hnow; cbn [negb orb].
  - eexists. reflexivity.
  - rewrite existsb_seq_shift. cbn [after_sleeps].
    destruct (Nat.ltb_spec 5 (counter + 1)) as [Hgt|Hle].
    + assert (n = 0) as -> by lia. eexists. reflexivity.
    + apply IH; lia.
Qed.

End WaitsInGeneral.

(** *** What a message can do *)

Lemma set_data_frame sources serial_number property_name value s :
  let s' := snd (set_data_value_for_property sources serial_number property_name value s) in
  start_listening_state s' = start_listening_state s
  /\ poll_refresing_state s' = poll_refresing_state s
  /\ published s' = published s
  /\ cache (self_data s') = cache (self_data s).
Proof.
  unfold set_data_value_for_property. now destruct (obind _ _).
Qed.

Lemma set_cache_frame sources serial_number property_name value s :
  let s' := snd (set_cache_value_for_property sources serial_number property_name value s) in
  start_listening_state s' = start_listening_state s
  /\ poll_refresing_state s' = poll_refresing_state s
  /\ published s' = published s
  /\ data (self_data s') = data (self_data s).
Proof.
  unfold set_cache_value_for_property.
  destruct (to_key serial_number) as [sn|]; [|now repeat split].
  destruct (dict_get sn (cache (self_data s))); simpl;
    now destruct (dict_get _ _), (to_key property_name).
Qed.

(** Rewrites with what is known of the message, then computes. *)
Ltac read_message :=
  unfold poll_ack, listening_ack, result_for, event_row, has_str;
  repeat match goal with
         | H : getitem _ _ = _ |- _ => rewrite H
         | H : String.eqb _ _ = _ |- _ => rewrite H
         | H : conf_get _ _ = _ |- _ => rewrite H
         end;
  rewrite ?String.eqb_refl;
  try reflexivity.

Lemma on_message_cases conf payload s :
  message_effect conf payload s
    (fst (on_message conf payload s)) (snd (on_message conf payload s)).
Proof.
  unfold on_message, bind, lift.
  destruct (getitem payload "type") as [mt|e] eqn:Htype; cbn [fst snd].
  2: { apply effect_none; [| |left]; read_message. }
  destruct mt as [| | |t| |]; cbn [fst snd ret];
    try (apply effect_none; [| |left]; read_message).
  destruct (String.eqb t "result") eqn:Hresult.
  - apply String.eqb_eq in Hresult. subst t.
    change (str_in "result" MESSAGE_TYPES_TO_PROCESS) with true. cbn [negb].
    rewrite ?String.eqb_refl.
    destruct (getitem payload "result") as [message|e] eqn:Hmessage; cbn [fst snd].
    2: { apply effect_none; [| |left]; read_message. }
    unfold on_message_result, bind, lift.
    destruct (getitem payload "messageId") as [mid|e] eqn:Hid; cbn [fst snd].
    2: { apply effect_none; [| |left]; read_message. }
    destruct mid as [| | |id| |]; cbn [fst snd ret];
      try (apply effect_none; [| |left]; read_message).
    destruct (String.eqb id "start_listening") eqn:Hstart.
    + apply String.eqb_eq in Hstart. subst id.
      change (str_in "start_listening" MESSAGE_IDS_TO_PROCESS) with true. cbn [negb].
      rewrite ?String.eqb_refl.
      try change (String.eqb "start_listening" "poll_refresh") with false. cbv iota.
      destruct (getitem message "state") as [state|e] eqn:Hstate; cbn [fst snd].
      * apply (effect_listening_ack conf payload s message state); read_message.
      * apply effect_none; [| |left]; read_message.
    + destruct (String.eqb id "poll_refresh") eqn:Hpoll.
      * apply String.eqb_eq in Hpoll. subst id.
        change (str_in "poll_refresh" MESSAGE_IDS_TO_PROCESS) with true.
        cbn [negb fst snd ret]. apply effect_poll_ack; read_message.
      * unfold str_in, MESSAGE_IDS_TO_PROCESS. cbn [existsb].
        rewrite Hstart, Hpoll. cbn [orb negb fst snd ret].
        apply effect_none; [| |left]; read_message.
  - destruct (String.eqb t "event") eqn:Hevent.
    + apply String.eqb_eq in Hevent. subst t.
      change (str_in "event" MESSAGE_TYPES_TO_PROCESS) with true. cbn [negb].
      try change (String.eqb "event" "result") with false. rewrite ?String.eqb_refl.
      cbv iota.
      destruct (getitem payload "event") as [message|e] eqn:Hmessage; cbn [fst snd].
      2: { apply effect_none; [| |left]; read_message. }
      unfold on_message_event, bind, lift.
      destruct (getitem message "event") as [event_type|e] eqn:Het; cbn [obind fst snd].
      2: { apply effect_none; [| |left]; read_message. }
      destruct (getitem message "source") as [source|e] eqn:Hsource; cbn [obind fst snd].
      2: { apply effect_none; [| |right; eauto]; read_message. }
      destruct (add_s source) as [sources|e] eqn:Hsources; cbn [fst snd].
      2: { apply effect_none; [| |right; eauto]; read_message. }
      destruct (getitem message "serialNumber") as [sn|e] eqn:Hserial; cbn [fst snd].
      2: { apply effect_none; [| |right; eauto]; read_message. }
      destruct event_type as [| | |et| |]; cbn [fst snd ret raise];
        try (apply effect_none; [| |left]; read_message);
        try (apply effect_none; [| |right; eauto]; read_message).
      destruct (conf_get et conf) as [row|] eqn:Hrow; cbn [fst snd ret].
      2: { apply effect_none; [| |left]; read_message. }
      destruct (get_default message "name" (JStr (conf_name row))) as [pn|e] eqn:Hname;
        cbn [fst snd].
      2: { apply effect_none; [| |right; eauto]; read_message. }
      destruct (getitem message (conf_value row)) as [v|e] eqn:Hvalue; cbn [fst snd].
      2: { apply effect_none; [| |right; eauto]; read_message. }
      destruct (conf_is_cached row) eqn:Hcached.
      * destruct (set_cache_value_for_property sources sn pn v s) as [[[]|e] s1] eqn:Hset;
          cbn [fst snd].
        -- apply (effect_cached conf payload s row sources sn pn v s1); try assumption;
             read_message.
        -- apply (effect_cached_error conf payload s row sources sn pn v e s1);
             try assumption; read_message.
      * destruct (set_data_value_for_property sources sn pn v s) as [[[]|e] s1] eqn:Hset;
          cbn [fst snd].
        -- apply (effect_live conf payload s row sources sn pn v s1); try assumption;
             read_message.
        -- rewrite (set_data_error_keeps_state _ _ _ _ _ _ _ Hset).
           apply effect_none; [| |right; eauto]; read_message.
    + unfold str_in, MESSAGE_TYPES_TO_PROCESS. cbn [existsb].
      rewrite Hresult, Hevent. cbn [orb negb fst snd ret].
      apply effect_none; [| |left]; read_message.
Qed.

(** The two flags after a message: each is set by its own acknowledgement
    and by nothing else, and no message clears a flag. *)
Lemma on_message_flags conf payload s :
  start_listening_state (snd (on_message conf payload s))
  = start_listening_state s || listening_ack payload
  /\ poll_refresing_state (snd (on_message conf payload s))
     = poll_refresing_state s || poll_ack payload.
Proof.
  pose proof (on_message_cases conf payload s) as H.
  set (o := fst (on_message conf payload s)) in H.
  set (s' := snd (on_message conf payload s)) in *.
  clearbody o s'.
  destruct H as [o Hpoll Hlistening _ | Hpoll Hlistening
                | message state _ _ Hlistening Hpoll
                | row sources sn pn v s1 _ _ Hpoll Hlistening Hset
                | row sources sn pn v s1 _ _ Hpoll Hlistening Hset
                | row sources sn pn v e s1 _ _ Hpoll Hlistening Hset];
    rewrite Hpoll, Hlistening, ?orb_false_r, ?orb_true_r; try (split; reflexivity).
  - apply (f_equal snd) in Hset. simpl in Hset. subst s1.
    destruct (set_data_frame sources sn pn v s) as (Hs & Hp & _). now split.
  - apply (f_equal snd) in Hset. simpl in Hset. subst s1.
    destruct (set_cache_frame sources sn pn v s) as (Hs & Hp & _). now split.
  - apply (f_equal snd) in Hset. simpl in Hset. subst s1.
    destruct (set_cache_frame sources sn pn v s) as (Hs & Hp & _). now split.
Qed.

Lemma deliver_flags conf s c :
  start_listening_state (deliver conf s c) = listening_after (start_listening_state s) c
  /\ poll_refresing_state (deliver conf s c) = poll_after (poll_refresing_state s) c.
Proof.
  destruct c; try (split; reflexivity).
  apply on_message_flags.
Qed.

Lemma deliveries_flags conf cs s :
  start_listening_state (fold_left (deliver conf) cs s)
  = fold_left listening_after cs (start_listening_state s)
  /\ poll_refresing_state (fold_left (deliver conf) cs s)
     = fold_left poll_after cs (poll_refresing_state s).
Proof.
  revert s. induction cs as [|c cs IH]; intros s; simpl; [now split|].
  destruct (IH (deliver conf s c)) as [-> ->].
  now destruct (deliver_flags conf s c) as [-> ->].
Qed.

Lemma suspend_flags conf deliveries s :
  start_listening_state (suspend conf deliveries s)
  = fold_left listening_after (deliveries (clock s)) (start_listening_state s)
  /\ poll_refresing_state (suspend conf deliveries s)
     = fold_left poll_after (deliveries (clock s)) (poll_refresing_state s).
Proof.
  unfold suspend. simpl. apply deliveries_flags.
Qed.

Lemma after_sleeps_flags conf deliveries k :
  forall s,
    start_listening_state (after_sleeps conf deliveries k s)
    = fold_left listening_after (window deliveries (clock s) k) (start_listening_state s)
    /\ poll_refresing_state (after_sleeps conf deliveries k s)
       = fold_left poll_after (window deliveries (clock s) k) (poll_refresing_state s).
Proof.
  induction k as [|k IH]; intros s; simpl; [now split|].
  destruct (IH (sleep conf deliveries s)) as [-> ->]. unfold sleep.
  destruct (suspend_flags conf deliveries s) as [-> ->].
  destruct (suspend_surroundings conf deliveries s) as (_ & -> & _).
  now rewrite !fold_left_app.
Qed.

Lemma poll_after_fold cs b :
  fold_left poll_after cs b = b || existsb delivers_poll_ack cs.
Proof.
  revert b. induction cs as [|c cs IH]; intros b; simpl; [now rewrite orb_false_r|].
  rewrite IH. unfold delivers_poll_ack.
  destruct c; simpl; now rewrite ?orb_false_r, ?orb_assoc.
Qed.

(** What the six checks of a wait on the poll-refreshed flag see, when the
    flag was false before suspension [t]: an acknowledgement delivered in
    suspensions [t], ..., [t + 5]. *)
Lemma poll_checks_see_window deliveries t :
  existsb (fun k => existsb delivers_poll_ack (window deliveries t (S k))) (seq 0 6)
  = existsb delivers_poll_ack (window deliveries t 6).
Proof.
  cbn [seq existsb window]. rewrite !existsb_app. cbn [existsb].
  destruct (existsb delivers_poll_ack (deliveries t)),
    (existsb delivers_poll_ack (deliveries (S t))),
    (existsb delivers_poll_ack (deliveries (S (S t)))),
    (existsb delivers_poll_ack (deliveries (S (S (S t))))),
    (existsb delivers_poll_ack (deliveries (S (S (S (S t)))))),
    (existsb delivers_poll_ack (deliveries (S (S (S (S (S t)))))));
    reflexivity.
Qed.

Lemma existsb_pointwise {A : Type} (f g : A -> bool) (l : list A) :
  (forall a, f a = g a) -> existsb f l = existsb g l.
Proof.
  intros Hfg. induction l as [|a l IH]; simpl; [reflexivity|].
  now rewrite Hfg, IH.
Qed.

Lemma eqb_true_is (b : bool) : Bool.eqb b true = b.
Proof. now destruct b. Qed.

(** How a tick gets to its wait, on a coordinator with a transport. *)
Lemma async_poll_refresh_sends conf POLL_REFRESH_MESSAGE deliveries s w :
  ws s = Some w ->
  async_poll_refresh conf POLL_REFRESH_MESSAGE deliveries s
  = (Ret tt,
     suspend conf deliveries
       (with_ws (Some (mkWebSocket (connected w)
                         (sent w ++ [Dumps POLL_REFRESH_MESSAGE])))
          (with_poll_refresing_state false s))).
Proof.
  intros Hws. unfold async_poll_refresh, bind, set_poll_refreshing_state, modify,
    async_send_message, send_message, ws_call. simpl. now rewrite Hws.
Qed.

(** How [initialize_ws] gets to its wait. *)
Lemma initialize_ws_sends conf START_LISTENING_MESSAGE deliveries s :
  (run set_ws conf deliveries;
   async_start_listening conf START_LISTENING_MESSAGE deliveries)
    (with_ws (Some new_websocket) s)
  = (Ret tt,
     suspend conf deliveries
       (with_ws (Some (mkWebSocket true [Dumps START_LISTENING_MESSAGE]))
          (with_start_listening_state false
             (suspend conf deliveries (with_ws (Some (mkWebSocket true [])) s))))).
Proof.
  set (s1 := suspend conf deliveries (with_ws (Some (mkWebSocket true [])) s)).
  change ((run set_ws conf deliveries;
           async_start_listening conf START_LISTENING_MESSAGE deliveries)
            (with_ws (Some new_websocket) s))
    with (async_start_listening conf START_LISTENING_MESSAGE deliveries s1).
  unfold async_start_listening, bind, set_start_listening_state, modify,
    async_send_message, send_message, ws_call.
  change (ws (with_start_listening_state false s1)) with (ws s1).
  unfold s1 at 1. rewrite (proj1 (suspend_surroundings conf deliveries _)).
  reflexivity.
Qed.

(** *** The entry points, in terms of what the transport delivers *)

(** X1.  A refresh tick on a coordinator with a transport succeeds exactly
    when a poll-refresh acknowledgement (a message of type "result" with
    message id "poll_refresh" that carries a result) is delivered while the
    command is being sent or during one of the first five sleeps; otherwise
    it raises [UpdateFailed] for the timeout.  Nothing else is consulted:
    not the listening flag, not the store, not what was delivered before
    the tick. *)
Theorem refresh_succeeds_iff_acknowledged
    (conf : list (string * event_conf)) (POLL_REFRESH_MESSAGE : json)
    (deliveries : nat -> list callback) (fuel : nat) (s : State) :
  6 <= fuel ->
  ws s <> None ->
  exists s',
    _async_update_data conf POLL_REFRESH_MESSAGE deliveries fuel s
    = Some (if existsb delivers_poll_ack (window deliveries (clock s) 6)
            then Ret (self_data s')
            else Raise (UpdateFailed
                          (Exception_ "Refresh Poll was not completed in timely manner")),
            s').
Proof.
  intros Hfuel Hws. destruct (ws s) as [w|] eqn:Ew; [clear Hws | congruence].
  unfold _async_update_data. rewrite (async_poll_refresh_sends _ _ _ _ w Ew).
  set (s1 := suspend conf deliveries _).
  destruct (check_loop_decides conf deliveries poll_refresing_state true 6 fuel 0 s1)
    as (s' & Hloop); [lia | lia | lia |].
  unfold check_if_poll_refreshed. rewrite Hloop.
  rewrite (existsb_pointwise _
             (fun k => existsb delivers_poll_ack (window deliveries (clock s) (S k)))).
  - rewrite poll_checks_see_window. exists s'.
    now destruct (existsb delivers_poll_ack (window deliveries (clock s) 6)).
  - intros k. rewrite eqb_true_is.
    rewrite (proj2 (after_sleeps_flags conf deliveries k s1)).
    unfold s1. rewrite (proj2 (suspend_flags conf deliveries _)).
    destruct (suspend_surroundings conf deliveries
                (with_ws (Some (mkWebSocket (connected w)
                                  (sent w ++ [Dumps POLL_REFRESH_MESSAGE])))
                   (with_poll_refresing_state false s))) as (_ & -> & _).
    cbn [window clock with_ws with_poll_refresing_state poll_refresing_state].
    now rewrite <- fold_left_app, poll_after_fold.
Qed.

(** The theorem at work: an acknowledgement during the fifth sleep is in
    time, one during the sixth sleep is not. *)
Lemma refresh_succeeds_iff_acknowledged_witness :
  (exists s',
      _async_update_data [] a_poll_refresh_message (deliver_at 5 poll_refresh_result) 6
        connected_coordinator
      = Some (Ret (self_data s'), s'))
  /\ (exists s',
         _async_update_data [] a_poll_refresh_message (deliver_at 6 poll_refresh_result) 6
           connected_coordinator
         = Some (Raise (UpdateFailed
                          (Exception_ "Refresh Poll was not completed in timely manner")),
                 s')
         /\ poll_refresing_state s' = true).
Proof.
  split.
  - destruct (refresh_succeeds_iff_acknowledged [] a_poll_refresh_message
                (deliver_at 5 poll_refresh_result) 6 connected_coordinator)
      as (s' & Hs'); [lia | discriminate |].
    exists s'. exact Hs'.
  - destruct (refresh_succeeds_iff_acknowledged [] a_poll_refresh_message
                (deliver_at 6 poll_refresh_result) 6 connected_coordinator)
      as (s' & Hs'); [lia | discriminate |].
    exists s'. split; [exact Hs'|].
    vm_compute in Hs'. injection Hs' as <-. reflexivity.
Defined.

(** X2.  [initialize_ws] succeeds exactly when one of the six checks of its
    wait sees the listening flag set, and what a check sees is decided by
    the callbacks delivered since the flag was reset, in order: a
    start-listening acknowledgement whose result holds a state sets the
    flag, [on_close] and [on_error] clear it, nothing else touches it.  What
    is delivered while the connection is being made comes before the reset
    and does not count. *)
Theorem initialize_succeeds_iff_listening_seen
    (conf : list (string * event_conf)) (START_LISTENING_MESSAGE : json)
    (deliveries : nat -> list callback) (fuel : nat) (s : State) :
  6 <= fuel ->
  exists s',
    initialize_ws conf START_LISTENING_MESSAGE deliveries fuel s
    = Some (if listening_seen deliveries (S (clock s))
            then Ret tt
            else Raise (Exception_ "Start Listening was not completed in timely manner"),
            s').
Proof.
  intros Hfuel. unfold initialize_ws. rewrite initialize_ws_sends.
  set (s1 := suspend conf deliveries (with_ws (Some (mkWebSocket true [])) s)).
  set (s3 := suspend conf deliveries _).
  destruct (check_loop_decides conf deliveries start_listening_state true 6 fuel 0 s3)
    as (s' & Hloop); [lia | lia | lia |].
  unfold check_if_started_listening. rewrite Hloop.
  rewrite (existsb_pointwise _
             (fun k => fold_left listening_after
                         (window deliveries (S (clock s)) (S k)) false)).
  - fold (listening_seen deliveries (S (clock s))). exists s'.
    now destruct (listening_seen deliveries (S (clock s))).
  - intros k. rewrite eqb_true_is.
    rewrite (proj1 (after_sleeps_flags conf deliveries k s3)).
    unfold s3. rewrite (proj1 (suspend_flags conf deliveries _)).
    destruct (suspend_surroundings conf deliveries
                (with_ws (Some (mkWebSocket true [Dumps START_LISTENING_MESSAGE]))
                   (with_start_listening_state false s1))) as (_ & -> & _).
    cbn [window clock with_ws with_start_listening_state start_listening_state].
    unfold s1.
    destruct (suspend_surroundings conf deliveries
                (with_ws (Some (mkWebSocket true [])) s)) as (_ & -> & _).
    cbn [clock with_ws]. now rewrite <- fold_left_app.
Qed.

(** The theorem at work on a new coordinator: an acknowledgement delivered
    while the command is being sent is seen; one delivered while the
    connection is being made is lost to the reset; one followed by a close
    is undone. *)
Lemma initialize_succeeds_iff_listening_seen_witness :
  (exists s',
      initialize_ws [] a_start_listening_message (deliver_at 1 start_listening_result) 6
        __init__
      = Some (Ret tt, s'))
  /\ (exists s',
         initialize_ws [] a_start_listening_message (deliver_at 0 start_listening_result) 6
           __init__
         = Some (Raise (Exception_ "Start Listening was not completed in timely manner"),
                 s'))
  /\ (exists s',
         initialize_ws [] a_start_listening_message (ack_then_close_at 2) 6 __init__
         = Some (Raise (Exception_ "Start Listening was not completed in timely manner"),
                 s')).
Proof.
  split; [|split].
  - destruct (initialize_succeeds_iff_listening_seen [] a_start_listening_message
                (deliver_at 1 start_listening_result) 6 __init__ (Nat.le_refl 6))
      as (s' & Hs').
    exists s'. exact Hs'.
  - destruct (initialize_succeeds_iff_listening_seen [] a_start_listening_message
                (deliver_at 0 start_listening_result) 6 __init__ (Nat.le_refl 6))
      as (s' & Hs').
    exists s'. exact Hs'.
  - destruct (initialize_succeeds_iff_listening_seen [] a_start_listening_message
                (ack_then_close_at 2) 6 __init__ (Nat.le_refl 6))
      as (s' & Hs').
    exists s'. exact Hs'.
Defined.

Lemma check_sound conf deliveries flag fuel to_be_value s :
  6 <= fuel ->
  exists b s' k,
    check_loop conf deliveries flag fuel to_be_value 0 s = Some (b, s')
    /\ s' = after_sleeps conf deliveries k s
    /\ clock s' = clock s + k
    /\ (b = true -> flag s' = to_be_value /\ k <= 5)
    /\ (b = false -> k = 6).
Proof.
  intros Hfuel.
  destruct (check_loop_returns conf deliveries flag to_be_value fuel 0 s)
    as (b & k0 & Hloop); [lia | lia |].
  destruct (check_loop_sound conf deliveries flag to_be_value fuel 0 s b _
              ltac:(lia) Hloop) as (k & Hk & Htrue & Hfalse).
  exists b, (after_sleeps conf deliveries k0 s), k.
  split; [exact Hloop|]. split; [exact Hk|]. split.
  - rewrite Hk. apply after_sleeps_clock.
  - split; [exact Htrue | exact Hfalse].
Qed.

(** X3.  Whatever is delivered, a flag wait given fuel for six checks
    returns after at most six sleeps.  When it returns true the flag has
    the expected value in the state it returns, and it has slept at most
    five times; when it returns false it has slept exactly six times. *)
Theorem flag_wait_is_sound
    (conf : list (string * event_conf)) (deliveries : nat -> list callback)
    (fuel : nat) (to_be_value : bool) (s : State) :
  6 <= fuel ->
  (exists b s' k,
      check_if_started_listening conf deliveries fuel to_be_value s = Some (b, s')
      /\ s' = after_sleeps conf deliveries k s
      /\ clock s' = clock s + k
      /\ (b = true -> start_listening_state s' = to_be_value /\ k <= 5)
      /\ (b = false -> k = 6))
  /\ (exists b s' k,
         check_if_poll_refreshed conf deliveries fuel to_be_value s = Some (b, s')
         /\ s' = after_sleeps conf deliveries k s
         /\ clock s' = clock s + k
         /\ (b = true -> poll_refresing_state s' = to_be_value /\ k <= 5)
         /\ (b = false -> k = 6)).
Proof.
  intros Hfuel. split.
  - apply (check_sound conf deliveries start_listening_state fuel to_be_value s Hfuel).
  - apply (check_sound conf deliveries poll_refresing_state fuel to_be_value s Hfuel).
Qed.

(** The theorem at work: the acknowledgement comes during the third sleep
    of a wait on the poll-refreshed flag. *)
Lemma flag_wait_is_sound_witness :
  exists s',
    check_if_poll_refreshed [] (deliver_at 2 poll_refresh_result) 6 true __init__
    = Some (true, s')
    /\ poll_refresing_state s' = true
    /\ clock s' = 3.
Proof.
  destruct (flag_wait_is_sound [] (deliver_at 2 poll_refresh_result) 6 true __init__
              (Nat.le_refl 6))
    as (_ & b & s' & k & Hcheck & Hs' & Hclock & Htrue & _).
  exists s'.
  assert (Hb : b = true).
  { vm_compute in Hcheck. now injection Hcheck as <- _. }
  subst b. split; [exact Hcheck|]. split; [apply Htrue; reflexivity|].
  vm_compute in Hcheck. injection Hcheck as <-. reflexivity.
Defined.


(** *** More on dictionaries *)

Section DictMore.

Context {A : Type}.
Implicit Types (d : dict A) (k : key) (v : A).

Lemma dict_get_equiv d k k' :
  key_eqb k k' = true -> dict_get k d = dict_get k' d.
Proof.
  intros Hk. induction d as [|[k0 v0] r IH]; simpl; [reflexivity|].
  destruct (key_eqb k0 k) eqn:E.
  - now rewrite (key_eqb_trans k0 k k' E Hk).
  - rewrite key_eqb_sym in Hk. rewrite key_eqb_sym in E.
    rewrite key_eqb_sym, (key_eqb_apart k' k k0 Hk E). exact IH.
Qed.

Lemma dict_get_set d k k' v :
  dict_get k' (dict_set k v d) = if key_eqb k k' then Some v else dict_get k' d.
Proof.
  destruct (key_eqb k k') eqn:E.
  - rewrite <- (dict_get_equiv _ k k' E). apply dict_get_set_eq.
  - now apply dict_get_set_ne.
Qed.

Lemma dict_set_keys d k v x :
  dict_get k d = Some x -> map fst (dict_set k v d) = map fst d.
Proof.
  induction d as [|[k0 v0] r IH]; simpl; [discriminate|].
  destruct (key_eqb k0 k); simpl; [reflexivity|].
  intros H. now rewrite IH.
Qed.

End DictMore.

(** *** The live snapshot, whatever it holds *)

(** A scan that returns has either met no record with the serial number
    and changed nothing, or has rewritten one property of the first record
    that carries it. *)
Lemma scan_entities_inv serial_number property_name value :
  forall entities entities',
    scan_entities entities serial_number property_name value = Ret entities' ->
    (Forall (other_serial serial_number) entities /\ entities' = entities)
    \/ exists i d kp x,
         entities !! i = Some (JObj d)
         /\ dict_get (KStr "serialNumber") d = Some x
         /\ py_eq x serial_number = true
         /\ to_key property_name = Some kp
         /\ (forall j e, j < i -> entities !! j = Some e -> other_serial serial_number e)
         /\ entities' = <[i := JObj (dict_set kp value d)]> entities.
Proof.
  induction entities as [|entity rest IH]; intros entities' Hscan; simpl in Hscan.
  - injection Hscan as <-. left. split; constructor.
  - destruct (getitem entity "serialNumber") as [x|e] eqn:Hx; [|discriminate].
    simpl in Hscan. destruct (py_eq x serial_number) eqn:Heq.
    + destruct (getitem_dict _ _ _ Hx) as (d & -> & Hd).
      simpl in Hscan. destruct (to_key property_name) as [kp|] eqn:Hkp; [|discriminate].
      simpl in Hscan. injection Hscan as <-.
      right. exists 0, d, kp, x. repeat split; try assumption.
      intros j e Hj. lia.
    + destruct (scan_entities rest serial_number property_name value) as [rest'|e] eqn:Hrest;
        [|discriminate].
      simpl in Hscan. injection Hscan as <-.
      assert (Hentity : other_serial serial_number entity) by (exists x; now split).
      destruct (IH rest' eq_refl) as [[Hnone ->]|(i & d & kp & y & Hi & Hd & Hy & Hkp & Hbefore & ->)].
      * left. split; [now constructor | reflexivity].
      * right. exists (S i), d, kp, y. repeat split; try assumption.
        intros [|j] e Hj He.
        -- simpl in He. now injection He as <-.
        -- apply (Hbefore j e); [lia | exact He].
Qed.

(** X5.  Whatever the snapshot holds, a call of
    [set_data_value_for_property] that returns has changed nothing at all,
    or has set one property of one record, the first of the named
    collection whose serial number equals the target: the collection has
    the records it had, the snapshot the collections it had, in the same
    order, and the cache, the flags and what was published are as before.
    The call never adds or removes a record or a collection. *)
Theorem set_data_changes_at_most_one_property
    (sources : string) (serial_number property_name value : json) (s s' : State) :
  set_data_value_for_property sources serial_number property_name value s = (Ret tt, s') ->
  exists top collection,
    data (self_data s) = JObj top
    /\ dict_get (KStr sources) top = Some collection
    /\ (s' = s
        \/ exists entities i d kp x,
             collection = JArr entities
             /\ entities !! i = Some (JObj d)
             /\ dict_get (KStr "serialNumber") d = Some x
             /\ py_eq x serial_number = true
             /\ to_key property_name = Some kp
             /\ (forall j e, j < i -> entities !! j = Some e ->
                   other_serial serial_number e)
             /\ let entities' := <[i := JObj (dict_set kp value d)]> entities in
                let top' := dict_set (KStr sources) (JArr entities') top in
                s' = with_data (mkMerged (cache (self_data s)) (JObj top')) s
                /\ length entities' = length entities
                /\ map fst top' = map fst top).
Proof.
  unfold set_data_value_for_property. intros Hcall.
  destruct (getitem (data (self_data s)) sources) as [collection|e] eqn:Hcollection;
    [|discriminate].
  destruct (getitem_dict _ _ _ Hcollection) as (top & Htop & Hget).
  exists top, collection. split; [exact Htop|]. split; [exact Hget|].
  simpl in Hcall. rewrite Htop in Hcall.
  assert (Hsame : with_data (mkMerged (cache (self_data s))
                               (JObj (dict_set (KStr sources) collection top))) s = s).
  { rewrite (dict_set_same _ _ _ Hget), <- Htop. now rewrite merged_eta, with_data_same. }
  destruct collection as [| | |t|entities|d]; simpl in Hcall; try discriminate.
  - destruct t; [|discriminate]. simpl in Hcall. injection Hcall as <-. now left.
  - destruct (scan_entities entities serial_number property_name value) as [entities'|e]
      eqn:Hscan; [|discriminate].
    simpl in Hcall. injection Hcall as <-.
    destruct (scan_entities_inv _ _ _ _ _ Hscan)
      as [[_ ->]|(i & d & kp & x & Hi & Hd & Hx & Hkp & Hbefore & ->)].
    + now left.
    + right. exists entities, i, d, kp, x. repeat split; try assumption.
      * apply length_insert.
      * now apply (dict_set_keys _ _ _ (JArr entities)).
  - destruct d; [|discriminate]. simpl in Hcall. injection Hcall as <-. now left.
Qed.

(** The theorem at work: a motion event for camera D1 of the snapshot. *)
Lemma set_data_changes_at_most_one_property_witness :
  exists top collection,
    data (self_data listening_coordinator) = JObj top
    /\ dict_get (KStr "devices") top = Some collection
    /\ collection = JArr [obj [("serialNumber", JStr "D1"); ("name", JStr "Cam1")]].
Proof.
  destruct (set_data_changes_at_most_one_property "devices" (JStr "D1")
              (JStr "motionDetected") (JBool true) listening_coordinator
              (snd (set_data_value_for_property "devices" (JStr "D1")
                      (JStr "motionDetected") (JBool true) listening_coordinator))
              eq_refl)
    as (top & collection & Htop & Hcollection & _).
  exists top, collection. split; [exact Htop|]. split; [exact Hcollection|].
  vm_compute in Htop. injection Htop as <-.
  vm_compute in Hcollection. now injection Hcollection as <-.
Defined.

Lemma scan_entities_stops serial_number property_name value err :
  forall entities i entity,
    entities !! i = Some entity ->
    getitem entity "serialNumber" = Raise err ->
    (forall j e, j < i -> entities !! j = Some e -> other_serial serial_number e) ->
    scan_entities entities serial_number property_name value = Raise err.
Proof.
  induction entities as [|first rest IH]; intros i entity Hi Herr Hbefore; [discriminate|].
  destruct i as [|i]; simpl in *.
  - injection Hi as ->. now rewrite Herr.
  - destruct (Hbefore 0 first) as (x & Hx & Hne); [lia | reflexivity |].
    rewrite Hx. simpl. rewrite Hne.
    rewrite (IH i entity Hi Herr); [reflexivity|].
    intros j e Hj He. apply (Hbefore (S j) e); [lia | exact He].
Qed.

Lemma scan_entities_unhashable serial_number property_name value :
  forall entities i d x,
    entities !! i = Some (JObj d) ->
    dict_get (KStr "serialNumber") d = Some x ->
    py_eq x serial_number = true ->
    (forall j e, j < i -> entities !! j = Some e -> other_serial serial_number e) ->
    to_key property_name = None ->
    scan_entities entities serial_number property_name value = Raise TypeError.
Proof.
  induction entities as [|first rest IH]; intros i d x Hi Hd Hx Hbefore Hkey; [discriminate|].
  destruct i as [|i]; simpl in *.
  - injection Hi as ->. simpl. rewrite Hd. simpl. now rewrite Hx, Hkey.
  - destruct (Hbefore 0 first) as (y & Hy & Hne); [lia | reflexivity |].
    rewrite Hy. simpl. rewrite Hne.
    rewrite (IH i d x Hi Hd Hx); [reflexivity | | exact Hkey].
    intros j e Hj He. apply (Hbefore (S j) e); [lia | exact He].
Qed.

(** X6.  The scan of [set_data_value_for_property] stops at the first
    record it cannot read: when a record ahead of any match has no serial
    number (or is not a dict), the call raises what the subscript raises,
    [KeyError] (or [TypeError]), and writes nothing, even if a later record
    carries the target's serial number.  When the first match is reached
    but the property name is not hashable, the call raises [TypeError] and
    writes nothing. *)
Theorem set_data_stops_at_unreadable_record
    (sources : string) (serial_number property_name value : json) (s : State)
    (entities : list json) (i : nat) :
  getitem (data (self_data s)) sources = Ret (JArr entities) ->
  (forall j e, j < i -> entities !! j = Some e -> other_serial serial_number e) ->
  (forall entity err,
      entities !! i = Some entity ->
      getitem entity "serialNumber" = Raise err ->
      set_data_value_for_property sources serial_number property_name value s
      = (Raise err, s))
  /\ (forall d x,
        entities !! i = Some (JObj d) ->
        dict_get (KStr "serialNumber") d = Some x ->
        py_eq x serial_number = true ->
        to_key property_name = None ->
        set_data_value_for_property sources serial_number property_name value s
        = (Raise TypeError, s)).
Proof.
  intros Hcollection Hbefore. split.
  - intros entity err Hi Herr. unfold set_data_value_for_property.
    rewrite Hcollection. simpl.
    now rewrite (scan_entities_stops _ _ _ err entities i entity Hi Herr Hbefore).
  - intros d x Hi Hd Hx Hkey. unfold set_data_value_for_property.
    rewrite Hcollection. simpl.
    now rewrite (scan_entities_unhashable _ _ _ entities i d x Hi Hd Hx Hbefore Hkey).
Qed.

(** The theorem at work: camera D1 is in the snapshot, behind a record
    without a serial number; and a property name that is a list. *)
Lemma set_data_stops_at_unreadable_record_witness :
  set_data_value_for_property "devices" (JStr "D1") (JStr "motionDetected") (JBool true)
    coordinator_with_nameless_record
  = (Raise KeyError, coordinator_with_nameless_record)
  /\ set_data_value_for_property "devices" (JStr "D1") (JArr []) (JBool true)
       listening_coordinator
     = (Raise TypeError, listening_coordinator).
Proof.
  split.
  - apply (proj1 (set_data_stops_at_unreadable_record "devices" (JStr "D1")
                    (JStr "motionDetected") (JBool true) coordinator_with_nameless_record
                    [obj [("name", JStr "Nameless")];
                     obj [("serialNumber", JStr "D1"); ("name", JStr "Cam1")]] 0
                    eq_refl ltac:(intros j e Hj; lia))
             (obj [("name", JStr "Nameless")]) KeyError eq_refl eq_refl).
  - apply (proj2 (set_data_stops_at_unreadable_record "devices" (JStr "D1")
                    (JArr []) (JBool true) listening_coordinator
                    [obj [("serialNumber", JStr "D1"); ("name", JStr "Cam1")]] 0
                    eq_refl ltac:(intros j e Hj; lia))
             [(KStr "serialNumber", JStr "D1"); (KStr "name", JStr "Cam1")] (JStr "D1")
             eq_refl eq_refl eq_refl eq_refl).
Defined.

(** *** The property cache, for any hashable keys *)

Lemma set_cache_returns sources serial_number property_name value s sn pn :
  to_key serial_number = Some sn ->
  to_key property_name = Some pn ->
  set_cache_value_for_property sources serial_number property_name value s
  = (Ret tt,
     with_cache
       (dict_set sn (dict_set pn (strip_nul value) (properties_of (cache (self_data s)) sn))
          (cache (self_data s)))
       s).
Proof.
  intros Hsn Hpn. unfold set_cache_value_for_property, properties_of.
  rewrite Hsn, Hpn.
  destruct (dict_get sn (cache (self_data s))) as [m|] eqn:Hm.
  - now rewrite Hm.
  - unfold with_cache, with_data. simpl.
    rewrite dict_get_set_eq. now rewrite dict_set_set.
Qed.

Lemma cache_get_after_write (c : dict (dict json)) (sn pn sn' pn' : key) (v : json) :
  cache_get (dict_set sn (dict_set pn v (properties_of c sn)) c) sn' pn'
  = if key_eqb sn sn' && key_eqb pn pn' then Some v else cache_get c sn' pn'.
Proof.
  unfold cache_get. rewrite dict_get_set.
  destruct (key_eqb sn sn') eqn:Hsn; [|reflexivity].
  rewrite dict_get_set. destruct (key_eqb pn pn'); [reflexivity|].
  unfold properties_of. rewrite (dict_get_equiv c sn sn' Hsn).
  now destruct (dict_get sn' c).
Qed.

(** X7.  Writes to the cache compose as writes to a two-level map, for any
    hashable serial numbers and property names: after two calls of
    [set_cache_value_for_property] a lookup finds the second value where
    the second call wrote, else the first value where the first call wrote,
    else what was cached before; so the later write wins on the same
    serial number and property, and two writes to different places can be
    made in either order with the same lookups. *)
Theorem cache_writes_compose
    (sources1 sources2 : string)
    (serial_number1 property_name1 value1 serial_number2 property_name2 value2 : json)
    (s : State) (sn1 pn1 sn2 pn2 : key) :
  to_key serial_number1 = Some sn1 -> to_key property_name1 = Some pn1 ->
  to_key serial_number2 = Some sn2 -> to_key property_name2 = Some pn2 ->
  let write1 := set_cache_value_for_property sources1 serial_number1 property_name1 value1 in
  let write2 := set_cache_value_for_property sources2 serial_number2 property_name2 value2 in
  fst (write1 s) = Ret tt
  /\ fst (write2 (snd (write1 s))) = Ret tt
  /\ (forall sn pn,
        cache_get (cache (self_data (snd (write2 (snd (write1 s)))))) sn pn
        = if key_eqb sn2 sn && key_eqb pn2 pn then Some (strip_nul value2)
          else if key_eqb sn1 sn && key_eqb pn1 pn then Some (strip_nul value1)
               else cache_get (cache (self_data s)) sn pn)
  /\ (key_eqb sn1 sn2 && key_eqb pn1 pn2 = false ->
      forall sn pn,
        cache_get (cache (self_data (snd (write2 (snd (write1 s)))))) sn pn
        = cache_get (cache (self_data (snd (write1 (snd (write2 s)))))) sn pn).
Proof.
  intros Hsn1 Hpn1 Hsn2 Hpn2 write1 write2.
  assert (Hlookup :
    forall sources serial_number property_name value sn pn s0,
      to_key serial_number = Some sn -> to_key property_name = Some pn ->
      forall sn' pn',
        cache_get
          (cache (self_data
                    (snd (set_cache_value_for_property sources serial_number
                            property_name value s0)))) sn' pn'
        = if key_eqb sn sn' && key_eqb pn pn' then Some (strip_nul value)
          else cache_get (cache (self_data s0)) sn' pn').
  { intros sources serial_number property_name value sn pn s0 Hsn Hpn sn' pn'.
    rewrite (set_cache_returns _ _ _ _ _ sn pn Hsn Hpn). simpl.
    apply cache_get_after_write. }
  unfold write1, write2.
  split; [now rewrite (set_cache_returns _ _ _ _ _ sn1 pn1 Hsn1 Hpn1)|].
  split; [now rewrite (set_cache_returns _ _ _ _ _ sn2 pn2 Hsn2 Hpn2)|].
  split.
  - intros sn pn.
    rewrite (Hlookup _ _ _ _ sn2 pn2 _ Hsn2 Hpn2).
    now rewrite (Hlookup _ _ _ _ sn1 pn1 _ Hsn1 Hpn1).
  - intros Hapart sn pn.
    rewrite (Hlookup _ _ _ _ sn2 pn2 _ Hsn2 Hpn2), (Hlookup _ _ _ _ sn1 pn1 _ Hsn1 Hpn1),
      (Hlookup _ _ _ _ sn1 pn1 _ Hsn1 Hpn1), (Hlookup _ _ _ _ sn2 pn2 _ Hsn2 Hpn2).
    destruct (key_eqb sn2 sn && key_eqb pn2 pn) eqn:H2;
      destruct (key_eqb sn1 sn && key_eqb pn1 pn) eqn:H1; try reflexivity.
    exfalso.
    apply andb_prop in H1. destruct H1 as [Hs1 Hp1].
    apply andb_prop in H2. destruct H2 as [Hs2 Hp2].
    rewrite key_eqb_sym in Hs2. rewrite key_eqb_sym in Hp2.
    rewrite (key_eqb_trans sn1 sn sn2 Hs1 Hs2), (key_eqb_trans pn1 pn pn2 Hp1 Hp2)
      in Hapart.
    discriminate.
Qed.

(** The theorem at work: the rtsp url of D1 is cached, then its battery
    level; the serial number [1] and the serial number [True] are one. *)
Lemma cache_writes_compose_witness :
  (forall sn pn,
      cache_get
        (cache (self_data
                  (snd (set_cache_value_for_property "devices" (JStr "D1")
                          (JStr "battery") (JNum 80)
                          (snd (set_cache_value_for_property "devices" (JStr "D1")
                                  (JStr "rtspUrl") (JStr "rtsp://d1") __init__))))))
        sn pn
      = cache_get
          (cache (self_data
                    (snd (set_cache_value_for_property "devices" (JStr "D1")
                            (JStr "rtspUrl") (JStr "rtsp://d1")
                            (snd (set_cache_value_for_property "devices" (JStr "D1")
                                    (JStr "battery") (JNum 80) __init__))))))
          sn pn)
  /\ cache_get
       (cache (self_data
                 (snd (set_cache_value_for_property "devices" (JBool true)
                         (JStr "battery") (JNum 80)
                         (snd (set_cache_value_for_property "devices" (JNum 1)
                                 (JStr "battery") (JNum 70) __init__))))))
       (KInt 1) (KStr "battery")
     = Some (JNum 80).
Proof.
  split.
  - apply (cache_writes_compose "devices" "devices" (JStr "D1") (JStr "rtspUrl")
             (JStr "rtsp://d1") (JStr "D1") (JStr "battery") (JNum 80) __init__
             (KStr "D1") (KStr "rtspUrl") (KStr "D1") (KStr "battery")
             eq_refl eq_refl eq_refl eq_refl).
    reflexivity.
  - destruct (cache_writes_compose "devices" "devices" (JNum 1) (JStr "battery")
                (JNum 70) (JBool true) (JStr "battery") (JNum 80) __init__
                (KInt 1) (KStr "battery") (KBool true) (KStr "battery")
                eq_refl eq_refl eq_refl eq_refl) as (_ & _ & Hlookup & _).
    rewrite Hlookup. reflexivity.
Defined.

(** All the ways [set_cache_value_for_property] can raise. *)
Lemma set_cache_raises_inv sources serial_number property_name value s e s1 :
  set_cache_value_for_property sources serial_number property_name value s = (Raise e, s1) ->
  e = TypeError
  /\ (s1 = s
      \/ exists sn,
           to_key serial_number = Some sn
           /\ to_key property_name = None
           /\ dict_get sn (cache (self_data s)) = None
           /\ s1 = with_cache (dict_set sn [] (cache (self_data s))) s).
Proof.
  unfold set_cache_value_for_property.
  destruct (to_key serial_number) as [sn|] eqn:Hsn.
  2: { intros [= <- <-]. split; [reflexivity | now left]. }
  destruct (dict_get sn (cache (self_data s))) as [m|] eqn:Hm.
  - rewrite Hm. destruct (to_key property_name); [discriminate|].
    intros [= <- <-]. split; [reflexivity | now left].
  - unfold with_cache at 1 2, with_data. simpl. rewrite dict_get_set_eq.
    destruct (to_key property_name) eqn:Hpn; [discriminate|].
    intros [= <- <-]. split; [reflexivity|]. right. exists sn. now repeat split.
Qed.

Lemma set_cache_unhashable_property sources serial_number property_name value s sn :
  to_key serial_number = Some sn ->
  to_key property_name = None ->
  set_cache_value_for_property sources serial_number property_name value s
  = (Raise TypeError,
     match dict_get sn (cache (self_data s)) with
     | Some _ => s
     | None => with_cache (dict_set sn [] (cache (self_data s))) s
     end).
Proof.
  intros Hsn Hpn. unfold set_cache_value_for_property. rewrite Hsn.
  destruct (dict_get sn (cache (self_data s))) as [m|] eqn:Hm.
  - now rewrite Hm, Hpn.
  - unfold with_cache at 1 2, with_data. simpl. now rewrite dict_get_set_eq, Hpn.
Qed.

(** X8.  The errors of [set_cache_value_for_property].  A serial number
    that is not hashable (a list or a dict) raises [TypeError] and leaves
    the state as it was.  A property name that is not hashable raises
    [TypeError] too, after the entry of the serial number has been
    created: if the serial number had no entry, an empty one is left
    behind; no property is cached by the failed call. *)
Theorem set_cache_errors
    (sources : string) (serial_number property_name value : json) (s : State) :
  (to_key serial_number = None ->
   set_cache_value_for_property sources serial_number property_name value s
   = (Raise TypeError, s))
  /\ (forall sn,
        to_key serial_number = Some sn ->
        to_key property_name = None ->
        (dict_get sn (cache (self_data s)) <> None ->
         set_cache_value_for_property sources serial_number property_name value s
         = (Raise TypeError, s))
        /\ (dict_get sn (cache (self_data s)) = None ->
            let s1 := with_cache (dict_set sn [] (cache (self_data s))) s in
            set_cache_value_for_property sources serial_number property_name value s
            = (Raise TypeError, s1)
            /\ dict_get sn (cache (self_data s1)) = Some []
            /\ forall sn' pn',
                 cache_get (cache (self_data s1)) sn' pn'
                 = cache_get (cache (self_data s)) sn' pn')).
Proof.
  split.
  - intros Hsn. unfold set_cache_value_for_property. now rewrite Hsn.
  - intros sn Hsn Hpn. split.
    + intros Hentry. rewrite (set_cache_unhashable_property _ _ _ _ s sn Hsn Hpn).
      now destruct (dict_get sn (cache (self_data s))).
    + intros Hentry s1. split; [|split].
      * rewrite (set_cache_unhashable_property _ _ _ _ s sn Hsn Hpn).
        now rewrite Hentry.
      * unfold s1, with_cache, with_data. simpl. apply dict_get_set_eq.
      * intros sn' pn'. unfold s1, with_cache, with_data, cache_get. simpl.
        rewrite dict_get_set. destruct (key_eqb sn sn') eqn:Hk; [|reflexivity].
        now rewrite <- (dict_get_equiv _ sn sn' Hk), Hentry.
Qed.

(** The theorem at work: a serial number that is a list; and, on a new
    coordinator, a property name that is a list. *)
Lemma set_cache_errors_witness :
  set_cache_value_for_property "devices" (JArr []) (JStr "rtspUrl") JNull __init__
  = (Raise TypeError, __init__)
  /\ set_cache_value_for_property "devices" (JStr "D1") (JArr []) JNull __init__
     = (Raise TypeError, with_cache [(KStr "D1", [])] __init__).
Proof.
  split.
  - apply (set_cache_errors "devices" (JArr []) (JStr "rtspUrl") JNull __init__).
    reflexivity.
  - apply (proj2 (set_cache_errors "devices" (JStr "D1") (JArr []) JNull __init__)
             (KStr "D1") eq_refl eq_refl).
    reflexivity.
Defined.

Lemma strip_nul_idempotent (value : json) : strip_nul (strip_nul value) = strip_nul value.
Proof.
  destruct value as [| | |t| |]; try reflexivity. simpl. f_equal.
  induction t as [|a t IH]; simpl; [reflexivity|].
  destruct (Ascii.eqb a NUL) eqn:Ha; [exact IH|]. simpl. now rewrite Ha, IH.
Qed.

(** X9.  [set_cache_value_for_property] is idempotent for every input:
    the same call made again, on the state the first one left, has the
    same outcome and leaves that state as it is; this holds for the calls
    that raise as well. *)
Theorem set_cache_is_idempotent
    (sources : string) (serial_number property_name value : json) (s : State) :
  set_cache_value_for_property sources serial_number property_name value
    (snd (set_cache_value_for_property sources serial_number property_name value s))
  = set_cache_value_for_property sources serial_number property_name value s.
Proof.
  destruct (to_key serial_number) as [sn|] eqn:Hsn.
  2: { unfold set_cache_value_for_property. now rewrite Hsn. }
  destruct (to_key property_name) as [pn|] eqn:Hpn.
  - rewrite !(set_cache_returns _ _ _ _ _ sn pn Hsn Hpn). simpl. f_equal.
    unfold with_cache, with_data, properties_of. simpl.
    now rewrite dict_get_set_eq, !dict_set_set.
  - rewrite (set_cache_unhashable_property _ _ _ _ s sn Hsn Hpn). cbn [snd].
    rewrite (set_cache_unhashable_property _ _ _ _ _ sn Hsn Hpn).
    destruct (dict_get sn (cache (self_data s))) as [m|] eqn:Hm.
    + now rewrite Hm.
    + unfold with_cache at 1 2, with_data. simpl. now rewrite dict_get_set_eq.
Qed.

(** After a call of [set_cache_value_for_property], raising or not, a
    lookup finds what it found before or the value just written. *)
Lemma set_cache_lookups sources serial_number property_name value s sn' pn' :
  let s' := snd (set_cache_value_for_property sources serial_number property_name value s) in
  cache_get (cache (self_data s')) sn' pn' = cache_get (cache (self_data s)) sn' pn'
  \/ cache_get (cache (self_data s')) sn' pn' = Some (strip_nul value).
Proof.
  destruct (to_key serial_number) as [sn|] eqn:Hsn.
  2: { left. unfold set_cache_value_for_property. now rewrite Hsn. }
  destruct (to_key property_name) as [pn|] eqn:Hpn.
  - rewrite (set_cache_returns _ _ _ _ _ sn pn Hsn Hpn). simpl.
    rewrite cache_get_after_write.
    destruct (key_eqb sn sn' && key_eqb pn pn'); [now right | now left].
  - left. rewrite (set_cache_unhashable_property _ _ _ _ s sn Hsn Hpn). simpl.
    destruct (dict_get sn (cache (self_data s))) as [m|] eqn:Hm; [reflexivity|].
    unfold with_cache, with_data, cache_get. simpl.
    rewrite dict_get_set. destruct (key_eqb sn sn') eqn:Hk; [|reflexivity].
    now rewrite <- (dict_get_equiv _ sn sn' Hk), Hm.
Qed.

(** *** What every operation keeps of the cache *)

Section CacheInvariant.

(** A property of the cache that [set_cache_value_for_property] keeps. *)
Variable P : dict (dict json) -> Prop.
Hypothesis P_set_cache :
  forall sources serial_number property_name value s,
    P (cache (self_data s)) ->
    P (cache (self_data
                (snd (set_cache_value_for_property sources serial_number
                        property_name value s)))).

Variable conf : list (string * event_conf).
Variable deliveries : nat -> list callback.

Lemma on_message_keeps payload s :
  P (cache (self_data s)) -> P (cache (self_data (snd (on_message conf payload s)))).
Proof.
  intros HP. pose proof (on_message_cases conf payload s) as H.
  set (o := fst (on_message conf payload s)) in H.
  set (s' := snd (on_message conf payload s)) in *.
  clearbody o s'.
  destruct H as [o _ _ _ | _ _ | message state _ _ _ _
                | row sources sn pn v s1 _ _ _ _ Hset
                | row sources sn pn v s1 _ _ _ _ Hset
                | row sources sn pn v e s1 _ _ _ _ Hset];
    try exact HP;
    apply (f_equal snd) in Hset; simpl in Hset; subst s1.
  - change (P (cache (self_data
                        (snd (set_data_value_for_property sources sn pn v s))))).
    now rewrite (proj2 (proj2 (proj2 (set_data_frame sources sn pn v s)))).
  - apply (P_set_cache sources sn pn v s HP).
  - apply (P_set_cache sources sn pn v s HP).
Qed.

Lemma deliver_keeps s c :
  P (cache (self_data s)) -> P (cache (self_data (deliver conf s c))).
Proof.
  intros HP. destruct c; try exact HP. now apply on_message_keeps.
Qed.

Lemma suspend_keeps s :
  P (cache (self_data s)) -> P (cache (self_data (suspend conf deliveries s))).
Proof.
  intros HP. unfold suspend.
  change (P (cache (self_data (fold_left (deliver conf) (deliveries (clock s)) s)))).
  generalize (deliveries (clock s)). intros cs. revert s HP.
  induction cs as [|c cs IH]; intros s HP; simpl; [exact HP|].
  apply IH. now apply deliver_keeps.
Qed.

Lemma after_sleeps_keeps k :
  forall s, P (cache (self_data s)) ->
            P (cache (self_data (after_sleeps conf deliveries k s))).
Proof.
  induction k as [|k IH]; intros s HP; simpl; [exact HP|].
  apply IH. now apply suspend_keeps.
Qed.

Lemma check_keeps flag fuel to_be_value s b s' :
  check_loop conf deliveries flag fuel to_be_value 0 s = Some (b, s') ->
  P (cache (self_data s)) -> P (cache (self_data s')).
Proof.
  intros Hloop HP.
  destruct (check_loop_sound conf deliveries flag to_be_value fuel 0 s b s'
              ltac:(lia) Hloop) as (k & -> & _).
  now apply after_sleeps_keeps.
Qed.

Lemma initialize_ws_keeps START_LISTENING_MESSAGE fuel s r s' :
  initialize_ws conf START_LISTENING_MESSAGE deliveries fuel s = Some (r, s') ->
  P (cache (self_data s)) -> P (cache (self_data s')).
Proof.
  unfold initialize_ws. rewrite initialize_ws_sends. intros Hcall HP.
  set (s3 := suspend conf deliveries _) in Hcall.
  assert (HP3 : P (cache (self_data s3))).
  { unfold s3. apply suspend_keeps.
    change (P (cache (self_data
                        (suspend conf deliveries
                           (with_ws (Some (mkWebSocket true [])) s))))).
    now apply suspend_keeps. }
  unfold check_if_started_listening in Hcall.
  destruct (check_loop conf deliveries start_listening_state fuel true 0 s3)
    as [[b s4]|] eqn:Hloop; [|discriminate].
  pose proof (check_keeps _ _ _ _ _ _ Hloop HP3) as HP4.
  destruct b; injection Hcall as _ <-; exact HP4.
Qed.

Lemma async_update_data_keeps POLL_REFRESH_MESSAGE fuel s r s' :
  _async_update_data conf POLL_REFRESH_MESSAGE deliveries fuel s = Some (r, s') ->
  P (cache (self_data s)) -> P (cache (self_data s')).
Proof.
  unfold _async_update_data. intros Hcall HP.
  destruct (ws s) as [w|] eqn:Hws.
  - rewrite (async_poll_refresh_sends _ _ _ _ w Hws) in Hcall.
    set (s1 := suspend conf deliveries _) in Hcall.
    assert (HP1 : P (cache (self_data s1))) by (unfold s1; now apply suspend_keeps).
    unfold check_if_poll_refreshed in Hcall.
    destruct (check_loop conf deliveries poll_refresing_state fuel true 0 s1)
      as [[b s2]|] eqn:Hloop; [|discriminate].
    pose proof (check_keeps _ _ _ _ _ _ Hloop HP1) as HP2.
    destruct b; injection Hcall as _ <-; exact HP2.
  - unfold async_poll_refresh, bind, set_poll_refreshing_state, modify,
      async_send_message, send_message, ws_call in Hcall.
    simpl in Hcall. rewrite Hws in Hcall. injection Hcall as _ <-. exact HP.
Qed.

End CacheInvariant.

Lemma set_cache_keeps_clean sources serial_number property_name value s :
  cache_clean (cache (self_data s)) ->
  cache_clean
    (cache (self_data
              (snd (set_cache_value_for_property sources serial_number
                      property_name value s)))).
Proof.
  intros Hclean sn' pn' t Ht.
  destruct (set_cache_lookups sources serial_number property_name value s sn' pn')
    as [Hold|Hnew].
  - rewrite Hold in Ht. now apply (Hclean sn' pn').
  - rewrite Hnew in Ht. injection Ht as Ht.
    destruct value as [| | |t0| |]; try discriminate.
    simpl in Ht. injection Ht as <-. apply str_remove_gone.
Qed.

Lemma set_cache_keeps_cached sn pn sources serial_number property_name value s :
  cache_get (cache (self_data s)) sn pn <> None ->
  cache_get
    (cache (self_data
              (snd (set_cache_value_for_property sources serial_number
                      property_name value s)))) sn pn
  <> None.
Proof.
  intros Hcached.
  destruct (set_cache_lookups sources serial_number property_name value s sn pn)
    as [-> | ->]; [exact Hcached | discriminate].
Qed.

(** X10.  No string cached as a property's value holds a NUL character:
    this is so on a new coordinator, and every operation keeps it so: a
    call of [set_cache_value_for_property], raising or not, a message of
    whatever content, whatever the transport delivers during a suspension,
    and the two entry points, whether they succeed or fail. *)
Theorem cached_strings_hold_no_nul
    (conf : list (string * event_conf)) (START_LISTENING_MESSAGE POLL_REFRESH_MESSAGE : json)
    (deliveries : nat -> list callback) :
  cache_clean (cache (self_data __init__))
  /\ forall s,
       cache_clean (cache (self_data s)) ->
       (forall sources serial_number property_name value,
           cache_clean
             (cache (self_data
                       (snd (set_cache_value_for_property sources serial_number
                               property_name value s)))))
       /\ (forall payload, cache_clean (cache (self_data (snd (on_message conf payload s)))))
       /\ cache_clean (cache (self_data (suspend conf deliveries s)))
       /\ (forall fuel r s',
             initialize_ws conf START_LISTENING_MESSAGE deliveries fuel s = Some (r, s') ->
             cache_clean (cache (self_data s')))
       /\ (forall fuel r s',
             _async_update_data conf POLL_REFRESH_MESSAGE deliveries fuel s = Some (r, s') ->
             cache_clean (cache (self_data s'))).
Proof.
  split; [intros sn pn t; discriminate|].
  intros s Hclean. repeat split.
  - intros. now apply set_cache_keeps_clean.
  - intros payload. now apply (on_message_keeps cache_clean set_cache_keeps_clean).
  - now apply (suspend_keeps cache_clean set_cache_keeps_clean).
  - intros fuel r s' Hcall.
    now apply (initialize_ws_keeps cache_clean set_cache_keeps_clean _ _ _ _ _ _ _ Hcall).
  - intros fuel r s' Hcall.
    now apply (async_update_data_keeps cache_clean set_cache_keeps_clean _ _ _ _ _ _ _ Hcall).
Qed.

(** The theorem at work: an rtsp url that holds NUL characters arrives on
    a new coordinator. *)
Lemma cached_strings_hold_no_nul_witness :
  cache_clean
    (cache (self_data
              (snd (on_message a_configuration (event_from "station" padded_rtsp_url_fields)
                      __init__))))
  /\ cache_get
       (cache (self_data
                 (snd (on_message a_configuration
                         (event_from "station" padded_rtsp_url_fields) __init__))))
       (KStr "S1") (KStr "rtspUrl")
     = Some (JStr "abc").
Proof.
  split; [|reflexivity].
  destruct (cached_strings_hold_no_nul a_configuration a_start_listening_message
              a_poll_refresh_message quiet) as [Hnew Hkept].
  destruct (Hkept __init__ Hnew) as (_ & Hmessage & _).
  apply Hmessage.
Defined.

(** X11.  Nothing is ever evicted from the cache: a property cached under
    a serial number is still cached (with its value or a later one) after
    a call of [set_cache_value_for_property], after a message of whatever
    content, after whatever the transport delivers during a suspension,
    and after either entry point, whether it succeeds or fails. *)
Theorem cached_properties_are_never_evicted
    (conf : list (string * event_conf)) (START_LISTENING_MESSAGE POLL_REFRESH_MESSAGE : json)
    (deliveries : nat -> list callback) (s : State) (sn pn : key) :
  cache_get (cache (self_data s)) sn pn <> None ->
  (forall sources serial_number property_name value,
      cache_get
        (cache (self_data
                  (snd (set_cache_value_for_property sources serial_number
                          property_name value s)))) sn pn
      <> None)
  /\ (forall payload,
        cache_get (cache (self_data (snd (on_message conf payload s)))) sn pn <> None)
  /\ cache_get (cache (self_data (suspend conf deliveries s))) sn pn <> None
  /\ (forall fuel r s',
        initialize_ws conf START_LISTENING_MESSAGE deliveries fuel s = Some (r, s') ->
        cache_get (cache (self_data s')) sn pn <> None)
  /\ (forall fuel r s',
        _async_update_data conf POLL_REFRESH_MESSAGE deliveries fuel s = Some (r, s') ->
        cache_get (cache (self_data s')) sn pn <> None).
Proof.
  intros Hcached.
  set (P := fun c : dict (dict json) => cache_get c sn pn <> None).
  assert (HP : forall sources serial_number property_name value s0,
             P (cache (self_data s0)) ->
             P (cache (self_data
                         (snd (set_cache_value_for_property sources serial_number
                                 property_name value s0))))).
  { intros. now apply set_cache_keeps_cached. }
  repeat split.
  - intros. now apply set_cache_keeps_cached.
  - intros payload. now apply (on_message_keeps P HP).
  - now apply (suspend_keeps P HP).
  - intros fuel r s' Hcall. now apply (initialize_ws_keeps P HP _ _ _ _ _ _ _ Hcall).
  - intros fuel r s' Hcall. now apply (async_update_data_keeps P HP _ _ _ _ _ _ _ Hcall).
Qed.

(** The theorem at work: the cached rtsp url of S1 survives a new
    snapshot and a re-initialisation that times out. *)
Lemma cached_properties_are_never_evicted_witness :
  cache_get
    (cache (self_data (snd (on_message a_configuration start_listening_result
                              caching_coordinator))))
    (KStr "S1") (KStr "rtspUrl")
  <> None
  /\ forall r s',
       initialize_ws a_configuration a_start_listening_message quiet 6 caching_coordinator
       = Some (r, s') ->
       cache_get (cache (self_data s')) (KStr "S1") (KStr "rtspUrl") <> None.
Proof.
  destruct (cached_properties_are_never_evicted a_configuration a_start_listening_message
              a_poll_refresh_message quiet caching_coordinator (KStr "S1") (KStr "rtspUrl"))
    as (_ & Hmessage & _ & Hinit & _).
  - vm_compute. discriminate.
  - split; [apply Hmessage | apply Hinit].
Defined.

(** *** Messages: what is changed, and by which *)

(** X12.  A message on which [on_message] raises leaves the state as it
    was, with one exception: an event of a cached type whose property name
    is not hashable, for a serial number that had no cache entry, leaves
    an empty entry behind ([TypeError]).  So a raising message publishes
    nothing, changes no flag and no record, and caches no property. *)
Theorem on_message_error_leaves_the_state
    (conf : list (string * event_conf)) (payload : json) (s : State) (e : exn) :
  fst (on_message conf payload s) = Raise e ->
  snd (on_message conf payload s) = s
  \/ (e = TypeError
      /\ (exists row, event_row conf payload = Some row /\ conf_is_cached row = true)
      /\ exists sn,
           dict_get sn (cache (self_data s)) = None
           /\ snd (on_message conf payload s)
              = with_cache (dict_set sn [] (cache (self_data s))) s).
Proof.
  intros Hraise. pose proof (on_message_cases conf payload s) as H.
  set (o := fst (on_message conf payload s)) in *.
  set (s' := snd (on_message conf payload s)) in *.
  clearbody o s'.
  destruct H as [o _ _ _ | _ _ | message state _ _ _ _
                | row sources sn pn v s1 _ _ _ _ Hset
                | row sources sn pn v s1 _ _ _ _ Hset
                | row sources sn pn v e' s1 Hrow Hcached _ _ Hset];
    try discriminate.
  - now left.
  - injection Hraise as ->.
    destruct (set_cache_raises_inv _ _ _ _ _ _ _ Hset)
      as (-> & [-> | (k & _ & _ & Hnone & ->)]).
    + now left.
    + right. split; [reflexivity|]. split; [now exists row|]. now exists k.
Qed.

(** The theorem at work: a result without its result field; and an event
    of a cached type whose name is a list. *)
Lemma on_message_error_leaves_the_state_witness :
  snd (on_message a_configuration poll_refresh_result_without_result caching_coordinator)
  = caching_coordinator
  /\ (snd (on_message a_configuration
             (event_from "device"
                [(KStr "event", JStr "got rtsp url"); (KStr "serialNumber", JStr "D7");
                 (KStr "name", JArr []); (KStr "rtspUrl", JStr "rtsp://d7")])
             __init__)
      = __init__
      \/ snd (on_message a_configuration
                (event_from "device"
                   [(KStr "event", JStr "got rtsp url"); (KStr "serialNumber", JStr "D7");
                    (KStr "name", JArr []); (KStr "rtspUrl", JStr "rtsp://d7")])
                __init__)
         = with_cache [(KStr "D7", [])] __init__).
Proof.
  split.
  - destruct (on_message_error_leaves_the_state a_configuration
                poll_refresh_result_without_result caching_coordinator KeyError eq_refl)
      as [Hsame|(Htype & _)]; [exact Hsame | discriminate].
  - destruct (on_message_error_leaves_the_state a_configuration
                (event_from "device"
                   [(KStr "event", JStr "got rtsp url"); (KStr "serialNumber", JStr "D7");
                    (KStr "name", JArr []); (KStr "rtspUrl", JStr "rtsp://d7")])
                __init__ TypeError eq_refl)
      as [Hsame|_]; [left; exact Hsame | right; reflexivity].
Defined.

(** X13.  What a message can change, and which message it takes.  The
    cache is changed only by an event of a type the table marks as cached;
    the live snapshot only by a start-listening acknowledgement or by an
    event of a type the table marks as live; at most one state is
    published, the merged state as the message leaves it, and only by a
    message that does not raise; the transport, the clock and the module's
    message dicts are never touched. *)
Theorem on_message_changes_only_its_part
    (conf : list (string * event_conf)) (payload : json) (s : State) :
  let s' := snd (on_message conf payload s) in
  (cache (self_data s') <> cache (self_data s) ->
   exists row, event_row conf payload = Some row /\ conf_is_cached row = true)
  /\ (data (self_data s') <> data (self_data s) ->
      listening_ack payload = true
      \/ exists row, event_row conf payload = Some row /\ conf_is_cached row = false)
  /\ (published s' = published s
      \/ (fst (on_message conf payload s) = Ret tt
          /\ published s' = (published s ++ [self_data s'])%list))
  /\ surroundings s' = surroundings s.
Proof.
  intros s'. subst s'.
  pose proof (keeps_on_message conf payload s) as Hkeeps.
  pose proof (on_message_cases conf payload s) as H.
  set (o := fst (on_message conf payload s)) in *.
  set (s' := snd (on_message conf payload s)) in *.
  clearbody o s'.
  assert (Hs1 : forall (m : M unit) s1, m s = (Ret tt, s1) -> s1 = snd (m s)).
  { intros m s1 Hm. now rewrite Hm. }
  split; [|split; [|split; [|exact Hkeeps]]].
  - intros Hchanged.
    destruct H as [o _ _ _ | _ _ | message state _ _ Hack _
                  | row sources sn pn v s1 Hrow Hcached _ _ Hset
                  | row sources sn pn v s1 Hrow Hcached _ _ Hset
                  | row sources sn pn v e s1 Hrow Hcached _ _ Hset].
    + exfalso. now apply Hchanged.
    + exfalso. now apply Hchanged.
    + exfalso. now apply Hchanged.
    + exfalso. apply Hchanged. rewrite (Hs1 _ _ Hset).
      apply (set_data_frame sources sn pn v s).
    + now exists row.
    + now exists row.
  - intros Hchanged.
    destruct H as [o _ _ _ | _ _ | message state _ _ Hack _
                  | row sources sn pn v s1 Hrow Hcached _ _ Hset
                  | row sources sn pn v s1 Hrow Hcached _ _ Hset
                  | row sources sn pn v e s1 Hrow Hcached _ _ Hset].
    + exfalso. now apply Hchanged.
    + exfalso. now apply Hchanged.
    + now left.
    + right. now exists row.
    + exfalso. apply Hchanged. rewrite (Hs1 _ _ Hset).
      apply (set_cache_frame sources sn pn v s).
    + exfalso. apply Hchanged. apply (f_equal snd) in Hset. simpl in Hset. subst s1.
      apply (set_cache_frame sources sn pn v s).
  - destruct H as [o _ _ _ | _ _ | message state _ _ Hack _
                  | row sources sn pn v s1 Hrow Hcached _ _ Hset
                  | row sources sn pn v s1 Hrow Hcached _ _ Hset
                  | row sources sn pn v e s1 Hrow Hcached _ _ Hset].
    + now left.
    + now left.
    + right. split; reflexivity.
    + right. split; [reflexivity|]. rewrite (Hs1 _ _ Hset). simpl.
      now rewrite (proj1 (proj2 (proj2 (set_data_frame sources sn pn v s)))).
    + right. split; [reflexivity|]. rewrite (Hs1 _ _ Hset). simpl.
      now rewrite (proj1 (proj2 (proj2 (set_cache_frame sources sn pn v s)))).
    + left. apply (f_equal snd) in Hset. simpl in Hset. subst s1.
      apply (set_cache_frame sources sn pn v s).
Qed.

(** The theorem at work: the snapshot changes under a start-listening
    acknowledgement, the cache under an event of a cached type. *)
Lemma on_message_changes_only_its_part_witness :
  (listening_ack start_listening_result = true
   \/ exists row,
        event_row a_configuration start_listening_result = Some row
        /\ conf_is_cached row = false)
  /\ exists row,
       event_row a_configuration (event_from "station" rtsp_url_fields) = Some row
       /\ conf_is_cached row = true.
Proof.
  split.
  - apply (on_message_changes_only_its_part a_configuration start_listening_result
             __init__).
    vm_compute. discriminate.
  - apply (on_message_changes_only_its_part a_configuration
             (event_from "station" rtsp_url_fields) __init__).
    vm_compute. discriminate.
Defined.

(** *** Events, from the message to the store *)







(** *** Commands *)

(** What [fill_message] returns: the module's dict with the formatted
    command and the serial number, its other fields as they were. *)
Lemma fill_message_inv message device_type serial_no m :
  fill_message message device_type serial_no = Ret m ->
  exists d template command,
    message = JObj d
    /\ dict_get (KStr "command") d = Some (JStr template)
    /\ str_format template (get_device_type_name device_type) Unnumbered = Ret command
    /\ m = JObj (dict_set (KStr "serialNumber") serial_no
                   (dict_set (KStr "command") (JStr command) d)).
Proof.
  unfold fill_message, format_command. intros Hfill.
  destruct (getitem message "command") as [c|e] eqn:Hc; [|discriminate].
  destruct (getitem_dict _ _ _ Hc) as (d & -> & Hd).
  simpl in Hfill. destruct c as [| | |template| |]; try discriminate.
  destruct (str_format template (get_device_type_name device_type) Unnumbered)
    as [command|e] eqn:Hformat; [|discriminate].
  simpl in Hfill. injection Hfill as <-.
  exists d, template, command. now repeat split.
Qed.

Lemma fill_message_serial message device_type serial_no m :
  fill_message message device_type serial_no = Ret m ->
  getitem m "serialNumber" = Ret serial_no.
Proof.
  intros Hfill.
  destruct (fill_message_inv _ _ _ _ Hfill) as (d & template & command & _ & _ & _ & ->).
  unfold getitem. now rewrite dict_get_set_eq.
Qed.

(** [str_format] returns a string on supported templates only. *)
Lemma str_format_returns_supported template :
  forall arg mode r,
    str_format template arg mode = Ret r -> supported_template template = true.
Proof.
  remember (String.length template) as n eqn:Hn. revert template Hn.
  induction n as [n IH] using lt_wf_ind. intros template -> arg mode r H.
  assert (Hrest : forall rest mode' r',
             String.length rest < String.length template ->
             str_format rest arg mode' = Ret r' -> supported_template rest = true).
  { intros rest mode' r' Hlt Hrest. now apply (IH _ Hlt rest eq_refl arg mode' r'). }
  clear IH.
  destruct template as [|c template]; [reflexivity|].
  destruct c as [[] [] [] [] [] [] [] []];
    try (simpl in H |- *;
         match type of H with
         | context [str_format template arg ?m] =>
             destruct (str_format template arg m) eqn:E; [|discriminate H];
             apply (Hrest _ _ _ (Nat.lt_succ_diag_r _) E)
         end).
  - destruct template as [|c template]; [simpl in H; discriminate H|].
    destruct c as [[] [] [] [] [] [] [] []]; try (simpl in H; discriminate H).
    + simpl in H |- *.
      destruct (str_format template arg mode) eqn:E; [|discriminate H].
      (eapply Hrest; [|exact E]; cbn [String.length]; lia).
    + destruct mode as [|[|next]|]; simpl in H |- *; try discriminate H;
        (destruct (str_format template arg (Automatic 1)) eqn:E; [|discriminate H];
         (eapply Hrest; [|exact E]; cbn [String.length]; lia)).
    + destruct template as [|c template]; [simpl in H; discriminate H|].
      destruct c as [[] [] [] [] [] [] [] []]; try (simpl in H; discriminate H).
      destruct mode as [|next|]; simpl in H |- *; try discriminate H;
        (destruct (str_format template arg Manual) eqn:E; [|discriminate H];
         (eapply Hrest; [|exact E]; cbn [String.length]; lia)).
  - destruct template as [|c template]; [simpl in H; discriminate H|].
    destruct c as [[] [] [] [] [] [] [] []]; try (simpl in H; discriminate H).
    simpl in H |- *.
    destruct (str_format template arg mode) eqn:E; [|discriminate H].
    (eapply Hrest; [|exact E]; cbn [String.length]; lia).
Qed.

(** X16.  A call of [async_get_properties_for_device] (and of
    [async_get_properties_metadata_for_device]) when the command of the
    module's dict, if a string, is a supported template.  If the call
    returns, the coordinator had a transport, exactly one message was
    handed to it, as a dict and not as text, the message carries the given
    serial number, the module's dict now holds what was sent and the other
    method's dict is as it was.  If the coordinator has no transport, the
    call raises [AttributeError] after the module's dict has been
    overwritten with the message that could not be sent.  If the dict has
    no command to format, or the formatting raises, the call raises before
    anything is changed. *)
Theorem get_properties_call
    (conf : list (string * event_conf)) (deliveries : nat -> list callback)
    (device_type : DeviceType) (serial_no : json) (s : State) :
  (command_supported (GET_PROPERTIES_MESSAGE s) = true ->
   (forall s',
       async_get_properties_for_device conf deliveries device_type serial_no s
       = (Ret tt, s') ->
       exists w m,
         ws s = Some w
         /\ fill_message (GET_PROPERTIES_MESSAGE s) device_type serial_no = Ret m
         /\ ws s' = Some (mkWebSocket (connected w) (sent w ++ [Undumped m]))
         /\ GET_PROPERTIES_MESSAGE s' = m
         /\ getitem m "serialNumber" = Ret serial_no
         /\ GET_PROPERTIES_METADATA_MESSAGE s' = GET_PROPERTIES_METADATA_MESSAGE s)
   /\ (forall m,
         fill_message (GET_PROPERTIES_MESSAGE s) device_type serial_no = Ret m ->
         ws s = None ->
         async_get_properties_for_device conf deliveries device_type serial_no s
         = (Raise AttributeError, with_GET_PROPERTIES_MESSAGE m s))
   /\ (forall e,
         fill_message (GET_PROPERTIES_MESSAGE s) device_type serial_no = Raise e ->
         async_get_properties_for_device conf deliveries device_type serial_no s
         = (Raise e, s)))
  /\ (command_supported (GET_PROPERTIES_METADATA_MESSAGE s) = true ->
      (forall s',
         async_get_properties_metadata_for_device conf deliveries device_type serial_no s
         = (Ret tt, s') ->
         exists w m,
           ws s = Some w
           /\ fill_message (GET_PROPERTIES_METADATA_MESSAGE s) device_type serial_no = Ret m
           /\ ws s' = Some (mkWebSocket (connected w) (sent w ++ [Undumped m]))
           /\ GET_PROPERTIES_METADATA_MESSAGE s' = m
           /\ getitem m "serialNumber" = Ret serial_no
           /\ GET_PROPERTIES_MESSAGE s' = GET_PROPERTIES_MESSAGE s)
      /\ (forall m,
            fill_message (GET_PROPERTIES_METADATA_MESSAGE s) device_type serial_no = Ret m ->
            ws s = None ->
            async_get_properties_metadata_for_device conf deliveries device_type serial_no s
            = (Raise AttributeError, with_GET_PROPERTIES_METADATA_MESSAGE m s))
      /\ (forall e,
            fill_message (GET_PROPERTIES_METADATA_MESSAGE s) device_type serial_no
            = Raise e ->
            async_get_properties_metadata_for_device conf deliveries device_type serial_no s
            = (Raise e, s))).
Proof.
  split; (intros _; split; [|split]).
  - intros s' Hcall. unfold async_get_properties_for_device in Hcall.
    destruct (fill_message (GET_PROPERTIES_MESSAGE s) device_type serial_no) as [m|e]
      eqn:Hfill; [|discriminate].
    destruct (ws s) as [w|] eqn:Hws.
    + destruct (send_after conf deliveries (Undumped m)
                  (with_GET_PROPERTIES_MESSAGE m s) w Hws)
        as (s'' & Hsend & Hws' & Hgp & Hgpm).
      rewrite Hsend in Hcall. injection Hcall as <-.
      exists w, m. repeat split; try assumption.
      now apply (fill_message_serial _ _ _ _ Hfill).
    + unfold async_send_message, send_message, ws_call in Hcall.
      change (ws (with_GET_PROPERTIES_MESSAGE m s)) with (ws s) in Hcall.
      rewrite Hws in Hcall. discriminate.
  - intros m Hfill Hws. unfold async_get_properties_for_device. rewrite Hfill.
    unfold async_send_message, send_message, ws_call.
    change (ws (with_GET_PROPERTIES_MESSAGE m s)) with (ws s). now rewrite Hws.
  - intros e Hfill. unfold async_get_properties_for_device. now rewrite Hfill.
  - intros s' Hcall. unfold async_get_properties_metadata_for_device in Hcall.
    destruct (fill_message (GET_PROPERTIES_METADATA_MESSAGE s) device_type serial_no)
      as [m|e] eqn:Hfill; [|discriminate].
    destruct (ws s) as [w|] eqn:Hws.
    + destruct (send_after conf deliveries (Undumped m)
                  (with_GET_PROPERTIES_METADATA_MESSAGE m s) w Hws)
        as (s'' & Hsend & Hws' & Hgp & Hgpm).
      rewrite Hsend in Hcall. injection Hcall as <-.
      exists w, m. repeat split; try assumption.
      now apply (fill_message_serial _ _ _ _ Hfill).
    + unfold async_send_message, send_message, ws_call in Hcall.
      change (ws (with_GET_PROPERTIES_METADATA_MESSAGE m s)) with (ws s) in Hcall.
      rewrite Hws in Hcall. discriminate.
  - intros m Hfill Hws. unfold async_get_properties_metadata_for_device. rewrite Hfill.
    unfold async_send_message, send_message, ws_call.
    change (ws (with_GET_PROPERTIES_METADATA_MESSAGE m s)) with (ws s). now rewrite Hws.
  - intros e Hfill. unfold async_get_properties_metadata_for_device. now rewrite Hfill.
Qed.

(** The theorem at work: the properties of camera D1 are asked for on a
    new coordinator, which has no transport: nothing is sent, and the
    command template of the module's dict is gone all the same. *)
Lemma get_properties_call_witness :
  async_get_properties_for_device [] quiet (OTHER 1) (JStr "D1") __init__
  = (Raise AttributeError,
     with_GET_PROPERTIES_MESSAGE
       (obj [("command", JStr "device.get_properties"); ("serialNumber", JStr "D1")])
       __init__)
  /\ exists w m,
       ws connected_coordinator = Some w
       /\ fill_message (GET_PROPERTIES_MESSAGE connected_coordinator) STATION (JStr "S1")
          = Ret m
       /\ getitem m "serialNumber" = Ret (JStr "S1").
Proof.
  split.
  - destruct (get_properties_call [] quiet (OTHER 1) (JStr "D1") __init__) as (Hcall & _).
    destruct (Hcall eq_refl) as (_ & Hclosed & _).
    apply Hclosed; reflexivity.
  - destruct (get_properties_call [] quiet STATION (JStr "S1") connected_coordinator)
      as (Hcall & _).
    destruct (Hcall eq_refl) as (Hreturns & _).
    destruct (Hreturns (snd (async_get_properties_for_device [] quiet STATION (JStr "S1")
                               connected_coordinator)) eq_refl)
      as (w & m & Hws & Hfill & _ & _ & Hserial & _).
    exists w, m. now repeat split.
Defined.

Section DictOrder.

Context {A : Type}.
Implicit Types (d : dict A) (k : key) (v : A).

(** Setting [k1] again after [k2] has been set is setting it before. *)
Lemma dict_set_over d k1 k2 a a' b :
  key_eqb k1 k2 = false ->
  dict_set k1 a' (dict_set k2 b (dict_set k1 a d)) = dict_set k2 b (dict_set k1 a' d).
Proof.
  intros Hne. induction d as [|[k0 v0] r IH]; simpl.
  - rewrite Hne. simpl. now rewrite key_eqb_refl.
  - destruct (key_eqb k0 k1) eqn:E1; simpl.
    + rewrite (key_eqb_apart k0 k1 k2 E1 Hne). simpl. now rewrite E1.
    + destruct (key_eqb k0 k2) eqn:E2; simpl; rewrite E1.
      * now rewrite dict_set_set.
      * now rewrite IH.
Qed.

End DictOrder.

(** X17.  [async_set_rtsp] on a coordinator with a transport and a
    module-level dict: every call sends, as text, the dict with the call's
    own serial number and value, its other fields as they are; a second
    call sends exactly what it would have sent had the first not been made,
    so nothing of an earlier call stays in a later message. *)
Theorem set_rtsp_sends_its_own_arguments
    (conf : list (string * event_conf)) (deliveries : nat -> list callback)
    (serial_no1 value1 serial_no2 value2 : json)
    (d : list (key * json)) (s : State) (w : EufySecurityWebSocket) :
  ws s = Some w ->
  let message_for serial_no value :=
    JObj (dict_set (KStr "value") value (dict_set (KStr "serialNumber") serial_no d)) in
  exists s1 s2,
    async_set_rtsp conf deliveries serial_no1 value1 (JObj d) s
    = (Ret tt, (message_for serial_no1 value1, s1))
    /\ async_set_rtsp conf deliveries serial_no2 value2 (message_for serial_no1 value1) s1
       = (Ret tt, (message_for serial_no2 value2, s2))
    /\ ws s2
       = Some (mkWebSocket (connected w)
                 (sent w ++ [Dumps (message_for serial_no1 value1);
                             Dumps (message_for serial_no2 value2)]))
    /\ getitem (message_for serial_no2 value2) "serialNumber" = Ret serial_no2
    /\ getitem (message_for serial_no2 value2) "value" = Ret value2
    /\ (forall k,
          key_eqb (KStr "serialNumber") k = false -> key_eqb (KStr "value") k = false ->
          forall d2, message_for serial_no2 value2 = JObj d2 ->
                     dict_get k d2 = dict_get k d).
Proof.
  intros Hws message_for.
  destruct (send_after conf deliveries (Dumps (message_for serial_no1 value1)) s w Hws)
    as (s1 & Hsend1 & Hws1 & _).
  destruct (send_after conf deliveries (Dumps (message_for serial_no2 value2)) s1 _ Hws1)
    as (s2 & Hsend2 & Hws2 & _).
  exists s1, s2. split; [|split; [|split; [|split; [|split]]]].
  - unfold async_set_rtsp. cbn [setitem to_key]. fold (message_for serial_no1 value1).
    now rewrite Hsend1.
  - unfold async_set_rtsp, message_for at 1. cbn [setitem to_key].
    rewrite (dict_set_over d (KStr "serialNumber") (KStr "value") _ _ _ eq_refl).
    rewrite dict_set_set. fold (message_for serial_no2 value2).
    now rewrite Hsend2.
  - rewrite Hws2. simpl. now rewrite <- app_assoc.
  - unfold message_for, getitem.
    rewrite (dict_get_set_ne _ (KStr "value") (KStr "serialNumber") _ eq_refl).
    now rewrite dict_get_set_eq.
  - unfold message_for, getitem. now rewrite dict_get_set_eq.
  - intros k Hserial Hvalue d2 [= <-].
    now rewrite (dict_get_set_ne _ _ _ _ Hvalue), (dict_get_set_ne _ _ _ _ Hserial).
Qed.

(** The theorem at work: the stream of camera D1 is turned on, then the
    stream of camera D2 is turned off. *)
Lemma set_rtsp_sends_its_own_arguments_witness :
  exists m1 s1 s2,
    async_set_rtsp [] quiet (JStr "D1") (JBool true) a_set_rtsp_stream_message
      connected_coordinator
    = (Ret tt, (m1, s1))
    /\ async_set_rtsp [] quiet (JStr "D2") (JBool false) m1 s1
       = (Ret tt,
          (obj [("messageId", JStr "set_rtsp_stream");
                ("command", JStr "device.set_rtsp_stream");
                ("serialNumber", JStr "D2"); ("value", JBool false)],
           s2)).
Proof.
  destruct (set_rtsp_sends_its_own_arguments [] quiet (JStr "D1") (JBool true)
              (JStr "D2") (JBool false)
              [(KStr "messageId", JStr "set_rtsp_stream");
               (KStr "command", JStr "device.set_rtsp_stream");
               (KStr "serialNumber", JNull); (KStr "value", JNull)]
              connected_coordinator (mkWebSocket true []) eq_refl)
    as (s1 & s2 & Hfirst & Hsecond & _).
  eexists _, s1, s2. split; [exact Hfirst | exact Hsecond].
Defined.
